(** * J.A.R.V.I.S. hardware integration: packet capture and DPI engine

    A shallow embedding of
      - [src/hardware_integration/packet_capture/packet_capture.c]
        (ring buffer, flow table), and
      - [src/hardware_integration/dpi/dpi_engine.c]
        (dissectors, session table, rule engine, alert queue),
    followed by the properties checked against them.

    Conventions.
      - A C unsigned integer of width w is a [Z]; every operation that can
        wrap in C is written with its reduction modulo 2^w ([u8] .. [u64]).
      - A byte buffer is a [list Z]; an array of structs is a list that is
        read with [!!] and written with [<[i:=x]>].
      - A pointer argument that the code tests against NULL is an [option].
      - [malloc], [calloc], [realloc], [mmap] and [regcomp] can fail: their
        outcome is supplied by the caller of the model. *)

From Stdlib Require Import ZArith List Bool String Ascii Lia DecimalString.
From stdpp Require Import base list.
Import ListNotations.
Local Open Scope Z_scope.

(** ** Machine integers *)

Definition u8  (x : Z) : Z := x mod 2^8.
Definition u16 (x : Z) : Z := x mod 2^16.
Definition u32 (x : Z) : Z := x mod 2^32.
Definition u64 (x : Z) : Z := x mod 2^64.

Definition UINT32_MAX : Z := 2^32 - 1.

(** ** Byte buffers *)

(** [memcpy dst off src n]: copy the first [n] bytes of [src] into [dst]
    starting at index [off]. *)
Fixpoint memcpy (dst : list Z) (off : nat) (src : list Z) (n : nat) : list Z :=
  match n, src with
  | S n', b :: src' => memcpy (<[off := b]> dst) (S off) src' n'
  | _, _ => dst
  end.

(** * Packet capture engine *)
Module Capture.

(** ** Ring buffer *)

Record RingBuffer := mkRingBuffer {
  buffer    : list Z;   (* the mmap'd region, [size] bytes *)
  size      : Z;        (* uint32_t *)
  write_pos : Z;        (* uint64_t, absolute *)
  read_pos  : Z;        (* uint64_t, absolute *)
  encrypted : bool
}.

(** [ringbuffer_alloc]: [malloc_ok] and [mmap_ok] tell whether the two
    allocations succeed; [mmap] rejects a zero length (EINVAL). *)
Definition ringbuffer_alloc (malloc_ok mmap_ok : bool) (size_mb : Z)
  : option RingBuffer :=
  if negb malloc_ok then None
  else
    let sz := u32 (u32 (size_mb * 1024) * 1024) in
    if negb mmap_ok || (sz =? 0) then None
    else Some {| buffer := replicate (Z.to_nat sz) 0;
                 size := sz;
                 write_pos := 0;
                 read_pos := 0;
                 encrypted := false |}.

(** [ringbuffer_append rb data len packet_id] returns the new buffer, the
    returned offset ([UINT32_MAX] on a drop) and the value of [*packet_id]
    after the call (left as it was on a drop). *)
Definition ringbuffer_append (rb : RingBuffer) (data : list Z) (len : Z)
    (packet_id : Z) : RingBuffer * Z * Z :=
  let offset := u32 (rb.(write_pos) mod rb.(size)) in
  let available := u32 (u64 (rb.(size) - u64 (rb.(write_pos) - rb.(read_pos)))) in
  if available <? len then
    (* Buffer full - packet dropped *)
    (rb, UINT32_MAX, packet_id)
  else
    let buffer' :=
      if u32 (offset + len) <=? rb.(size) then
        memcpy rb.(buffer) (Z.to_nat offset) data (Z.to_nat len)
      else
        (* Wrap around case *)
        let first_part := u32 (rb.(size) - offset) in
        memcpy (memcpy rb.(buffer) (Z.to_nat offset) data (Z.to_nat first_part))
               0%nat (drop (Z.to_nat first_part) data)
               (Z.to_nat (u32 (len - first_part))) in
    let write_pos' := u64 (rb.(write_pos) + len) in
    ({| buffer := buffer';
        size := rb.(size);
        write_pos := write_pos';
        read_pos := rb.(read_pos);
        encrypted := rb.(encrypted) |},
     offset, write_pos').

(** A run of appends, each packet given with its length; the packet id
    cell is threaded through. *)
Fixpoint ringbuffer_append_all (rb : RingBuffer) (pkts : list (list Z * Z))
    (packet_id : Z) : RingBuffer * Z :=
  match pkts with
  | [] => (rb, packet_id)
  | (data, len) :: rest =>
      let '(rb', _, pid') := ringbuffer_append rb data len packet_id in
      ringbuffer_append_all rb' rest pid'
  end.

(** The representation invariant of a ring buffer: the fields are in the
    range of their C types, the region has [size] bytes, the positions
    satisfy the two inequalities of spec section 3, and the absolute
    positions have not run through the 64 bits of their counters. *)
Record rb_wf (rb : RingBuffer) : Prop := mk_rb_wf {
  wf_size    : 0 < rb.(size) < 2^32;
  wf_buffer  : length rb.(buffer) = Z.to_nat rb.(size);
  wf_read    : 0 <= rb.(read_pos);
  wf_order   : rb.(read_pos) <= rb.(write_pos);
  wf_fill    : rb.(write_pos) - rb.(read_pos) <= rb.(size);
  wf_nowrap  : rb.(read_pos) + rb.(size) < 2^64
}.

(** Every packet of a run has a [uint32_t] length. *)
Definition lens_ok (pkts : list (list Z * Z)) : Prop :=
  Forall (fun p => 0 <= snd p < 2^32) pkts.

(** ** Flow table *)

(** [FlowTuple] as it lies in memory: the fields at offsets 0, 4, 8, 10,
    12 and 14, and the padding byte at offset 13 that [flow_tuple_hash]
    reads along with them (it hashes [sizeof(FlowTuple)] = 16 raw bytes). *)
Record FlowTuple := mkFlowTuple {
  src_ip   : Z;   (* uint32_t *)
  dst_ip   : Z;   (* uint32_t *)
  src_port : Z;   (* uint16_t *)
  dst_port : Z;   (* uint16_t *)
  protocol : Z;   (* uint8_t  *)
  pad13    : Z;   (* padding byte *)
  vlan_id  : Z    (* uint16_t *)
}.

Record FlowRecord := mkFlowRecord {
  tuple           : FlowTuple;
  flow_id         : Z;
  first_packet_id : Z;
  last_packet_id  : Z;
  first_seen_ns   : Z;
  last_seen_ns    : Z;
  packets         : Z;
  bytes           : Z;
  bytes_fwd       : Z;
  bytes_rev       : Z;
  flags           : Z;
  interface_id    : Z;
  state           : Z;
  _reserved       : Z
}.

Record FlowEntry := mkFlowEntry {
  flow             : FlowRecord;
  last_activity_ns : Z;
  packet_count     : Z;
  entry_state      : Z
}.

Record FlowTable := mkFlowTable {
  entries  : list FlowEntry;
  ft_size  : Z;   (* uint32_t *)
  ft_count : Z    (* uint32_t *)
}.

Definition zero_tuple : FlowTuple := mkFlowTuple 0 0 0 0 0 0 0.
Definition zero_record : FlowRecord :=
  mkFlowRecord zero_tuple 0 0 0 0 0 0 0 0 0 0 0 0 0.
(** What [calloc] leaves in a slot. *)
Definition zero_entry : FlowEntry := mkFlowEntry zero_record 0 0 0.

(** Little-endian bytes of an unsigned value. *)
Fixpoint le_bytes (n : nat) (x : Z) : list Z :=
  match n with
  | O => []
  | S n' => (x mod 256) :: le_bytes n' (x / 256)
  end.

Definition tuple_bytes (t : FlowTuple) : list Z :=
  le_bytes 4 t.(src_ip) ++ le_bytes 4 t.(dst_ip) ++
  le_bytes 2 t.(src_port) ++ le_bytes 2 t.(dst_port) ++
  le_bytes 1 t.(protocol) ++ le_bytes 1 t.(pad13) ++ le_bytes 2 t.(vlan_id).

Definition FNV_OFFSET_BASIS : Z := 14695981039346656037.
Definition FNV_PRIME : Z := 1099511628211.

(** FNV-1a over the bytes of the tuple. *)
Definition flow_tuple_hash (t : FlowTuple) : Z :=
  fold_left (fun hash b => u64 (Z.lxor hash b * FNV_PRIME))
            (tuple_bytes t) FNV_OFFSET_BASIS.

Definition entry_at (ft : FlowTable) (idx : Z) : FlowEntry :=
  default zero_entry (ft.(entries) !! Z.to_nat idx).

(** [idx = flow_id % ft->size]; [ft->size] is a divisor and the C code
    requires it to be nonzero. *)
Definition slot_index (ft : FlowTable) (tuple : FlowTuple) : Z :=
  u32 (flow_tuple_hash tuple mod ft.(ft_size)).

(** Whether [flow_table_update] takes a slot for free. *)
Definition slot_free (entry : FlowEntry) : bool :=
  entry.(flow).(Capture.tuple).(src_ip) =? 0.

(** What [flow_table_update] does to the slot [entry] points to. *)
Definition entry_update (entry : FlowEntry) (tuple : FlowTuple)
    (flow_id payload_len packet_id timestamp_ns : Z) : FlowEntry :=
  let f := entry.(flow) in
  let f1 :=
    if slot_free entry then
      (* New entry *)
      {| tuple := tuple;
         flow_id := flow_id;
         first_packet_id := packet_id;
         last_packet_id := f.(last_packet_id);
         first_seen_ns := timestamp_ns;
         last_seen_ns := f.(last_seen_ns);
         packets := 1;
         bytes := payload_len;
         bytes_fwd := f.(bytes_fwd);
         bytes_rev := f.(bytes_rev);
         flags := f.(flags);
         interface_id := f.(interface_id);
         state := 0;
         _reserved := f.(_reserved) |}
    else
      (* Update existing *)
      {| tuple := f.(Capture.tuple);
         flow_id := f.(Capture.flow_id);
         first_packet_id := f.(first_packet_id);
         last_packet_id := packet_id;
         first_seen_ns := f.(first_seen_ns);
         last_seen_ns := f.(last_seen_ns);
         packets := u64 (f.(packets) + 1);
         bytes := u64 (f.(bytes) + payload_len);
         bytes_fwd := f.(bytes_fwd);
         bytes_rev := f.(bytes_rev);
         flags := f.(flags);
         interface_id := f.(interface_id);
         state := f.(state);
         _reserved := f.(_reserved) |} in
  {| flow :=
       {| tuple := f1.(Capture.tuple);
          flow_id := f1.(Capture.flow_id);
          first_packet_id := f1.(first_packet_id);
          last_packet_id := f1.(last_packet_id);
          first_seen_ns := f1.(first_seen_ns);
          last_seen_ns := timestamp_ns;
          packets := f1.(packets);
          bytes := f1.(bytes);
          bytes_fwd := f1.(bytes_fwd);
          bytes_rev := f1.(bytes_rev);
          flags := f1.(flags);
          interface_id := f1.(interface_id);
          state := f1.(state);
          _reserved := f1.(_reserved) |};
     last_activity_ns := timestamp_ns;
     packet_count := entry.(packet_count);
     entry_state := entry.(entry_state) |}.

(** [flow_table_update]: the table after the call and the return code. *)
Definition flow_table_update (ft : option FlowTable) (tuple : option FlowTuple)
    (payload_len packet_id timestamp_ns : Z) : option FlowTable * Z :=
  match ft, tuple with
  | Some ft, Some tuple =>
      let flow_id := flow_tuple_hash tuple in
      let idx := slot_index ft tuple in
      let entry := entry_at ft idx in
      (Some {| entries :=
                 <[Z.to_nat idx :=
                     entry_update entry tuple flow_id payload_len packet_id
                                  timestamp_ns]> ft.(entries);
               ft_size := ft.(ft_size);
               ft_count := if slot_free entry then u32 (ft.(ft_count) + 1)
                           else ft.(ft_count) |},
       0)
  | _, _ => (ft, -1)
  end.

(** [flow_table_lookup ft tuple flow]: the return code and the record at
    [*flow] after the call ([flow] is [None] for a NULL pointer). *)
Definition flow_table_lookup (ft : option FlowTable) (tuple : option FlowTuple)
    (flow : option FlowRecord) : Z * option FlowRecord :=
  match ft, tuple, flow with
  | Some ft, Some tuple, Some _ =>
      let idx := slot_index ft tuple in
      let entry := entry_at ft idx in
      let et := entry.(Capture.flow).(Capture.tuple) in
      if (et.(src_ip) =? tuple.(src_ip)) &&
         (et.(dst_ip) =? tuple.(dst_ip)) &&
         (et.(src_port) =? tuple.(src_port)) &&
         (et.(dst_port) =? tuple.(dst_port)) &&
         (et.(protocol) =? tuple.(protocol))
      then (0, Some entry.(Capture.flow))
      else (1, flow)   (* Not found *)
  | _, _, _ => (-1, flow)
  end.

(** [flow_table_init] as [calloc] leaves it ([None] when an allocation
    fails). *)
Definition flow_table_init (malloc_ok calloc_ok : bool) (size : Z)
  : option FlowTable :=
  if negb malloc_ok then None
  else if negb calloc_ok then None
  else Some {| entries := replicate (Z.to_nat size) zero_entry;
               ft_size := size;
               ft_count := 0 |}.

(** One call of [flow_table_update], as data. *)
Record update_call := mkUpdate {
  uc_tuple : FlowTuple;
  uc_len   : Z;
  uc_id    : Z;
  uc_ts    : Z
}.

Definition flow_table_update_call (ft : FlowTable) (c : update_call)
  : FlowTable :=
  default ft (fst (flow_table_update (Some ft) (Some c.(uc_tuple))
                     c.(uc_len) c.(uc_id) c.(uc_ts))).

Definition flow_table_updates (ft : FlowTable) (calls : list update_call)
  : FlowTable :=
  fold_left flow_table_update_call calls ft.

(** The table [flow_table_init] and [capture_flow_enable] build. *)
Definition empty_table (n : Z) : FlowTable :=
  {| entries := replicate (Z.to_nat n) zero_entry;
     ft_size := n;
     ft_count := 0 |}.

(** The calls carry non-decreasing timestamps, none before [t0]. *)
Fixpoint ts_from (t0 : Z) (calls : list update_call) : bool :=
  match calls with
  | [] => true
  | c :: rest => (t0 <=? c.(uc_ts)) && ts_from c.(uc_ts) rest
  end.

Definition ts_sorted (calls : list update_call) : bool :=
  match calls with
  | [] => true
  | c :: rest => ts_from c.(uc_ts) rest
  end.

(** The array has [ft_size] slots and [ft_size] is a nonzero [uint32_t]. *)
Definition ft_wf (ft : FlowTable) : Prop :=
  0 < ft.(ft_size) < 2^32 /\ length ft.(entries) = Z.to_nat ft.(ft_size).

(** A taken slot after at most [k] updates, the last one no later than
    [T]. *)
Definition entry_inv (k T : Z) (e : FlowEntry) : Prop :=
  slot_free e = false ->
  1 <= e.(flow).(packets) <= k /\
  e.(flow).(first_seen_ns) <= e.(flow).(last_seen_ns) /\
  e.(flow).(last_seen_ns) <= T.

Definition table_inv (k T : Z) (ft : FlowTable) : Prop :=
  ft_wf ft /\
  forall i : nat, entry_inv k T (default zero_entry (ft.(entries) !! i)).


(** The slots [flow_table_update] does not take for free, in slot
    order. *)
Definition taken (es : list FlowEntry) : list FlowEntry :=
  List.filter (fun e => negb (slot_free e)) es.

(** The loop of [flow_table_get_all], [i] and [idx] as in the code, with
    one unit of [fuel] for each of the iterations [i < ft->size] allows. *)
Fixpoint get_all_loop (ft : FlowTable) (flows : list FlowRecord)
    (i idx : nat) (fuel : nat) : list FlowRecord :=
  match fuel with
  | O => flows
  | S fuel' =>
      if (Z.of_nat i <? ft.(ft_size)) && (Z.of_nat idx <? ft.(ft_count)) then
        let e := entry_at ft (Z.of_nat i) in
        if negb (slot_free e)
        then get_all_loop ft (<[idx := e.(flow)]> flows) (S i) (S idx) fuel'
        else get_all_loop ft flows (S i) idx fuel'
      else flows
  end.

(** [flow_table_get_all]: the return code, the cell [*flows] and the cell
    [*count] after the call. [malloc_ok] tells whether [malloc] returns an
    array; what the array holds before the loop fills it is modelled as
    zeroed records. [*count] is written before the allocation. *)
Definition flow_table_get_all (malloc_ok : bool) (ft : option FlowTable)
    (flows : option (option (list FlowRecord))) (count : option Z)
  : Z * option (option (list FlowRecord)) * option Z :=
  match ft, flows, count with
  | Some ft, Some _, Some _ =>
      if negb malloc_ok then (-1, Some None, Some ft.(ft_count))
      else
        let arr := replicate (Z.to_nat ft.(ft_count)) zero_record in
        (0,
         Some (Some (get_all_loop ft arr 0 0 (Z.to_nat ft.(ft_size)))),
         Some ft.(ft_count))
  | _, _, _ => (-1, flows, count)
  end.

(** Every call of a run is on a tuple with a nonzero [uint32_t] source
    address. *)
Definition sources_nonzero (calls : list update_call) : Prop :=
  Forall (fun c => 0 < c.(uc_tuple).(src_ip) < 2^32) calls.

(** The bytes of a run of updates. *)
Definition total_len (calls : list update_call) : Z :=
  fold_right Z.add 0 (map uc_len calls).
End Capture.

(** * C strings over byte buffers

    A buffer handed to the string functions of the C library is read up to
    its first NUL; the model reads a NUL at every index past the end of the
    list. *)

Definition byte_at (data : list Z) (i : nat) : Z := default 0 (data !! i).

Definition bytes_of_string (s : string) : list Z :=
  map (fun c => Z.of_N (N_of_ascii c)) (list_ascii_of_string s).

(** The bytes of a string literal, without its terminating NUL. *)
Definition lit (s : string) : list Z := bytes_of_string s.

Definition string_of_bytes (l : list Z) : string :=
  string_of_list_ascii (map (fun b => ascii_of_N (Z.to_N b)) l).

(** [strncmp s1 s2 n]: difference of the first bytes that differ among the
    first [n], 0 when there is none before a common NUL. *)
Fixpoint strncmp (s1 s2 : list Z) (n : nat) : Z :=
  match n with
  | O => 0
  | S n' =>
      let c1 := byte_at s1 0 in
      let c2 := byte_at s2 0 in
      if c1 =? c2 then
        if c1 =? 0 then 0 else strncmp (tail s1) (tail s2) n'
      else c1 - c2
  end.

(** [strchr s c] for [c <> 0]: index of the first [c] before the first NUL. *)
Fixpoint strchr (s : list Z) (c : Z) : option nat :=
  match s with
  | [] => None
  | b :: s' =>
      if b =? c then Some O
      else if b =? 0 then None
      else option_map S (strchr s' c)
  end.

(** The bytes of a C string: those before the first NUL. *)
Fixpoint c_str (s : list Z) : list Z :=
  match s with
  | [] => []
  | b :: s' => if b =? 0 then [] else b :: c_str s'
  end.

Fixpoint is_prefix (p s : list Z) : bool :=
  match p, s with
  | [], _ => true
  | _ :: _, [] => false
  | a :: p', b :: s' => (a =? b) && is_prefix p' s'
  end.

(** [strstr haystack needle <> NULL]. *)
Fixpoint strstr_found (haystack needle : list Z) : bool :=
  match haystack with
  | [] => is_prefix needle []
  | _ :: rest => is_prefix needle haystack || strstr_found rest needle
  end.

Definition isdigit (c : Z) : bool := (48 <=? c) && (c <=? 57).
Definition isspace (c : Z) : bool := (c =? 32) || ((9 <=? c) && (c <=? 13)).

Fixpoint atoi_digits (s : list Z) (acc : Z) : Z :=
  match s with
  | c :: s' => if isdigit c then atoi_digits s' (acc * 10 + (c - 48)) else acc
  | [] => acc
  end.

Definition LONG_MAX : Z := 2^63 - 1.
Definition LONG_MIN : Z := - 2^63.

(** [strtol s NULL 10]: white space, an optional sign, then the digits;
    a value out of the range of [long] is returned as [LONG_MAX] or
    [LONG_MIN]. *)
Fixpoint strtol_exact (s : list Z) : Z :=
  match s with
  | c :: s' =>
      if isspace c then strtol_exact s'
      else if c =? 45 then - atoi_digits s' 0
      else if c =? 43 then atoi_digits s' 0
      else atoi_digits s 0
  | [] => 0
  end.

Definition strtol (s : list Z) : Z :=
  Z.max LONG_MIN (Z.min LONG_MAX (strtol_exact s)).

(** The conversion of a [long] to [int]: the low 32 bits, read as a signed
    number. *)
Definition int_of_long (x : Z) : Z := (x + 2^31) mod 2^32 - 2^31.

(** [atoi s] is [(int) strtol (s, NULL, 10)]. *)
Definition atoi (s : list Z) : Z := int_of_long (strtol s).

(** [%u] of [snprintf]. *)
Definition dec_string (x : Z) : string :=
  NilZero.string_of_uint (N.to_uint (Z.to_N x)).

(** * Allocation outcomes

    The outcomes of the allocation calls a function is about to make, in
    call order; a call past the end of the list succeeds. *)
Definition heap := list bool.

Definition alloc (h : heap) : bool * heap :=
  match h with
  | [] => (true, [])
  | ok :: h' => (ok, h')
  end.

(** * Deep packet inspection engine *)
Module DPI.

Definition DPI_MAX_RULES : Z := 10000.
Definition DPI_MAX_ALERTS : Z := 1000000.

Inductive dpi_protocol_t :=
  | DPI_PROTO_UNKNOWN | DPI_PROTO_HTTP | DPI_PROTO_HTTPS | DPI_PROTO_DNS
  | DPI_PROTO_SMTP | DPI_PROTO_SMTPS | DPI_PROTO_FTP | DPI_PROTO_FTPS
  | DPI_PROTO_SMB | DPI_PROTO_SSH | DPI_PROTO_TELNET | DPI_PROTO_SNMP
  | DPI_PROTO_QUIC | DPI_PROTO_DTLS | DPI_PROTO_MQTT | DPI_PROTO_COAP
  | DPI_PROTO_MAX.

Inductive dpi_session_state_t :=
  | DPI_STATE_NEW | DPI_STATE_ESTABLISHED | DPI_STATE_CLOSING
  | DPI_STATE_CLOSED | DPI_STATE_ERROR.

Inductive dpi_alert_severity_t :=
  | DPI_ALERT_INFO | DPI_ALERT_WARNING | DPI_ALERT_CRITICAL
  | DPI_ALERT_MALWARE | DPI_ALERT_ANOMALY.

Inductive dpi_rule_type_t :=
  | DPI_RULE_REGEX | DPI_RULE_SNORT | DPI_RULE_YARA | DPI_RULE_CONTENT
  | DPI_RULE_BEHAVIORAL.

Inductive dpi_tls_mode_t :=
  | DPI_TLS_DISABLED | DPI_TLS_PASSTHROUGH | DPI_TLS_DECRYPT | DPI_TLS_INSPECT.

Definition proto_eqb (a b : dpi_protocol_t) : bool :=
  match a, b with
  | DPI_PROTO_UNKNOWN, DPI_PROTO_UNKNOWN | DPI_PROTO_HTTP, DPI_PROTO_HTTP
  | DPI_PROTO_HTTPS, DPI_PROTO_HTTPS | DPI_PROTO_DNS, DPI_PROTO_DNS
  | DPI_PROTO_SMTP, DPI_PROTO_SMTP | DPI_PROTO_SMTPS, DPI_PROTO_SMTPS
  | DPI_PROTO_FTP, DPI_PROTO_FTP | DPI_PROTO_FTPS, DPI_PROTO_FTPS
  | DPI_PROTO_SMB, DPI_PROTO_SMB | DPI_PROTO_SSH, DPI_PROTO_SSH
  | DPI_PROTO_TELNET, DPI_PROTO_TELNET | DPI_PROTO_SNMP, DPI_PROTO_SNMP
  | DPI_PROTO_QUIC, DPI_PROTO_QUIC | DPI_PROTO_DTLS, DPI_PROTO_DTLS
  | DPI_PROTO_MQTT, DPI_PROTO_MQTT | DPI_PROTO_COAP, DPI_PROTO_COAP
  | DPI_PROTO_MAX, DPI_PROTO_MAX => true
  | _, _ => false
  end.

(** ** Structures of [dpi_engine.h] *)

Record dpi_flow_tuple_t := mkTuple {
  src_ip   : Z;   (* uint32_t *)
  dst_ip   : Z;   (* uint32_t *)
  src_port : Z;   (* uint16_t *)
  dst_port : Z;   (* uint16_t *)
  protocol : Z    (* uint8_t  *)
}.

Record dpi_protocol_result_t := mkProtoResult {
  pr_protocol    : dpi_protocol_t;
  confidence     : Z;        (* uint8_t, 0-100 *)
  detection_tick : Z;        (* uint32_t *)
  app_name       : string
}.

Record dpi_http_data_t := mkHttp {
  method         : string;
  uri            : string;
  host           : string;
  user_agent     : string;
  status_code    : Z;        (* uint16_t *)
  content_length : Z;
  is_request     : Z         (* uint8_t *)
}.

Record dpi_dns_data_t := mkDns {
  transaction_id : Z;        (* uint16_t *)
  query_name     : string;
  query_type     : Z;
  is_query       : Z;        (* uint8_t *)
  response_code  : Z;        (* uint8_t *)
  answered_ips   : option (list Z);
  answer_count   : Z
}.

Record dpi_tls_data_t := mkTls {
  version_major    : Z;
  version_minor    : Z;
  cipher_suite     : Z;
  sni              : string;
  cert_subject     : string;
  is_client_hello  : Z;
  cert_chain_depth : Z
}.

Record dpi_anomaly_t := mkAnomaly {
  anomaly_type : Z;          (* uint16_t *)
  description  : string;
  an_severity  : Z           (* uint8_t *)
}.

Record dpi_alert_t := mkAlert {
  alert_id           : Z;    (* uint64_t *)
  al_timestamp_ns    : Z;
  al_flow            : dpi_flow_tuple_t;
  al_severity        : dpi_alert_severity_t;
  al_protocol        : dpi_protocol_t;
  al_rule_id         : Z;
  rule_name          : string;
  message            : string;
  payload_sample     : option (list Z);
  payload_sample_len : Z;
  offset_in_stream   : Z
}.

(** The two reassembly regions are never read or written by the code: the
    model keeps whether each pointer is non-NULL. *)
Record dpi_session_t := mkSession {
  session_id      : Z;       (* uint64_t *)
  flow            : dpi_flow_tuple_t;
  state           : dpi_session_state_t;
  sess_protocol   : dpi_protocol_result_t;
  fwd_buffer      : bool;
  fwd_buffer_used : Z;
  fwd_seq         : Z;
  rev_buffer      : bool;
  rev_buffer_used : Z;
  rev_seq         : Z;
  http_data       : option dpi_http_data_t;
  dns_data        : option dpi_dns_data_t;
  tls_data        : option dpi_tls_data_t;
  anomalies       : list dpi_anomaly_t;
  anomaly_count   : Z;       (* uint32_t *)
  created_ns      : Z;
  last_seen_ns    : Z;
  packets_seen    : Z;       (* uint32_t *)
  total_bytes     : Z        (* uint64_t *)
}.

Record dpi_rule_t := mkRule {
  rule_id             : Z;   (* uint32_t *)
  type                : dpi_rule_type_t;
  name                : string;
  rule_description    : string;
  severity            : dpi_alert_severity_t;
  pattern             : option string;   (* char *, may be NULL *)
  pattern_len         : Z;
  rule_protocol       : dpi_protocol_t;  (* DPI_PROTO_UNKNOWN = all protocols *)
  port_range_start    : Z;               (* 0 = all ports *)
  port_range_end      : Z;
  applies_to_request  : Z;
  applies_to_response : Z;
  category            : string;
  created_at          : Z;
  last_modified       : Z;
  enabled             : Z                (* uint8_t *)
}.

Record dpi_config_t := mkConfig {
  tls_mode                 : dpi_tls_mode_t;
  enable_anomaly_detection : Z;
  enable_malware_detection : Z;
  reassembly_timeout_sec   : Z;
  max_concurrent_sessions  : Z;          (* uint32_t *)
  memory_limit_mb          : Z;
  log_all_alerts           : Z;
  log_tls_keys             : Z;
  log_dir                  : string;
  redact_pii               : Z;
  anonymize_ips            : Z
}.

(** The three [double] fields of [dpi_stats_t] are never written; they are
    left out. *)
Record dpi_stats_t := mkStats {
  packets_processed  : Z;
  bytes_processed    : Z;
  flows_created      : Z;
  flows_terminated   : Z;
  active_sessions    : Z;
  alerts_generated   : Z;
  anomalies_detected : Z;
  http_packets       : Z;
  dns_packets        : Z;
  tls_packets        : Z;
  smtp_packets       : Z;
  smb_packets        : Z
}.

Definition zero_flow : dpi_flow_tuple_t := mkTuple 0 0 0 0 0.
Definition zero_proto_result : dpi_protocol_result_t :=
  mkProtoResult DPI_PROTO_UNKNOWN 0 0 "".
Definition zero_http : dpi_http_data_t := mkHttp "" "" "" "" 0 0 0.
Definition zero_dns : dpi_dns_data_t := mkDns 0 "" 0 0 0 None 0.
Definition zero_tls : dpi_tls_data_t := mkTls 0 0 0 "" "" 0 0.
Definition zero_anomaly : dpi_anomaly_t := mkAnomaly 0 "" 0.
Definition zero_alert : dpi_alert_t :=
  mkAlert 0 0 zero_flow DPI_ALERT_INFO DPI_PROTO_UNKNOWN 0 "" "" None 0 0.
Definition zero_rule : dpi_rule_t :=
  mkRule 0 DPI_RULE_REGEX "" "" DPI_ALERT_INFO None 0 DPI_PROTO_UNKNOWN
         0 0 0 0 "" 0 0 0.
Definition zero_stats : dpi_stats_t := mkStats 0 0 0 0 0 0 0 0 0 0 0 0.
Definition zero_session : dpi_session_t :=
  mkSession 0 zero_flow DPI_STATE_NEW zero_proto_result false 0 0 false 0 0
            None None None [] 0 0 0 0 0.

(** ** Utility functions *)

Definition hash_step (hash x : Z) : Z :=
  Z.lxor (u32 (u32 (Z.shiftl hash 5) + hash)) x.

(** [flow_tuple_hash]; [table_size] is a divisor and must be nonzero. *)
Definition flow_tuple_hash (flow : dpi_flow_tuple_t) (table_size : Z) : Z :=
  let hash := 5381 in
  let hash := hash_step hash (Z.land flow.(src_ip) 255) in
  let hash := hash_step hash (Z.land (Z.shiftr flow.(src_ip) 8) 255) in
  let hash := hash_step hash (Z.land (Z.shiftr flow.(src_ip) 16) 255) in
  let hash := hash_step hash (Z.land (Z.shiftr flow.(src_ip) 24) 255) in
  let hash := hash_step hash (Z.land flow.(dst_ip) 255) in
  let hash := hash_step hash (Z.land (Z.shiftr flow.(dst_ip) 8) 255) in
  let hash := hash_step hash (Z.land (Z.shiftr flow.(dst_ip) 16) 255) in
  let hash := hash_step hash (Z.land (Z.shiftr flow.(dst_ip) 24) 255) in
  let hash := hash_step hash (Z.land flow.(src_port) 255) in
  let hash := hash_step hash (Z.land (Z.shiftr flow.(src_port) 8) 255) in
  let hash := hash_step hash (Z.land flow.(dst_port) 255) in
  let hash := hash_step hash (Z.land (Z.shiftr flow.(dst_port) 8) 255) in
  let hash := hash_step hash flow.(protocol) in
  hash mod table_size.

Definition flow_tuple_equal (a b : dpi_flow_tuple_t) : bool :=
  (a.(src_ip) =? b.(src_ip)) &&
  (a.(dst_ip) =? b.(dst_ip)) &&
  (a.(src_port) =? b.(src_port)) &&
  (a.(dst_port) =? b.(dst_port)) &&
  (a.(protocol) =? b.(protocol)).

(** ** Protocol dissectors

    Each dissector returns the protocol tag, the record it stored through
    [out] (if it stored one) and the allocation outcomes left. *)

Definition http_method_prefix (data : list Z) : bool :=
  (strncmp data (lit "GET ") 4 =? 0) ||
  (strncmp data (lit "POST ") 5 =? 0) ||
  (strncmp data (lit "PUT ") 4 =? 0) ||
  (strncmp data (lit "DELETE ") 7 =? 0) ||
  (strncmp data (lit "HEAD ") 5 =? 0) ||
  (strncmp data (lit "OPTIONS ") 8 =? 0) ||
  (strncmp data (lit "PATCH ") 6 =? 0).

Definition dissect_http (h : heap) (data : list Z) (len : Z)
  : dpi_protocol_t * option dpi_http_data_t * heap :=
  if len <? 7 then (DPI_PROTO_UNKNOWN, None, h)
  else if http_method_prefix data then
    (* Check for HTTP methods *)
    let '(ok, h') := alloc h in
    if negb ok then (DPI_PROTO_UNKNOWN, None, h')
    else
      (* Extract method *)
      let m :=
        match strchr data 32 with
        | Some method_len =>
            if (Z.of_nat method_len <? 16)
            then string_of_bytes (c_str (take method_len data))
            else ""%string
        | None => ""%string
        end in
      (DPI_PROTO_HTTP,
       Some {| method := m; uri := ""; host := ""; user_agent := "";
               status_code := 0; content_length := 0; is_request := 1 |},
       h')
  else if strncmp data (lit "HTTP/") 5 =? 0 then
    (* Check for HTTP response *)
    let '(ok, h') := alloc h in
    if negb ok then (DPI_PROTO_UNKNOWN, None, h')
    else
      (* Extract status code *)
      let code :=
        match strchr data 32 with
        | Some i => u16 (atoi (c_str (drop (S i) data)))
        | None => 0
        end in
      (DPI_PROTO_HTTP,
       Some {| method := ""; uri := ""; host := ""; user_agent := "";
               status_code := code; content_length := 0; is_request := 0 |},
       h')
  else (DPI_PROTO_UNKNOWN, None, h).

Definition dissect_dns (h : heap) (data : list Z) (len : Z)
  : dpi_protocol_t * option dpi_dns_data_t * heap :=
  if len <? 12 then (DPI_PROTO_UNKNOWN, None, h)
  else
    let '(ok, h') := alloc h in
    if negb ok then (DPI_PROTO_UNKNOWN, None, h')
    else
      (DPI_PROTO_DNS,
       Some {| transaction_id :=
                 u16 (Z.lor (Z.shiftl (byte_at data 0) 8) (byte_at data 1));
               query_name := "";
               query_type := 0;
               is_query := if Z.land (byte_at data 2) 128 =? 0 then 1 else 0;
               response_code := Z.land (byte_at data 3) 15;
               answered_ips := None;
               answer_count := 0 |},
       h').

Definition dissect_tls (h : heap) (data : list Z) (len : Z)
  : dpi_protocol_t * option dpi_tls_data_t * heap :=
  if len <? 5 then (DPI_PROTO_UNKNOWN, None, h)
  else
    let content_type := byte_at data 0 in
    if negb (content_type =? 22) && negb (content_type =? 23) &&
       negb (content_type =? 21)
    then (DPI_PROTO_UNKNOWN, None, h)
    else if negb (byte_at data 1 =? 3) ||
            ((byte_at data 2 <? 1) || (4 <? byte_at data 2))
    then (DPI_PROTO_UNKNOWN, None, h)
    else
      let '(ok, h') := alloc h in
      if negb ok then (DPI_PROTO_UNKNOWN, None, h')
      else
        (DPI_PROTO_HTTPS,
         Some {| version_major := byte_at data 1;
                 version_minor := byte_at data 2;
                 cipher_suite := 0; sni := ""; cert_subject := "";
                 is_client_hello := 0; cert_chain_depth := 0 |},
         h').

Definition dissect_smtp (data : list Z) (len : Z) : dpi_protocol_t :=
  if len <? 8 then DPI_PROTO_UNKNOWN
  else if isdigit (byte_at data 0) && isdigit (byte_at data 1) &&
          isdigit (byte_at data 2) && (byte_at data 3 =? 32)
  then DPI_PROTO_SMTP
  else if (strncmp data (lit "EHLO ") 5 =? 0) ||
          (strncmp data (lit "HELO ") 5 =? 0) ||
          (strncmp data (lit "MAIL ") 5 =? 0) ||
          (strncmp data (lit "RCPT ") 5 =? 0) ||
          (strncmp data (lit "DATA") 4 =? 0) ||
          (strncmp data (lit "QUIT") 4 =? 0)
  then DPI_PROTO_SMTP
  else DPI_PROTO_UNKNOWN.

Definition dissect_smb (data : list Z) (len : Z) : dpi_protocol_t :=
  if len <? 4 then DPI_PROTO_UNKNOWN
  else if ((byte_at data 0 =? 255) || (byte_at data 0 =? 254)) &&
          (byte_at data 1 =? 83) && (byte_at data 2 =? 77) &&
          (byte_at data 3 =? 66)
  then DPI_PROTO_SMB
  else DPI_PROTO_UNKNOWN.

Definition classify_by_port (src_port dst_port : Z) : dpi_protocol_t :=
  if (dst_port =? 80) || (src_port =? 80) then DPI_PROTO_HTTP
  else if (dst_port =? 443) || (src_port =? 443) then DPI_PROTO_HTTPS
  else if (dst_port =? 53) || (src_port =? 53) then DPI_PROTO_DNS
  else if (dst_port =? 25) || (dst_port =? 587) || (src_port =? 25)
       then DPI_PROTO_SMTP
  else if (dst_port =? 465) || (src_port =? 465) then DPI_PROTO_SMTPS
  else if (dst_port =? 21) || (src_port =? 21) then DPI_PROTO_FTP
  else if (dst_port =? 990) || (src_port =? 990) then DPI_PROTO_FTPS
  else if (dst_port =? 445) || (src_port =? 445) then DPI_PROTO_SMB
  else if (dst_port =? 22) || (src_port =? 22) then DPI_PROTO_SSH
  else if (dst_port =? 23) || (src_port =? 23) then DPI_PROTO_TELNET
  else if (dst_port =? 161) || (src_port =? 161) then DPI_PROTO_SNMP
  else DPI_PROTO_UNKNOWN.

(** ** Engine state *)

(** [sessions] holds the sessions the first [count] slots of the pointer
    array point to, in slot order; [count] is its length. Slots at and past
    [count] are never dereferenced. *)
Record dpi_session_table_t := mkSessionTable {
  sessions : list dpi_session_t;
  capacity : Z                         (* uint32_t *)
}.

Definition count (t : dpi_session_table_t) : Z :=
  Z.of_nat (length t.(sessions)).

(** A compiled pattern, as [regcomp] was given it. *)
Record regex_t := mkRegex {
  re_pattern : string;
  re_cflags  : Z
}.

Definition REG_EXTENDED : Z := 1.
Definition REG_ICASE : Z := 2.

(** The two arrays of [DPI_MAX_RULES] slots, with everything [calloc] and
    earlier calls left in the slots at and past [rule_count]. *)
Record dpi_rule_engine_t := mkRuleEngine {
  rules          : list dpi_rule_t;
  compiled_regex : list (option regex_t);
  rule_count     : Z;                  (* uint32_t *)
  max_rules      : Z                   (* uint32_t *)
}.

Record dpi_alert_queue_t := mkAlertQueue {
  queue       : list dpi_alert_t;
  head        : Z;                     (* uint32_t *)
  tail        : Z;                     (* uint32_t *)
  al_capacity : Z                      (* uint32_t *)
}.

Record dpi_engine_t := mkEngine {
  config          : dpi_config_t;
  eng_sessions    : dpi_session_table_t;
  eng_rules       : dpi_rule_engine_t;
  alerts          : dpi_alert_queue_t;
  stats           : dpi_stats_t;
  next_session_id : Z;                 (* uint64_t *)
  next_alert_id   : Z                  (* uint64_t *)
}.

(** ** Field updates on a session *)

Definition session_touch (s : dpi_session_t) (timestamp_ns packet_len : Z)
  : dpi_session_t :=
  {| session_id := s.(session_id); flow := s.(flow); state := s.(state);
     sess_protocol := s.(sess_protocol);
     fwd_buffer := s.(fwd_buffer); fwd_buffer_used := s.(fwd_buffer_used);
     fwd_seq := s.(fwd_seq);
     rev_buffer := s.(rev_buffer); rev_buffer_used := s.(rev_buffer_used);
     rev_seq := s.(rev_seq);
     http_data := s.(http_data); dns_data := s.(dns_data);
     tls_data := s.(tls_data);
     anomalies := s.(anomalies); anomaly_count := s.(anomaly_count);
     created_ns := s.(created_ns);
     last_seen_ns := timestamp_ns;
     packets_seen := u32 (s.(packets_seen) + 1);
     total_bytes := u64 (s.(total_bytes) + packet_len) |}.

Definition session_set_protocol (s : dpi_session_t) (p : dpi_protocol_t)
  : dpi_session_t :=
  {| session_id := s.(session_id); flow := s.(flow); state := s.(state);
     sess_protocol :=
       {| pr_protocol := p;
          confidence := s.(sess_protocol).(confidence);
          detection_tick := s.(sess_protocol).(detection_tick);
          app_name := s.(sess_protocol).(app_name) |};
     fwd_buffer := s.(fwd_buffer); fwd_buffer_used := s.(fwd_buffer_used);
     fwd_seq := s.(fwd_seq);
     rev_buffer := s.(rev_buffer); rev_buffer_used := s.(rev_buffer_used);
     rev_seq := s.(rev_seq);
     http_data := s.(http_data); dns_data := s.(dns_data);
     tls_data := s.(tls_data);
     anomalies := s.(anomalies); anomaly_count := s.(anomaly_count);
     created_ns := s.(created_ns); last_seen_ns := s.(last_seen_ns);
     packets_seen := s.(packets_seen); total_bytes := s.(total_bytes) |}.

Definition session_set_detection_tick (s : dpi_session_t) (tick : Z)
  : dpi_session_t :=
  {| session_id := s.(session_id); flow := s.(flow); state := s.(state);
     sess_protocol :=
       {| pr_protocol := s.(sess_protocol).(pr_protocol);
          confidence := s.(sess_protocol).(confidence);
          detection_tick := tick;
          app_name := s.(sess_protocol).(app_name) |};
     fwd_buffer := s.(fwd_buffer); fwd_buffer_used := s.(fwd_buffer_used);
     fwd_seq := s.(fwd_seq);
     rev_buffer := s.(rev_buffer); rev_buffer_used := s.(rev_buffer_used);
     rev_seq := s.(rev_seq);
     http_data := s.(http_data); dns_data := s.(dns_data);
     tls_data := s.(tls_data);
     anomalies := s.(anomalies); anomaly_count := s.(anomaly_count);
     created_ns := s.(created_ns); last_seen_ns := s.(last_seen_ns);
     packets_seen := s.(packets_seen); total_bytes := s.(total_bytes) |}.

Definition session_set_data (s : dpi_session_t)
    (http : option dpi_http_data_t) (dns : option dpi_dns_data_t)
    (tls : option dpi_tls_data_t) : dpi_session_t :=
  {| session_id := s.(session_id); flow := s.(flow); state := s.(state);
     sess_protocol := s.(sess_protocol);
     fwd_buffer := s.(fwd_buffer); fwd_buffer_used := s.(fwd_buffer_used);
     fwd_seq := s.(fwd_seq);
     rev_buffer := s.(rev_buffer); rev_buffer_used := s.(rev_buffer_used);
     rev_seq := s.(rev_seq);
     http_data := http; dns_data := dns; tls_data := tls;
     anomalies := s.(anomalies); anomaly_count := s.(anomaly_count);
     created_ns := s.(created_ns); last_seen_ns := s.(last_seen_ns);
     packets_seen := s.(packets_seen); total_bytes := s.(total_bytes) |}.

Definition session_set_state (s : dpi_session_t) (st : dpi_session_state_t)
  : dpi_session_t :=
  {| session_id := s.(session_id); flow := s.(flow); state := st;
     sess_protocol := s.(sess_protocol);
     fwd_buffer := s.(fwd_buffer); fwd_buffer_used := s.(fwd_buffer_used);
     fwd_seq := s.(fwd_seq);
     rev_buffer := s.(rev_buffer); rev_buffer_used := s.(rev_buffer_used);
     rev_seq := s.(rev_seq);
     http_data := s.(http_data); dns_data := s.(dns_data);
     tls_data := s.(tls_data);
     anomalies := s.(anomalies); anomaly_count := s.(anomaly_count);
     created_ns := s.(created_ns); last_seen_ns := s.(last_seen_ns);
     packets_seen := s.(packets_seen); total_bytes := s.(total_bytes) |}.

Definition session_set_anomalies (s : dpi_session_t)
    (arr : list dpi_anomaly_t) (n : Z) : dpi_session_t :=
  {| session_id := s.(session_id); flow := s.(flow); state := s.(state);
     sess_protocol := s.(sess_protocol);
     fwd_buffer := s.(fwd_buffer); fwd_buffer_used := s.(fwd_buffer_used);
     fwd_seq := s.(fwd_seq);
     rev_buffer := s.(rev_buffer); rev_buffer_used := s.(rev_buffer_used);
     rev_seq := s.(rev_seq);
     http_data := s.(http_data); dns_data := s.(dns_data);
     tls_data := s.(tls_data);
     anomalies := arr; anomaly_count := n;
     created_ns := s.(created_ns); last_seen_ns := s.(last_seen_ns);
     packets_seen := s.(packets_seen); total_bytes := s.(total_bytes) |}.

(** ** Anomaly detection *)

Definition detect_anomalies (h : heap) (session : dpi_session_t)
    (data : list Z) (len : Z) (is_response : Z) : dpi_session_t * heap :=
  if 10 <=? session.(anomaly_count) then (session, h)
  else
    let is_http :=
      proto_eqb session.(sess_protocol).(pr_protocol) DPI_PROTO_HTTP in
    let anomaly := zero_anomaly in
    (* HTTP anomalies *)
    let anomaly :=
      if is_http then
        (* Large headers *)
        let anomaly :=
          if 8192 <? len then
            {| anomaly_type := 1;
               description :=
                 ("HTTP packet exceeds normal header size: " ++
                  dec_string len ++ " bytes")%string;
               an_severity := 5 |}
          else anomaly in
        (* Suspicious User-Agent *)
        if strstr_found (c_str data) (lit "User-Agent: ") then
          {| anomaly_type := 2;
             description := "HTTP request contains suspicious User-Agent";
             an_severity := 3 |}
        else anomaly
      else anomaly in
    (* Port mismatch anomaly *)
    let anomaly :=
      if is_http && negb (session.(flow).(dst_port) =? 80) &&
         negb (session.(flow).(dst_port) =? 8080)
      then
        {| anomaly_type := 3;
           description :=
             ("HTTP on non-standard port " ++
              dec_string session.(flow).(dst_port))%string;
           an_severity := 4 |}
      else anomaly in
    if negb (anomaly.(anomaly_type) =? 0) then
      let '(ok, h') := alloc h in
      if ok then
        (* realloc to anomaly_count + 1 entries, then store the new one *)
        let n := Z.to_nat session.(anomaly_count) in
        (session_set_anomalies session
           (resize n zero_anomaly session.(anomalies) ++ [anomaly])
           (u32 (session.(anomaly_count) + 1)),
         h')
      else
        (* realloc failed: the pointer is overwritten with NULL *)
        (session_set_anomalies session [] session.(anomaly_count), h')
    else (session, h).

(** ** API *)

Definition dpi_init (h : heap) (config : dpi_config_t) : option dpi_engine_t :=
  let '(engine_ok, h) := alloc h in
  if negb engine_ok then None
  else
    let '(sessions_ok, h) := alloc h in
    if negb sessions_ok then None
    else
      let '(rules_ok, h) := alloc h in
      let '(regex_ok, h) := alloc h in
      if negb rules_ok || negb regex_ok then None
      else
        let '(alerts_ok, h) := alloc h in
        if negb alerts_ok then None
        else
          Some {| config := config;
                  eng_sessions :=
                    {| sessions := [];
                       capacity := config.(max_concurrent_sessions) |};
                  eng_rules :=
                    {| rules := replicate (Z.to_nat DPI_MAX_RULES) zero_rule;
                       compiled_regex :=
                         replicate (Z.to_nat DPI_MAX_RULES) None;
                       rule_count := 0;
                       max_rules := DPI_MAX_RULES |};
                  alerts :=
                    {| queue := replicate (Z.to_nat DPI_MAX_ALERTS) zero_alert;
                       head := 0;
                       tail := 0;
                       al_capacity := DPI_MAX_ALERTS |};
                  stats := zero_stats;
                  next_session_id := 1;
                  next_alert_id := 1 |}.

(** The search loop of [dpi_process_packet] and [dpi_get_session]: index of
    the first session whose tuple equals [flow]. *)
Fixpoint find_session (ss : list dpi_session_t) (flow : dpi_flow_tuple_t)
  : option nat :=
  match ss with
  | [] => None
  | s :: rest =>
      if flow_tuple_equal s.(DPI.flow) flow then Some O
      else option_map S (find_session rest flow)
  end.

(** The body of [if (session) { ... }] once a session was allocated by
    [calloc]: the new session before it is stored in the array. *)
Definition new_session (h : heap) (id : Z) (flow : dpi_flow_tuple_t)
    (timestamp_ns : Z) : dpi_session_t * heap :=
  let '(fwd, h) := alloc h in
  let '(rev, h) := alloc h in
  ({| session_id := id; flow := flow; state := DPI_STATE_NEW;
      sess_protocol := zero_proto_result;
      fwd_buffer := fwd; fwd_buffer_used := 0; fwd_seq := 0;
      rev_buffer := rev; rev_buffer_used := 0; rev_seq := 0;
      http_data := None; dns_data := None; tls_data := None;
      anomalies := []; anomaly_count := 0;
      created_ns := timestamp_ns; last_seen_ns := timestamp_ns;
      packets_seen := 0; total_bytes := 0 |}, h).

Definition is_unknown (p : dpi_protocol_t) : bool :=
  proto_eqb p DPI_PROTO_UNKNOWN.

(** The classification cascade, entered when the session's protocol is
    [DPI_PROTO_UNKNOWN]. *)
Definition classify (h : heap) (session : dpi_session_t)
    (flow : dpi_flow_tuple_t) (data : list Z) (len : Z)
  : dpi_session_t * heap :=
  let '(p_http, d_http, h) := dissect_http h data len in
  let '(session, h) :=
    if negb (is_unknown p_http) then
      (session_set_data (session_set_protocol session DPI_PROTO_HTTP)
         d_http session.(dns_data) session.(tls_data), h)
    else
      let '(p_dns, d_dns, h) := dissect_dns h data len in
      if negb (is_unknown p_dns) then
        (session_set_data (session_set_protocol session DPI_PROTO_DNS)
           session.(http_data) d_dns session.(tls_data), h)
      else
        let '(p_tls, d_tls, h) := dissect_tls h data len in
        if negb (is_unknown p_tls) then
          (session_set_data (session_set_protocol session DPI_PROTO_HTTPS)
             session.(http_data) session.(dns_data) d_tls, h)
        else if negb (is_unknown (dissect_smtp data len)) then
          (session_set_protocol session DPI_PROTO_SMTP, h)
        else if negb (is_unknown (dissect_smb data len)) then
          (session_set_protocol session DPI_PROTO_SMB, h)
        else
          (* Try port-based heuristics *)
          (session_set_protocol session
             (classify_by_port flow.(src_port) flow.(dst_port)), h) in
  (session_set_detection_tick session session.(packets_seen), h).

(** The body of [if (session) { ... }] of [dpi_process_packet]. *)
Definition session_packet (h : heap) (cfg : dpi_config_t)
    (session : dpi_session_t) (flow : dpi_flow_tuple_t) (data : list Z)
    (packet_len timestamp_ns is_response : Z) : dpi_session_t * heap :=
  let session := session_touch session timestamp_ns packet_len in
  (* Classify protocol on first packet with payload *)
  let '(session, h) :=
    if is_unknown session.(sess_protocol).(pr_protocol) && (0 <? packet_len)
    then classify h session flow data packet_len
    else (session, h) in
  (* Update session state *)
  let session :=
    match session.(state) with
    | DPI_STATE_NEW => session_set_state session DPI_STATE_ESTABLISHED
    | _ => session
    end in
  (* Detect anomalies *)
  if negb (cfg.(enable_anomaly_detection) =? 0) then
    detect_anomalies h session data packet_len is_response
  else (session, h).

Definition stats_packet (st : dpi_stats_t) (packet_len active : Z)
  : dpi_stats_t :=
  {| packets_processed := u64 (st.(packets_processed) + 1);
     bytes_processed := u64 (st.(bytes_processed) + packet_len);
     flows_created := st.(flows_created);
     flows_terminated := st.(flows_terminated);
     active_sessions := active;
     alerts_generated := st.(alerts_generated);
     anomalies_detected := st.(anomalies_detected);
     http_packets := st.(http_packets);
     dns_packets := st.(dns_packets);
     tls_packets := st.(tls_packets);
     smtp_packets := st.(smtp_packets);
     smb_packets := st.(smb_packets) |}.

(** [dpi_process_packet]. [alerts_out] is [None] for a NULL pointer and
    [Some c] for a pointer to a cell holding [c]. The result is the engine
    after the call, the returned count and the cell after the call.
    [hash_idx] is computed and never used; computing it divides by
    [sessions.capacity]. With capacity 0 the C call does not return
    (division by zero): [dpi_process_packet_faults] below tells which
    calls those are, and this function gives the result of all others. *)
Definition dpi_process_packet (h : heap) (engine : option dpi_engine_t)
    (flow : option dpi_flow_tuple_t) (packet_data : option (list Z))
    (packet_len timestamp_ns is_response : Z)
    (alerts_out : option (option (list dpi_alert_t)))
  : option dpi_engine_t * Z * option (option (list dpi_alert_t)) :=
  match engine, flow, packet_data with
  | Some e, Some flow, Some data =>
      if packet_len =? 0 then (engine, 0, alerts_out)
      else
        let alerts_generated := 0 in
        (* Find or create session *)
        let hash_idx := flow_tuple_hash flow e.(eng_sessions).(capacity) in
        let tbl := e.(eng_sessions) in
        let '(ss, next_id, session, h) :=
          match find_session tbl.(sessions) flow with
          | Some i => (tbl.(sessions), e.(next_session_id), Some i, h)
          | None =>
              if count tbl <? tbl.(capacity) then
                let '(ok, h) := alloc h in
                if ok then
                  let '(s, h) :=
                    new_session h e.(next_session_id) flow timestamp_ns in
                  (tbl.(sessions) ++ [s], u64 (e.(next_session_id) + 1),
                   Some (length tbl.(sessions)), h)
                else (tbl.(sessions), e.(next_session_id), None, h)
              else (tbl.(sessions), e.(next_session_id), None, h)
          end in
        let ss :=
          match session with
          | Some i =>
              match ss !! i with
              | Some s =>
                  <[i := fst (session_packet h e.(config) s flow data
                                packet_len timestamp_ns is_response)]> ss
              | None => ss
              end
          | None => ss
          end in
        (* Update statistics *)
        (Some {| config := e.(config);
                 eng_sessions :=
                   {| sessions := ss; capacity := tbl.(capacity) |};
                 eng_rules := e.(eng_rules);
                 alerts := e.(alerts);
                 stats := stats_packet e.(stats) packet_len
                            (Z.of_nat (length ss));
                 next_session_id := next_id;
                 next_alert_id := e.(next_alert_id) |},
         alerts_generated,
         match alerts_out with
         | Some _ => Some None
         | None => None
         end)
  | _, _, _ => (engine, 0, alerts_out)
  end.

(** The calls of [dpi_process_packet] that divide by zero: the call passes
    the guard and the session table was created with capacity 0
    ([max_concurrent_sessions = 0] at [dpi_init]). *)
Definition dpi_process_packet_faults (engine : option dpi_engine_t)
    (flow : option dpi_flow_tuple_t) (packet_data : option (list Z))
    (packet_len : Z) : bool :=
  match engine, flow, packet_data with
  | Some e, Some _, Some _ =>
      negb (packet_len =? 0) && (e.(eng_sessions).(capacity) =? 0)
  | _, _, _ => false
  end.

(** The copy of [rule] stored in a slot, with its [rule_id] overwritten. *)
Definition rule_with_id (r : dpi_rule_t) (id : Z) : dpi_rule_t :=
  {| rule_id := id; type := r.(type); name := r.(name);
     rule_description := r.(rule_description); severity := r.(severity);
     pattern := r.(pattern); pattern_len := r.(pattern_len);
     rule_protocol := r.(rule_protocol);
     port_range_start := r.(port_range_start);
     port_range_end := r.(port_range_end);
     applies_to_request := r.(applies_to_request);
     applies_to_response := r.(applies_to_response);
     category := r.(category); created_at := r.(created_at);
     last_modified := r.(last_modified); enabled := r.(enabled) |}.

Definition engine_set_rules (e : dpi_engine_t) (re : dpi_rule_engine_t)
  : dpi_engine_t :=
  {| config := e.(config); eng_sessions := e.(eng_sessions);
     eng_rules := re; alerts := e.(alerts); stats := e.(stats);
     next_session_id := e.(next_session_id);
     next_alert_id := e.(next_alert_id) |}.

(** [dpi_add_rule]; [regcomp_ok pattern cflags] tells whether [regcomp]
    accepts the pattern. The result is the engine after the call and the
    returned rule id (0 on error). *)
Definition dpi_add_rule (regcomp_ok : string -> Z -> bool)
    (engine : option dpi_engine_t) (rule : option dpi_rule_t)
  : option dpi_engine_t * Z :=
  match engine, rule with
  | Some e, Some rule =>
      let re := e.(eng_rules) in
      if re.(max_rules) <=? re.(rule_count) then (engine, 0)
      else
        let rule_id := u32 (re.(rule_count) + 1) in
        let slot := Z.to_nat re.(rule_count) in
        let rules' := <[slot := rule_with_id rule rule_id]> re.(rules) in
        let accepted (compiled : list (option regex_t)) :=
          (Some (engine_set_rules e
                   {| rules := rules'; compiled_regex := compiled;
                      rule_count := u32 (re.(rule_count) + 1);
                      max_rules := re.(max_rules) |}),
           rule_id) in
        (* Compile regex if applicable *)
        match rule.(type), rule.(pattern) with
        | DPI_RULE_REGEX, Some p =>
            let cflags := Z.lor REG_EXTENDED REG_ICASE in
            if regcomp_ok p cflags then
              accepted (<[slot := Some (mkRegex p cflags)]> re.(compiled_regex))
            else
              (Some (engine_set_rules e
                       {| rules := rules';
                          compiled_regex := re.(compiled_regex);
                          rule_count := re.(rule_count);
                          max_rules := re.(max_rules) |}),
               0)
        | _, _ => accepted re.(compiled_regex)
        end
  | _, _ => (engine, 0)
  end.

(** The search loop of [dpi_remove_rule]: the first index in
    [i, i + n) whose slot carries [id]. *)
Fixpoint find_rule (rs : list dpi_rule_t) (id : Z) (i n : nat) : option nat :=
  match n with
  | O => None
  | S n' =>
      if (default zero_rule (rs !! i)).(rule_id) =? id then Some i
      else find_rule rs id (S i) n'
  end.

(** [memmove(&a[i], &a[i+1], n * sizeof a[0])]. *)
Definition memmove_down {A} (a : list A) (i n : nat) : list A :=
  take i a ++ take n (drop (S i) a) ++ drop (i + n) a.

(** [dpi_remove_rule]: the engine after the call and the return code. *)
Definition dpi_remove_rule (engine : option dpi_engine_t) (rule_id : Z)
  : option dpi_engine_t * Z :=
  match engine with
  | Some e =>
      if rule_id =? 0 then (engine, -1)
      else
        let re := e.(eng_rules) in
        match find_rule re.(rules) rule_id 0 (Z.to_nat re.(rule_count)) with
        | Some i =>
            (* Cleanup compiled regex *)
            let compiled :=
              match (default zero_rule (re.(rules) !! i)).(type) with
              | DPI_RULE_REGEX => <[i := None]> re.(compiled_regex)
              | _ => re.(compiled_regex)
              end in
            (* Remove from array *)
            let n := Z.to_nat (re.(rule_count) - Z.of_nat i - 1) in
            (Some (engine_set_rules e
                     {| rules := memmove_down re.(rules) i n;
                        compiled_regex := memmove_down compiled i n;
                        rule_count := u32 (re.(rule_count) - 1);
                        max_rules := re.(max_rules) |}),
             0)
        | None => (engine, -1)
        end
  | None => (engine, -1)
  end.

Definition queue_set_head (q : dpi_alert_queue_t) (hd : Z)
  : dpi_alert_queue_t :=
  {| queue := q.(queue); head := hd; tail := q.(tail);
     al_capacity := q.(al_capacity) |}.

(** The [while] loop of [dpi_get_alerts] with [n] iterations of
    [count < max_alerts] still allowed; [dst] is the caller's array and
    [cnt] the value of [count]. *)
Fixpoint get_alerts_loop (q : dpi_alert_queue_t) (clear_after_read : Z)
    (dst : list dpi_alert_t) (cnt : nat) (n : nat)
  : dpi_alert_queue_t * list dpi_alert_t * nat :=
  match n with
  | O => (q, dst, cnt)
  | S n' =>
      if q.(head) =? q.(tail) then (q, dst, cnt)
      else
        let dst' :=
          <[cnt := default zero_alert (q.(queue) !! Z.to_nat q.(head))]> dst in
        let q' :=
          if negb (clear_after_read =? 0)
          then queue_set_head q (u32 (q.(head) + 1) mod q.(al_capacity))
          else q in
        get_alerts_loop q' clear_after_read dst' (S cnt) n'
  end.

(** [dpi_get_alerts]: the engine and the caller's array after the call, and
    the returned count. The caller's array has room for [max_alerts]
    entries; a write past the end of [dst] is dropped by the model. *)
Definition dpi_get_alerts (engine : option dpi_engine_t)
    (alerts_dst : option (list dpi_alert_t)) (max_alerts : Z)
    (clear_after_read : Z)
  : option dpi_engine_t * option (list dpi_alert_t) * Z :=
  match engine, alerts_dst with
  | Some e, Some dst =>
      if max_alerts =? 0 then (engine, alerts_dst, 0)
      else
        let '(q, dst', cnt) :=
          get_alerts_loop e.(alerts) clear_after_read dst 0
                          (Z.to_nat max_alerts) in
        (Some {| config := e.(config); eng_sessions := e.(eng_sessions);
                 eng_rules := e.(eng_rules); alerts := q; stats := e.(stats);
                 next_session_id := e.(next_session_id);
                 next_alert_id := e.(next_alert_id) |},
         Some dst', Z.of_nat cnt)
  | _, _ => (engine, alerts_dst, 0)
  end.

Definition dpi_get_session (engine : option dpi_engine_t)
    (flow : option dpi_flow_tuple_t) : option dpi_session_t :=
  match engine, flow with
  | Some e, Some flow =>
      match find_session e.(eng_sessions).(sessions) flow with
      | Some i => e.(eng_sessions).(sessions) !! i
      | None => None
      end
  | _, _ => None
  end.

Definition dpi_classify_protocol (engine : option dpi_engine_t)
    (flow : option dpi_flow_tuple_t) : dpi_protocol_result_t :=
  match engine, flow with
  | Some _, Some _ =>
      match dpi_get_session engine flow with
      | Some session => session.(sess_protocol)
      | None => zero_proto_result
      end
  | _, _ => zero_proto_result
  end.

Definition config_set_tls_mode (c : dpi_config_t) (mode : dpi_tls_mode_t)
  : dpi_config_t :=
  {| tls_mode := mode;
     enable_anomaly_detection := c.(enable_anomaly_detection);
     enable_malware_detection := c.(enable_malware_detection);
     reassembly_timeout_sec := c.(reassembly_timeout_sec);
     max_concurrent_sessions := c.(max_concurrent_sessions);
     memory_limit_mb := c.(memory_limit_mb);
     log_all_alerts := c.(log_all_alerts);
     log_tls_keys := c.(log_tls_keys);
     log_dir := c.(log_dir);
     redact_pii := c.(redact_pii);
     anonymize_ips := c.(anonymize_ips) |}.

(** [dpi_set_tls_mode]: the engine after the call and the return code. *)
Definition dpi_set_tls_mode (engine : option dpi_engine_t)
    (flow : option dpi_flow_tuple_t) (mode : dpi_tls_mode_t)
  : option dpi_engine_t * Z :=
  match engine, flow with
  | Some e, Some _ =>
      (Some {| config := config_set_tls_mode e.(config) mode;
               eng_sessions := e.(eng_sessions);
               eng_rules := e.(eng_rules);
               alerts := e.(alerts);
               stats := e.(stats);
               next_session_id := e.(next_session_id);
               next_alert_id := e.(next_alert_id) |},
       0)
  | _, _ => (engine, -1)
  end.

(** ** Observations and runs *)

(** The ids in the slots below [rule_count], in slot order. *)
Definition live_rule_ids (e : dpi_engine_t) : list Z :=
  map rule_id (take (Z.to_nat e.(eng_rules).(rule_count)) e.(eng_rules).(rules)).

(** Number of alerts the queue holds. *)
Definition alerts_held (q : dpi_alert_queue_t) : Z :=
  (q.(tail) - q.(head)) mod q.(al_capacity).

(** The two cursors lie in the ring and the capacity is a nonzero
    [uint32_t]. *)
Definition queue_wf (q : dpi_alert_queue_t) : Prop :=
  0 < q.(al_capacity) < 2^32 /\
  0 <= q.(head) < q.(al_capacity) /\
  0 <= q.(tail) < q.(al_capacity).

(** The entry [j] places after [head]. *)
Definition queue_nth (q : dpi_alert_queue_t) (j : nat) : dpi_alert_t :=
  default zero_alert
    (q.(queue) !! Z.to_nat ((q.(head) + Z.of_nat j) mod q.(al_capacity))).

(** One call of [dpi_process_packet], as data. *)
Record packet_call := mkPacket {
  pk_heap        : heap;
  pk_flow        : dpi_flow_tuple_t;
  pk_data        : list Z;
  pk_len         : Z;
  pk_ts          : Z;
  pk_is_response : Z
}.

Definition dpi_process_call (e : dpi_engine_t) (p : packet_call)
  : dpi_engine_t :=
  default e
    (fst (fst (dpi_process_packet p.(pk_heap) (Some e) (Some p.(pk_flow))
                 (Some p.(pk_data)) p.(pk_len) p.(pk_ts) p.(pk_is_response)
                 None))).

Definition dpi_process_all (e : dpi_engine_t) (ps : list packet_call)
  : dpi_engine_t :=
  fold_left dpi_process_call ps e.

(** Every session carries confidence 0. *)
Definition confidence_unset (e : dpi_engine_t) : Prop :=
  Forall (fun s => s.(sess_protocol).(confidence) = 0)
         e.(eng_sessions).(sessions).

(** Whether [dissect_http] reported a request, and whether a response. *)
Definition http_request_result
    (res : dpi_protocol_t * option dpi_http_data_t * heap) : bool :=
  match res with
  | (DPI_PROTO_HTTP, Some d, _) => negb (d.(is_request) =? 0)
  | _ => false
  end.

Definition http_response_result
    (res : dpi_protocol_t * option dpi_http_data_t * heap) : bool :=
  match res with
  | (DPI_PROTO_HTTP, Some d, _) => d.(is_request) =? 0
  | _ => false
  end.

(** ** The spec's words, for comparison with the code *)

(** Spec section 4.4: the request methods, each followed by a space. *)
Definition http_methods : list string :=
  ["GET"; "POST"; "PUT"; "DELETE"; "HEAD"; "OPTIONS"; "PATCH"]%string.

(** Spec section 4.4: "request if the prefix matches one of
    {GET ,POST ,PUT ,DELETE ,HEAD ,OPTIONS ,PATCH }". *)
Definition spec_http_request (payload : list Z) : bool :=
  existsb (fun m => is_prefix (lit (m ++ " ")) payload) http_methods.

(** Spec section 4.4: "response if the prefix is HTTP/". *)
Definition spec_http_response (payload : list Z) : bool :=
  is_prefix (lit "HTTP/") payload.

(** Spec section 4.6: an enabled rule admits a session when its protocol
    is UNKNOWN or the session's classified protocol, and its port range,
    0..0 meaning any, holds the session's destination port. *)
Definition spec_rule_admits (r : dpi_rule_t) (s : dpi_session_t) : bool :=
  negb (r.(enabled) =? 0) &&
  (is_unknown r.(rule_protocol) ||
   proto_eqb r.(rule_protocol) s.(sess_protocol).(pr_protocol)) &&
  (((r.(port_range_start) =? 0) && (r.(port_range_end) =? 0)) ||
   ((r.(port_range_start) <=? s.(flow).(dst_port)) &&
    (s.(flow).(dst_port) <=? r.(port_range_end)))).

(** Spec section 4.6, for a CONTENT rule: the pattern occurs in the
    payload. *)
Definition spec_content_match (r : dpi_rule_t) (payload : list Z) : bool :=
  match r.(pattern) with
  | Some p => strstr_found payload (lit p)
  | None => false
  end.

(** ** The rest of the API *)

Definition dpi_get_stats (engine : option dpi_engine_t) : dpi_stats_t :=
  match engine with
  | Some e => e.(stats)
  | None => zero_stats
  end.

Definition dpi_get_engine_stats (engine : option dpi_engine_t) : dpi_stats_t :=
  dpi_get_stats engine.

(** [dpi_get_protocol_data]: the [void *] returned points to an HTTP record
    or to a DNS record, or is NULL. *)
Definition dpi_get_protocol_data (engine : option dpi_engine_t)
    (flow : option dpi_flow_tuple_t) (protocol : dpi_protocol_t)
  : option (dpi_http_data_t + dpi_dns_data_t) :=
  match engine, flow with
  | Some _, Some _ =>
      match dpi_get_session engine flow with
      | None => None
      | Some session =>
          match protocol with
          | DPI_PROTO_HTTP | DPI_PROTO_HTTPS =>
              option_map inl session.(http_data)
          | DPI_PROTO_DNS => option_map inr session.(dns_data)
          | DPI_PROTO_SMTP | DPI_PROTO_SMTPS => None  (* Not implemented yet *)
          | _ => None
          end
      end
  | _, _ => None
  end.

(** [dpi_terminate_session]: the first session whose tuple equals [flow] is
    freed and the pointers after it move down one slot. *)
Definition dpi_terminate_session (engine : option dpi_engine_t)
    (flow : option dpi_flow_tuple_t) : option dpi_engine_t * Z :=
  match engine, flow with
  | Some e, Some flow =>
      match find_session e.(eng_sessions).(sessions) flow with
      | Some i =>
          (Some {| config := e.(config);
                   eng_sessions :=
                     {| sessions := delete i e.(eng_sessions).(sessions);
                        capacity := e.(eng_sessions).(capacity) |};
                   eng_rules := e.(eng_rules);
                   alerts := e.(alerts);
                   stats := e.(stats);
                   next_session_id := e.(next_session_id);
                   next_alert_id := e.(next_alert_id) |},
           0)
      | None => (engine, -1)
      end
  | _, _ => (engine, -1)
  end.

(** ** Runs of API calls *)

(** A call of one of the functions that take the engine, with its other
    arguments. *)
Inductive dpi_call :=
  | CallProcess (p : packet_call)
  | CallAddRule (regcomp_ok : string -> Z -> bool) (rule : dpi_rule_t)
  | CallRemoveRule (rule_id : Z)
  | CallGetAlerts (dst : list dpi_alert_t) (max_alerts clear_after_read : Z)
  | CallSetTlsMode (flow : dpi_flow_tuple_t) (mode : dpi_tls_mode_t)
  | CallTerminate (flow : dpi_flow_tuple_t).

(** The engine after a call. *)
Definition dpi_step (e : dpi_engine_t) (c : dpi_call) : dpi_engine_t :=
  match c with
  | CallProcess p => dpi_process_call e p
  | CallAddRule regcomp_ok rule =>
      default e (fst (dpi_add_rule regcomp_ok (Some e) (Some rule)))
  | CallRemoveRule rule_id => default e (fst (dpi_remove_rule (Some e) rule_id))
  | CallGetAlerts dst max_alerts clear_after_read =>
      default e (fst (fst (dpi_get_alerts (Some e) (Some dst) max_alerts
                             clear_after_read)))
  | CallSetTlsMode flow mode =>
      default e (fst (dpi_set_tls_mode (Some e) (Some flow) mode))
  | CallTerminate flow =>
      default e (fst (dpi_terminate_session (Some e) (Some flow)))
  end.

Definition dpi_run (e : dpi_engine_t) (calls : list dpi_call) : dpi_engine_t :=
  fold_left dpi_step calls e.

Definition is_remove_call (c : dpi_call) : bool :=
  match c with
  | CallRemoveRule _ => true
  | _ => false
  end.

(** ** Invariants of the engine *)

(** The session the search loop finds in an array. *)
Definition lookup_session (ss : list dpi_session_t) (f : dpi_flow_tuple_t)
  : option dpi_session_t :=
  match find_session ss f with
  | Some i => ss !! i
  | None => None
  end.

(** No two sessions carry the same tuple, and the array is not over its
    capacity. *)
Definition sessions_wf (e : dpi_engine_t) : Prop :=
  NoDup (flow <$> e.(eng_sessions).(sessions)) /\
  count e.(eng_sessions) <= e.(eng_sessions).(capacity).

(** The session ids grow along the array and stay below the counter. *)
Definition session_ids_wf (e : dpi_engine_t) : Prop :=
  1 <= e.(next_session_id) /\
  (forall i s, e.(eng_sessions).(sessions) !! i = Some s ->
     1 <= s.(session_id) < e.(next_session_id)) /\
  (forall i j si sj, (i < j)%nat ->
     e.(eng_sessions).(sessions) !! i = Some si ->
     e.(eng_sessions).(sessions) !! j = Some sj ->
     si.(session_id) < sj.(session_id)).

(** What a session holds besides its counters: a parsed record is only
    there under the protocol of its dissector, and at most 10 anomalies
    are counted. *)
Definition session_data_wf (s : dpi_session_t) : Prop :=
  (s.(http_data) <> None -> s.(sess_protocol).(pr_protocol) = DPI_PROTO_HTTP) /\
  (s.(dns_data) <> None -> s.(sess_protocol).(pr_protocol) = DPI_PROTO_DNS) /\
  (s.(tls_data) <> None -> s.(sess_protocol).(pr_protocol) = DPI_PROTO_HTTPS) /\
  0 <= s.(anomaly_count) <= 10 /\
  (length s.(anomalies) <= Z.to_nat s.(anomaly_count))%nat.

Definition sessions_data_wf (e : dpi_engine_t) : Prop :=
  Forall session_data_wf e.(eng_sessions).(sessions).

(** The state a session is in after a packet. *)
Definition established (st : dpi_session_state_t) : dpi_session_state_t :=
  match st with
  | DPI_STATE_NEW => DPI_STATE_ESTABLISHED
  | _ => st
  end.

(** The rule arrays have [max_rules] slots and the count is within them. *)
Definition rules_wf (re : dpi_rule_engine_t) : Prop :=
  0 <= re.(rule_count) <= re.(max_rules) /\
  re.(max_rules) < 2^32 /\
  length re.(rules) = Z.to_nat re.(max_rules) /\
  length re.(compiled_regex) = Z.to_nat re.(max_rules).

(** The rules in the slots below [rule_count]. *)
Definition live_rules (re : dpi_rule_engine_t) : list dpi_rule_t :=
  take (Z.to_nat re.(rule_count)) re.(rules).

(** Index of the first rule of a list that carries [id]. *)
Fixpoint first_with_id (rs : list dpi_rule_t) (id : Z) : option nat :=
  match rs with
  | [] => None
  | r :: rest =>
      if r.(rule_id) =? id then Some O
      else option_map S (first_with_id rest id)
  end.

(** The lengths of the packets of a run that [dpi_process_packet] does not
    turn away: the calls with a nonzero [packet_len]. *)
Definition accepted_lens (calls : list dpi_call) : list Z :=
  flat_map (fun c => match c with
                     | CallProcess p =>
                         if p.(pk_len) =? 0 then [] else [p.(pk_len)]
                     | _ => []
                     end) calls.

Definition sum_lens (lens : list Z) : Z := fold_right Z.add 0 lens.

(** What a packet keeps of a classified session, and what a run keeps of
    it as long as the session is not terminated. *)
Definition same_classification (s s' : dpi_session_t) : Prop :=
  s'.(session_id) = s.(session_id) /\
  s'.(sess_protocol) = s.(sess_protocol) /\
  s'.(http_data) = s.(http_data) /\ s'.(dns_data) = s.(dns_data) /\
  s'.(tls_data) = s.(tls_data).

(** [s'] is [s] with one more anomaly, of type [t] and severity [sev],
    stored at index [anomaly_count] of the re-allocated array. *)
Definition records_anomaly (s s' : dpi_session_t) (t sev : Z) : Prop :=
  exists a,
    a.(anomaly_type) = t /\ a.(an_severity) = sev /\
    s'.(anomalies)
    = resize (Z.to_nat s.(anomaly_count)) zero_anomaly s.(anomalies) ++ [a] /\
    s'.(anomaly_count) = s.(anomaly_count) + 1.

(** Every allocation the heap still decides succeeds. *)
Definition heap_ok (h : heap) : Prop := Forall (fun ok => ok = true) h.


(** The live rule in slot [k] carries the id [k + 1]. *)
Definition rule_ids_sequential (re : dpi_rule_engine_t) : Prop :=
  forall k r, live_rules re !! k = Some r -> r.(rule_id) = Z.of_nat k + 1.

(** The session a call creates, as a caller sees it: [dpi_get_session]
    finds no session for the packet's tuple before the call and finds one
    after it. *)
Definition created_session (e : dpi_engine_t) (c : dpi_call)
  : option dpi_session_t :=
  match c with
  | CallProcess p =>
      match dpi_get_session (Some e) (Some p.(pk_flow)) with
      | Some _ => None
      | None => dpi_get_session (Some (dpi_step e c)) (Some p.(pk_flow))
      end
  | _ => None
  end.

(** The ids of the sessions created along a run, in the order of their
    creation. *)
Fixpoint created_ids (e : dpi_engine_t) (calls : list dpi_call) : list Z :=
  match calls with
  | [] => []
  | c :: rest =>
      match created_session e c with
      | Some s => s.(session_id) :: created_ids (dpi_step e c) rest
      | None => created_ids (dpi_step e c) rest
      end
  end.

End DPI.

(** * Capture sessions

    The public API of packet_capture.c on a [struct capture_session]. The
    locks, the export thread handle and the key bytes, which no function
    below reads or writes, are left out of the record. *)
Module CaptureApi.
Import Capture.

Definition DEFAULT_BUFFER_SIZE_MB : Z := 256.
Definition DEFAULT_FLOW_TABLE_SIZE : Z := 100000.
Definition DEFAULT_IDLE_TIMEOUT_SEC : Z := 300.

Inductive CaptureBackend :=
  | CAPTURE_BACKEND_DPDK
  | CAPTURE_BACKEND_XDP
  | CAPTURE_BACKEND_PF_RING
  | CAPTURE_BACKEND_PCAP.

Inductive TimestampSource :=
  | TS_SOURCE_NTP
  | TS_SOURCE_PTP
  | TS_SOURCE_KERNEL
  | TS_SOURCE_HARDWARE.

(** The two [double] fields are kept as their bit patterns. *)
Record CaptureStats := mkCaptureStats {
  packets_captured    : Z;
  packets_dropped     : Z;
  packets_errors      : Z;
  bytes_captured      : Z;
  buffer_used_pct     : Z;
  flows_active        : Z;
  flows_total         : Z;
  rx_errors           : Z;
  tx_errors           : Z;
  avg_pps             : Z;
  avg_throughput_mbps : Z
}.

Definition zero_capture_stats : CaptureStats :=
  mkCaptureStats 0 0 0 0 0 0 0 0 0 0 0.

(** The [FlowTable] embedded in the session; [st_entries] is [None] for a
    NULL [entries] pointer. *)
Record session_table := mkSessionTable {
  st_entries : option (list FlowEntry);
  st_size    : Z;   (* uint32_t *)
  st_count   : Z    (* uint32_t *)
}.

Record netflow_t := mkNetflow {
  collector_ip        : list Z;     (* char[64] *)
  collector_port      : Z;          (* uint16_t *)
  export_interval_sec : Z;          (* uint32_t *)
  nf_callback         : option Z;   (* function pointer, NULL or an address *)
  nf_enabled          : bool
}.

Record encryption_t := mkEncryption {
  enc_enabled  : bool;
  cipher_suite : list Z             (* char[64] *)
}.

Record capture_session := mkSession {
  backend          : CaptureBackend;
  interface_name   : list Z;        (* char[256] *)
  is_running       : bool;
  ring_buffer      : RingBuffer;
  flow_table       : session_table;
  flow_enabled     : bool;
  idle_timeout_sec : Z;             (* uint32_t *)
  stats            : CaptureStats;
  netflow          : netflow_t;
  encryption       : encryption_t;
  error_callback   : option Z;
  error_context    : option Z;
  packet_counter   : Z;             (* uint64_t *)
  ts_source        : TimestampSource
}.

(** [strncpy dst src n]: the first [n] bytes of [dst] become the bytes of
    the C string [src], cut after [n] bytes or padded with NULs up to
    [n]; the bytes of [dst] from [n] on are kept. *)
Definition strncpy (dst src : list Z) (n : nat) : list Z :=
  resize n 0 (c_str src) ++ drop n dst.

(** What a call returns, or the fault of a NULL dereference or of a
    division by zero. *)
Inductive outcome (A : Type) :=
  | Fault
  | Done (a : A).
Arguments Fault {A}.
Arguments Done {A} a.

(** [capture_init]. [calloc_ok] is for the session, [malloc_ok] and
    [mmap_ok] for the two allocations of [ringbuffer_alloc], whose result
    is dereferenced without a test. The test of [ring_buffer.buffer] that
    follows reads the address [mmap] returned, which is not NULL. *)
Definition capture_init (calloc_ok malloc_ok mmap_ok : bool)
    (backend : CaptureBackend) (interface_name : option (list Z))
    (buffer_size_mb : Z) (enable_ts : TimestampSource)
  : outcome (option capture_session) :=
  match interface_name with
  | None => Done None
  | Some name =>
      let buffer_size_mb :=
        if buffer_size_mb =? 0 then DEFAULT_BUFFER_SIZE_MB
        else buffer_size_mb in
      if negb calloc_ok then Done None
      else
        match ringbuffer_alloc malloc_ok mmap_ok buffer_size_mb with
        | None => Fault
        | Some rb =>
            Done (Some
              {| backend := backend;
                 interface_name := strncpy (replicate 256 0) name 255;
                 is_running := false;
                 ring_buffer := rb;
                 flow_table := mkSessionTable None 0 0;
                 flow_enabled := false;
                 idle_timeout_sec := 0;
                 stats := zero_capture_stats;
                 netflow := mkNetflow (replicate 64 0) 0 0 None false;
                 encryption := mkEncryption false (replicate 64 0);
                 error_callback := None;
                 error_context := None;
                 packet_counter := 0;
                 ts_source := enable_ts |})
        end
  end.

Definition session_set_running (s : capture_session) (running : bool)
    (counter : Z) : capture_session :=
  {| backend := s.(backend); interface_name := s.(interface_name);
     is_running := running; ring_buffer := s.(ring_buffer);
     flow_table := s.(flow_table); flow_enabled := s.(flow_enabled);
     idle_timeout_sec := s.(idle_timeout_sec); stats := s.(stats);
     netflow := s.(netflow); encryption := s.(encryption);
     error_callback := s.(error_callback);
     error_context := s.(error_context);
     packet_counter := counter; ts_source := s.(ts_source) |}.

Definition session_set_flow (s : capture_session) (tbl : session_table)
    (enabled : bool) (idle : Z) : capture_session :=
  {| backend := s.(backend); interface_name := s.(interface_name);
     is_running := s.(is_running); ring_buffer := s.(ring_buffer);
     flow_table := tbl; flow_enabled := enabled;
     idle_timeout_sec := idle; stats := s.(stats);
     netflow := s.(netflow); encryption := s.(encryption);
     error_callback := s.(error_callback);
     error_context := s.(error_context);
     packet_counter := s.(packet_counter); ts_source := s.(ts_source) |}.

Definition session_set_netflow (s : capture_session) (nf : netflow_t)
  : capture_session :=
  {| backend := s.(backend); interface_name := s.(interface_name);
     is_running := s.(is_running); ring_buffer := s.(ring_buffer);
     flow_table := s.(flow_table); flow_enabled := s.(flow_enabled);
     idle_timeout_sec := s.(idle_timeout_sec); stats := s.(stats);
     netflow := nf; encryption := s.(encryption);
     error_callback := s.(error_callback);
     error_context := s.(error_context);
     packet_counter := s.(packet_counter); ts_source := s.(ts_source) |}.

Definition session_set_encryption (s : capture_session) (enc : encryption_t)
  : capture_session :=
  {| backend := s.(backend); interface_name := s.(interface_name);
     is_running := s.(is_running); ring_buffer := s.(ring_buffer);
     flow_table := s.(flow_table); flow_enabled := s.(flow_enabled);
     idle_timeout_sec := s.(idle_timeout_sec); stats := s.(stats);
     netflow := s.(netflow); encryption := enc;
     error_callback := s.(error_callback);
     error_context := s.(error_context);
     packet_counter := s.(packet_counter); ts_source := s.(ts_source) |}.

Definition session_set_error (s : capture_session) (cb ctx : option Z)
  : capture_session :=
  {| backend := s.(backend); interface_name := s.(interface_name);
     is_running := s.(is_running); ring_buffer := s.(ring_buffer);
     flow_table := s.(flow_table); flow_enabled := s.(flow_enabled);
     idle_timeout_sec := s.(idle_timeout_sec); stats := s.(stats);
     netflow := s.(netflow); encryption := s.(encryption);
     error_callback := cb; error_context := ctx;
     packet_counter := s.(packet_counter); ts_source := s.(ts_source) |}.

(** [capture_start]: [snaplen] and [filter] are not used. *)
Definition capture_start (session : option capture_session) (snaplen : Z)
    (filter : option (list Z)) : option capture_session * Z :=
  match session with
  | None => (None, -1)
  | Some s => (Some (session_set_running s true 0), 0)
  end.

Definition capture_stop (session : option capture_session)
  : option capture_session * Z :=
  match session with
  | None => (None, -1)
  | Some s => (Some (session_set_running s false s.(packet_counter)), 0)
  end.

(** [capture_poll]: no packet is ever handed to the callback. *)
Definition capture_poll (session : option capture_session)
    (callback user_data : option Z) (timeout_ms : Z) : Z :=
  match session, callback with
  | Some _, Some _ => 0
  | _, _ => -1
  end.

Definition capture_get_stats (session : option capture_session)
    (stats_out : option CaptureStats) : Z * option CaptureStats :=
  match session, stats_out with
  | Some s, Some _ => (0, Some s.(stats))
  | _, _ => (-1, stats_out)
  end.

(** [capture_flow_enable]: the result of [calloc] is stored in
    [flow_table.entries] before it is tested, so a failed call leaves a
    NULL pointer there and the rest of the session as it was. *)
Definition capture_flow_enable (calloc_ok : bool)
    (session : option capture_session) (table_size idle_timeout_sec : Z)
  : option capture_session * Z :=
  match session with
  | None => (None, -1)
  | Some s =>
      let table_size :=
        if table_size =? 0 then DEFAULT_FLOW_TABLE_SIZE else table_size in
      let idle_timeout_sec :=
        if idle_timeout_sec =? 0 then DEFAULT_IDLE_TIMEOUT_SEC
        else idle_timeout_sec in
      if negb calloc_ok then
        (Some (session_set_flow s
                 (mkSessionTable None s.(flow_table).(st_size)
                    s.(flow_table).(st_count))
                 s.(flow_enabled) s.(CaptureApi.idle_timeout_sec)),
         -1)
      else
        (Some (session_set_flow s
                 (mkSessionTable
                    (Some (replicate (Z.to_nat table_size) zero_entry))
                    table_size 0)
                 true idle_timeout_sec),
         0)
  end.

Definition capture_flow_disable (session : option capture_session)
  : option capture_session * Z :=
  match session with
  | None => (None, -1)
  | Some s =>
      (Some (session_set_flow s
               (mkSessionTable None s.(flow_table).(st_size)
                  s.(flow_table).(st_count))
               false s.(idle_timeout_sec)),
       0)
  end.

(** [capture_flow_lookup] hands [&session->flow_table] to
    [flow_table_lookup], which divides by [size] and reads
    [entries[idx]]. *)
Definition capture_flow_lookup (session : option capture_session)
    (tuple : option FlowTuple) (flow : option FlowRecord)
  : outcome (Z * option FlowRecord) :=
  match session, tuple, flow with
  | Some s, Some _, Some _ =>
      if negb s.(flow_enabled) then Done (-1, flow)
      else if s.(flow_table).(st_size) =? 0 then Fault
      else
        match s.(flow_table).(st_entries) with
        | None => Fault
        | Some es =>
            Done (flow_table_lookup
                    (Some (mkFlowTable es s.(flow_table).(st_size)
                             s.(flow_table).(st_count)))
                    tuple flow)
        end
  | _, _, _ => Done (-1, flow)
  end.

(** [capture_flow_get_all]: [flow_table_get_all] reads [entries] only
    inside its loop, which a zero [size] or [count] keeps it out of. *)
Definition capture_flow_get_all (malloc_ok : bool)
    (session : option capture_session)
    (flows : option (option (list FlowRecord))) (count : option Z)
  : outcome (Z * option (option (list FlowRecord)) * option Z) :=
  match session, flows, count with
  | Some s, Some _, Some _ =>
      if negb s.(flow_enabled) then Done (-1, flows, count)
      else
        let tbl := s.(flow_table) in
        match tbl.(st_entries) with
        | Some es =>
            Done (flow_table_get_all malloc_ok
                    (Some (mkFlowTable es tbl.(st_size) tbl.(st_count)))
                    flows count)
        | None =>
            if malloc_ok && (0 <? tbl.(st_size)) && (0 <? tbl.(st_count))
            then Fault
            else Done (flow_table_get_all malloc_ok
                         (Some (mkFlowTable [] tbl.(st_size) tbl.(st_count)))
                         flows count)
        end
  | _, _, _ => Done (-1, flows, count)
  end.

Definition capture_netflow_enable (session : option capture_session)
    (collector_ip : option (list Z)) (collector_port : Z)
    (export_interval_sec : Z) (callback : option Z)
  : option capture_session * Z :=
  match session, collector_ip with
  | Some s, Some ip =>
      let collector_port :=
        if collector_port =? 0 then 2055 else collector_port in
      (Some (session_set_netflow s
               {| collector_ip := strncpy s.(netflow).(CaptureApi.collector_ip)
                                    ip 63;
                  collector_port := collector_port;
                  export_interval_sec := export_interval_sec;
                  nf_callback := callback;
                  nf_enabled := true |}),
       0)
  | _, _ => (session, -1)
  end.

(** [capture_set_encryption]: the key file is not read. *)
Definition capture_set_encryption (session : option capture_session)
    (cipher : option (list Z)) (key_file : option (list Z))
  : option capture_session * Z :=
  match session, cipher, key_file with
  | Some s, Some c, Some _ =>
      (Some (session_set_encryption s
               {| enc_enabled := true;
                  cipher_suite :=
                    strncpy s.(encryption).(CaptureApi.cipher_suite) c 63 |}),
       0)
  | _, _, _ => (session, -1)
  end.

Definition capture_set_error_callback (session : option capture_session)
    (callback user_data : option Z) : option capture_session :=
  match session with
  | None => None
  | Some s => Some (session_set_error s callback user_data)
  end.

(** ** Runs of API calls on a session *)

Inductive capture_call :=
  | CallStart (snaplen : Z) (filter : option (list Z))
  | CallStop
  | CallFlowEnable (calloc_ok : bool) (table_size idle_timeout_sec : Z)
  | CallFlowDisable
  | CallNetflowEnable (collector_ip : list Z) (collector_port : Z)
      (export_interval_sec : Z) (callback : option Z)
  | CallSetEncryption (cipher key_file : list Z)
  | CallSetErrorCallback (callback user_data : option Z).

Definition capture_step (s : capture_session) (c : capture_call)
  : capture_session :=
  match c with
  | CallStart snaplen filter =>
      default s (fst (capture_start (Some s) snaplen filter))
  | CallStop => default s (fst (capture_stop (Some s)))
  | CallFlowEnable calloc_ok table_size idle =>
      default s (fst (capture_flow_enable calloc_ok (Some s) table_size idle))
  | CallFlowDisable => default s (fst (capture_flow_disable (Some s)))
  | CallNetflowEnable ip port interval cb =>
      default s (fst (capture_netflow_enable (Some s) (Some ip) port
                        interval cb))
  | CallSetEncryption c k =>
      default s (fst (capture_set_encryption (Some s) (Some c) (Some k)))
  | CallSetErrorCallback cb ctx =>
      default s (capture_set_error_callback (Some s) cb ctx)
  end.

Definition capture_run (s : capture_session) (calls : list capture_call)
  : capture_session :=
  fold_left capture_step calls s.

(** The table sizes passed to [capture_flow_enable] are [uint32_t]
    values. *)
Definition table_sizes_ok (calls : list capture_call) : Prop :=
  Forall (fun c => match c with
                   | CallFlowEnable _ table_size _ => 0 <= table_size < 2^32
                   | _ => True
                   end) calls.

(** No [calloc] of [capture_flow_enable] fails. *)
Definition callocs_ok (calls : list capture_call) : Prop :=
  Forall (fun c => match c with
                   | CallFlowEnable calloc_ok _ _ => calloc_ok = true
                   | _ => True
                   end) calls.

(** The flow table of a session holds no flow: it is disabled with a NULL
    array, or it is an array of zeroed slots of a nonzero size. *)
Definition flow_table_empty (s : capture_session) : Prop :=
  s.(flow_table).(st_count) = 0 /\
  match s.(flow_table).(st_entries) with
  | None => s.(flow_enabled) = false
  | Some es =>
      0 < s.(flow_table).(st_size) < 2^32 /\
      es = replicate (Z.to_nat s.(flow_table).(st_size)) zero_entry
  end.

(** The five fields [flow_table_lookup] compares are all 0. *)
Definition zero_five (t : FlowTuple) : bool :=
  (t.(src_ip) =? 0) && (t.(dst_ip) =? 0) && (t.(src_port) =? 0) &&
  (t.(dst_port) =? 0) && (t.(protocol) =? 0).

End CaptureApi.
(** * Concrete inputs

    Small states and packets on which the code is run below. *)

Module CaptureInputs.
Import Capture.



(** 10.0.0.1:52344 -> 10.0.0.2:80, TCP. *)
Definition web_tuple : FlowTuple :=
  {| src_ip := 167772161; dst_ip := 167772162; src_port := 52344;
     dst_port := 80; protocol := 6; pad13 := 0; vlan_id := 0 |}.

(** A DHCP discover: 0.0.0.0:68 -> 255.255.255.255:67, UDP. *)
Definition dhcp_tuple : FlowTuple :=
  {| src_ip := 0; dst_ip := 4294967295; src_port := 68;
     dst_port := 67; protocol := 17; pad13 := 0; vlan_id := 0 |}.

(** Three packets of 100, 200 and 50 bytes on one tuple, with increasing
    packet ids and timestamps. *)
Definition three_packets (t : FlowTuple) : list update_call :=
  [ mkUpdate t 100 1 1000; mkUpdate t 200 2 2000; mkUpdate t 50 3 3000 ].


(** An 8-byte ring holding the two unread bytes 1 and 2 in slots 4 and 5,
    with its write position two slots before the end of the region. *)
Definition rb8_wrap : RingBuffer :=
  {| buffer := [0; 0; 0; 0; 1; 2; 0; 0]; size := 8;
     write_pos := 6; read_pos := 4; encrypted := false |}.

(** 10.0.0.3:40000 -> 10.0.0.2:443, TCP: another flow. *)
Definition tls_tuple : FlowTuple :=
  {| src_ip := 167772163; dst_ip := 167772162; src_port := 40000;
     dst_port := 443; protocol := 6; pad13 := 0; vlan_id := 0 |}.

(** A table of one slot, taken by [web_tuple]: every tuple hashes to it. *)
Definition one_slot_table : FlowTable :=
  flow_table_update_call (empty_table 1) (mkUpdate web_tuple 100 1 1000).

Import CaptureApi.

(** The session [capture_init] returns for "eth0" with a buffer of 1 MB
    when its three allocations succeed. *)
Definition eth0_session : capture_session :=
  {| backend := CAPTURE_BACKEND_PCAP;
     interface_name := strncpy (replicate 256 0) (lit "eth0") 255;
     is_running := false;
     ring_buffer := {| buffer := replicate (Z.to_nat 1048576) 0;
                       size := 1048576; write_pos := 0; read_pos := 0;
                       encrypted := false |};
     flow_table := mkSessionTable None 0 0;
     flow_enabled := false;
     idle_timeout_sec := 0;
     stats := zero_capture_stats;
     netflow := mkNetflow (replicate 64 0) 0 0 None false;
     encryption := mkEncryption false (replicate 64 0);
     error_callback := None;
     error_context := None;
     packet_counter := 0;
     ts_source := TS_SOURCE_PTP |}.

(** Capture is started, flow metering and NetFlow export are enabled with
    their default sizes, and capture is stopped. *)
Definition eth0_calls : list capture_call :=
  [ CallStart 0 None; CallFlowEnable true 0 0;
    CallNetflowEnable (lit "10.0.0.9") 0 60 None; CallStop ].
End CaptureInputs.


Module DPIInputs.
Import DPI.

Definition default_config : dpi_config_t :=
  {| tls_mode := DPI_TLS_DISABLED;
     enable_anomaly_detection := 1;
     enable_malware_detection := 0;
     reassembly_timeout_sec := 300;
     max_concurrent_sessions := 1024;
     memory_limit_mb := 512;
     log_all_alerts := 0;
     log_tls_keys := 0;
     log_dir := "/var/log/dpi";
     redact_pii := 0;
     anonymize_ips := 0 |}.

(** The engine [dpi_init] returns for [default_config] when every
    allocation succeeds. *)
Definition fresh_engine : dpi_engine_t :=
  {| config := default_config;
     eng_sessions := {| sessions := []; capacity := 1024 |};
     eng_rules :=
       {| rules := replicate (Z.to_nat DPI_MAX_RULES) zero_rule;
          compiled_regex := replicate (Z.to_nat DPI_MAX_RULES) None;
          rule_count := 0;
          max_rules := DPI_MAX_RULES |};
     alerts :=
       {| queue := replicate (Z.to_nat DPI_MAX_ALERTS) zero_alert;
          head := 0;
          tail := 0;
          al_capacity := DPI_MAX_ALERTS |};
     stats := zero_stats;
     next_session_id := 1;
     next_alert_id := 1 |}.

(** A [regcomp] that accepts every pattern. *)
Definition regcomp_any (pattern : string) (cflags : Z) : bool := true.

(** The REGEX rule of scenario 6: pattern "evil", every protocol, every
    port, enabled. *)
Definition evil_regex_rule : dpi_rule_t :=
  {| rule_id := 0; type := DPI_RULE_REGEX; name := "evil";
     rule_description := "payload mentions evil";
     severity := DPI_ALERT_CRITICAL;
     pattern := Some "evil"%string; pattern_len := 4;
     rule_protocol := DPI_PROTO_UNKNOWN;
     port_range_start := 0; port_range_end := 0;
     applies_to_request := 1; applies_to_response := 1;
     category := "malware"; created_at := 0; last_modified := 0;
     enabled := 1 |}.

(** The same rule as a CONTENT rule. *)
Definition evil_content_rule : dpi_rule_t :=
  {| rule_id := 0; type := DPI_RULE_CONTENT; name := "evil";
     rule_description := "payload mentions evil";
     severity := DPI_ALERT_CRITICAL;
     pattern := Some "evil"%string; pattern_len := 4;
     rule_protocol := DPI_PROTO_UNKNOWN;
     port_range_start := 0; port_range_end := 0;
     applies_to_request := 1; applies_to_response := 1;
     category := "malware"; created_at := 0; last_modified := 0;
     enabled := 1 |}.

(** 10.0.0.1:52344 -> 10.0.0.2:80, TCP. *)
Definition web_flow : dpi_flow_tuple_t :=
  {| src_ip := 167772161; dst_ip := 167772162; src_port := 52344;
     dst_port := 80; protocol := 6 |}.

(** 10.0.0.1:52344 -> 10.0.0.2:9999, TCP: a port of no known service. *)
Definition odd_flow : dpi_flow_tuple_t :=
  {| src_ip := 167772161; dst_ip := 167772162; src_port := 52344;
     dst_port := 9999; protocol := 6 |}.

(** "GET /evil HTTP/1.1\r\nHost: x\r\n\r\n", 31 bytes. *)
Definition get_evil_payload : list Z :=
  lit "GET /evil HTTP/1.1" ++ [13; 10] ++ lit "Host: x" ++ [13; 10; 13; 10].

(** "GET /\n": the 6 bytes of an HTTP/0.9 request. *)
Definition short_get_payload : list Z := lit "GET /" ++ [10].

(** Two bytes that no dissector recognises. *)
Definition tiny_payload : list Z := lit "hi".

(** 10.0.0.1:52344 -> 10.0.0.2:22, TCP. *)
Definition ssh_flow : dpi_flow_tuple_t :=
  {| src_ip := 167772161; dst_ip := 167772162; src_port := 52344;
     dst_port := 22; protocol := 6 |}.

Definition alert_1 : dpi_alert_t :=
  {| alert_id := 1; al_timestamp_ns := 1000; al_flow := web_flow;
     al_severity := DPI_ALERT_CRITICAL; al_protocol := DPI_PROTO_HTTP;
     al_rule_id := 1; rule_name := "evil"; message := "first";
     payload_sample := None; payload_sample_len := 0;
     offset_in_stream := 0 |}.

Definition alert_2 : dpi_alert_t :=
  {| alert_id := 2; al_timestamp_ns := 2000; al_flow := web_flow;
     al_severity := DPI_ALERT_CRITICAL; al_protocol := DPI_PROTO_HTTP;
     al_rule_id := 1; rule_name := "evil"; message := "second";
     payload_sample := None; payload_sample_len := 0;
     offset_in_stream := 0 |}.

(** The fresh engine with two alerts written into its queue by hand; no call
    of the API enqueues one. *)
Definition engine_two_alerts : dpi_engine_t :=
  {| config := default_config;
     eng_sessions := fresh_engine.(eng_sessions);
     eng_rules := fresh_engine.(eng_rules);
     alerts :=
       {| queue := <[1%nat := alert_2]>
                     (<[0%nat := alert_1]> fresh_engine.(alerts).(queue));
          head := 0;
          tail := 2;
          al_capacity := DPI_MAX_ALERTS |};
     stats := zero_stats;
     next_session_id := 1;
     next_alert_id := 3 |}.

(** The fresh engine after the CONTENT rule "evil" was added. *)
Definition engine_with_rule : dpi_engine_t :=
  default fresh_engine
    (fst (dpi_add_rule regcomp_any (Some fresh_engine) (Some evil_content_rule))).

(** "GET /index HTTP/1.1\r\nHost: x\r\n\r\n", 32 bytes (scenario 1). *)
Definition get_index_payload : list Z :=
  lit "GET /index HTTP/1.1" ++ [13; 10] ++ lit "Host: x" ++ [13; 10; 13; 10].

(** 10.0.0.1:52344 -> 10.0.0.2:8888, TCP (scenario 2). *)
Definition alt_web_flow : dpi_flow_tuple_t :=
  {| src_ip := 167772161; dst_ip := 167772162; src_port := 52344;
     dst_port := 8888; protocol := 6 |}.

(** 10.0.0.1:52344 -> 10.0.0.2:443, TCP, and the first 5 bytes of a TLS 1.2
    client hello (scenario 3). *)
Definition tls_flow : dpi_flow_tuple_t :=
  {| src_ip := 167772161; dst_ip := 167772162; src_port := 52344;
     dst_port := 443; protocol := 6 |}.

Definition tls_hello_payload : list Z := [22; 3; 3; 0; 32].

(** 10.0.0.1:52344 -> 10.0.0.2:53, UDP, and a 12-byte query (scenario 4). *)
Definition dns_flow : dpi_flow_tuple_t :=
  {| src_ip := 167772161; dst_ip := 167772162; src_port := 52344;
     dst_port := 53; protocol := 17 |}.

Definition dns_query_payload : list Z := [18; 52; 1; 0; 0; 1; 0; 0; 0; 0; 0; 0].


(** A run that uses every call: two sessions are created, a rule is added
    and removed, the alerts are drained, the first session is terminated
    and its flow is seen again. *)
Definition sample_run : list dpi_call :=
  [ CallProcess (mkPacket [] web_flow get_index_payload 32 1000 0);
    CallAddRule regcomp_any evil_regex_rule;
    CallProcess (mkPacket [] tls_flow tls_hello_payload 5 2000 0);
    CallSetTlsMode tls_flow DPI_TLS_INSPECT;
    CallGetAlerts (replicate 2 zero_alert) 2 1;
    CallProcess (mkPacket [] web_flow get_evil_payload 31 3000 0);
    CallTerminate web_flow;
    CallRemoveRule 1;
    CallProcess (mkPacket [] web_flow get_index_payload 32 4000 0) ].

(** The record [dissect_http] fills for a GET request: the method only. *)
Definition get_request_record : dpi_http_data_t :=
  {| method := "GET"; uri := ""; host := ""; user_agent := "";
     status_code := 0; content_length := 0; is_request := 1 |}.

Definition get_request_data : dpi_http_data_t + dpi_dns_data_t :=
  inl get_request_record.

(** The fresh engine after one GET request on [web_flow], and the session
    that request created. *)
Definition engine_one_packet : dpi_engine_t :=
  dpi_process_call fresh_engine
    (mkPacket [] web_flow get_index_payload 32 1000 0).

Definition web_session_1 : dpi_session_t :=
  {| session_id := 1; flow := web_flow; state := DPI_STATE_ESTABLISHED;
     sess_protocol := {| pr_protocol := DPI_PROTO_HTTP; confidence := 0;
                         detection_tick := 1; app_name := "" |};
     fwd_buffer := true; fwd_buffer_used := 0; fwd_seq := 0;
     rev_buffer := true; rev_buffer_used := 0; rev_seq := 0;
     http_data := Some get_request_record; dns_data := None;
     tls_data := None; anomalies := []; anomaly_count := 0;
     created_ns := 1000; last_seen_ns := 1000; packets_seen := 1;
     total_bytes := 32 |}.

(** A GET request with a User-Agent header: 40 bytes and a closing NUL. *)
Definition get_agent_payload : list Z :=
  lit "GET / HTTP/1.1" ++ [13; 10] ++ lit "User-Agent: curl/8.0" ++
  [13; 10; 13; 10; 0].

(** The first 12 bytes of a TLS 1.2 client hello: record header and the
    start of the handshake message. *)
Definition tls_record_payload : list Z :=
  [22; 3; 3; 0; 70; 1; 0; 0; 66; 3; 3; 95].

(** A [regcomp] that rejects every pattern. *)
Definition regcomp_none (pattern : string) (cflags : Z) : bool := false.
End DPIInputs.

(** * Machine integers and buffers *)

Arguments u32 : simpl never.
Arguments u64 : simpl never.

Lemma u32_small x : 0 <= x < 2^32 -> u32 x = x.
Proof. intros H. unfold u32. now apply Z.mod_small. Qed.

Lemma u64_small x : 0 <= x < 2^64 -> u64 x = x.
Proof. intros H. unfold u64. now apply Z.mod_small. Qed.

Lemma memcpy_length dst off src n : length (memcpy dst off src n) = length dst.
Proof.
  revert dst off src. induction n as [|n IH]; intros dst off [|b src]; simpl; auto.
  rewrite IH. apply length_insert.
Qed.

(** * C strings *)

Lemma strncmp_is_prefix p :
  Forall (fun b => b <> 0) p ->
  forall data, (strncmp data p (length p) =? 0) = is_prefix p data.
Proof.
  induction 1 as [|a p Ha Hp IH]; intros data; [reflexivity|].
  cbn [length strncmp is_prefix].
  change (byte_at (a :: p) 0) with a.
  destruct data as [|b data];
    [change (byte_at [] 0) with 0 | change (byte_at (b :: data) 0) with b];
    cbn [tail].
  - destruct (Z.eqb_spec 0 a) as [E|_]; [congruence|].
    destruct (Z.eqb_spec (0 - a) 0); [lia|reflexivity].
  - destruct (Z.eqb_spec b a) as [->|Hne].
    + destruct (Z.eqb_spec a 0) as [E|_]; [contradiction|].
      rewrite Z.eqb_refl. apply IH.
    + destruct (Z.eqb_spec (b - a) 0); [lia|].
      destruct (Z.eqb_spec a b); [congruence|reflexivity].
Qed.

(** The form in which the dissectors call [strncmp]: a literal without NUL
    and its length. *)
Lemma strncmp_lit s n data :
  n = length (lit s) ->
  forallb (fun b => negb (b =? 0)) (lit s) = true ->
  (strncmp data (lit s) n =? 0) = is_prefix (lit s) data.
Proof.
  intros -> Hnz. apply strncmp_is_prefix.
  apply Forall_forall. intros b Hb.
  rewrite forallb_forall in Hnz. apply list_elem_of_In in Hb.
  specialize (Hnz b Hb). now destruct (Z.eqb_spec b 0).
Qed.

Lemma is_prefix_take p : forall s n,
  (length p <= n)%nat -> is_prefix p (take n s) = is_prefix p s.
Proof.
  induction p as [|a p IH]; intros [|b s] [|n] Hn; cbn in *;
    try reflexivity; try lia.
  f_equal. apply IH. lia.
Qed.

Lemma is_prefix_of_take p : forall s n,
  is_prefix p (take n s) = true -> is_prefix p s = true.
Proof.
  induction p as [|a p IH]; intros [|b s] [|n] H; cbn in *;
    try reflexivity; try discriminate.
  apply andb_prop in H as [Hab H]. rewrite Hab. cbn. now apply (IH s n).
Qed.

Lemma is_prefix_length p : forall s,
  is_prefix p s = true -> (length p <= length s)%nat.
Proof.
  induction p as [|a p IH]; intros [|b s] H; cbn in *;
    try lia; try discriminate.
  apply andb_prop in H as [_ H]. apply IH in H. lia.
Qed.

Lemma is_prefix_take_eq p : forall s,
  is_prefix p s = true -> take (length p) s = p.
Proof.
  induction p as [|a p IH]; intros [|b s] H; cbn in *;
    try reflexivity; try discriminate.
  apply andb_prop in H as [Hab H]. apply Z.eqb_eq in Hab. subst b.
  f_equal. now apply IH.
Qed.

Lemma is_prefix_app p q : forall s,
  is_prefix (p ++ q) s = true -> is_prefix p s = true.
Proof.
  induction p as [|a p IH]; intros [|b s] H; cbn in *;
    try reflexivity; try discriminate.
  apply andb_prop in H as [Hab H]. rewrite Hab. cbn. now apply IH.
Qed.

(** Two literals that are prefixes of one buffer agree on their first two
    bytes. *)
Lemma is_prefix_first_two p q s :
  is_prefix p s = true -> is_prefix q s = true ->
  (2 <= length p)%nat -> (2 <= length q)%nat ->
  take 2 p = take 2 q.
Proof.
  intros Hp Hq Lp Lq.
  apply is_prefix_take_eq in Hp. apply is_prefix_take_eq in Hq.
  rewrite <- Hp at 1. rewrite <- Hq at 1.
  rewrite !take_take. f_equal. lia.
Qed.

Lemma strchr_after_prefix p c :
  Forall (fun b => b <> c /\ b <> 0) p ->
  forall data, is_prefix (p ++ [c]) data = true ->
  strchr data c = Some (length p).
Proof.
  induction 1 as [|a p [Hc H0] Hp IH]; intros [|b data] H; cbn in *;
    try discriminate.
  - apply andb_prop in H as [Hcb _]. apply Z.eqb_eq in Hcb. subst b.
    now rewrite Z.eqb_refl.
  - apply andb_prop in H as [Hab H]. apply Z.eqb_eq in Hab. subst b.
    destruct (Z.eqb_spec a c); [contradiction|].
    destruct (Z.eqb_spec a 0); [contradiction|].
    now rewrite (IH data H).
Qed.

(** * Properties of the packet capture engine *)

Module CaptureFacts.
Import Capture CaptureInputs.

Arguments flow_tuple_hash : simpl never.
Opaque flow_tuple_hash.
Arguments slot_index : simpl never.
Arguments entry_update : simpl never.
Arguments entry_at : simpl never.

(** ** Ring buffer *)

Section RingBuffer.

Variable rb : RingBuffer.
Hypothesis Hwf : rb_wf rb.

Let avail : Z := rb.(size) - (rb.(write_pos) - rb.(read_pos)).

(** What the code computes in [available] is the free room. *)
Lemma available_exact :
  u32 (u64 (rb.(size) - u64 (rb.(write_pos) - rb.(read_pos)))) = avail.
Proof.
  destruct Hwf. subst avail.
  rewrite (u64_small (write_pos rb - read_pos rb)) by lia.
  rewrite u64_small by lia. apply u32_small. lia.
Qed.

Lemma append_drop data len pid :
  avail < len ->
  ringbuffer_append rb data len pid = (rb, UINT32_MAX, pid).
Proof.
  intros Hlt. unfold ringbuffer_append. rewrite available_exact.
  destruct (Z.ltb_spec avail len); [reflexivity | lia].
Qed.

Lemma append_store data len pid :
  0 <= len <= avail ->
  exists rb',
    ringbuffer_append rb data len pid
      = (rb', rb.(write_pos) mod rb.(size), rb'.(write_pos)) /\
    rb'.(write_pos) = rb.(write_pos) + len /\
    rb'.(read_pos) = rb.(read_pos) /\
    rb'.(size) = rb.(size) /\
    rb_wf rb'.
Proof.
  intros Hle. unfold ringbuffer_append. rewrite available_exact.
  destruct (Z.ltb_spec avail len) as [Hlt|_]; [lia|].
  pose proof Hwf as [Hs Hb Hr Ho Hf Hn]. subst avail.
  assert (Hoff : u32 (write_pos rb mod size rb) = write_pos rb mod size rb).
  { apply u32_small. pose proof (Z.mod_pos_bound (write_pos rb) (size rb)). lia. }
  assert (Hw : u64 (write_pos rb + len) = write_pos rb + len)
    by (apply u64_small; lia).
  rewrite Hoff, Hw.
  eexists (mkRingBuffer _ _ (write_pos rb + len) _ _).
  split; [reflexivity|]. simpl.
  repeat split; simpl; try lia.
  destruct (_ <=? _); rewrite ?memcpy_length; exact Hb.
Qed.

End RingBuffer.




(** A buffer as [ringbuffer_alloc] returns it is well formed. *)
Lemma ringbuffer_alloc_wf m1 m2 size_mb rb :
  ringbuffer_alloc m1 m2 size_mb = Some rb -> rb_wf rb.
Proof.
  unfold ringbuffer_alloc.
  destruct (negb m1); [discriminate|].
  set (sz := u32 (u32 (size_mb * 1024) * 1024)).
  destruct (negb m2); [discriminate|]. simpl.
  destruct (Z.eqb_spec sz 0); [discriminate|].
  intros [= <-].
  assert (0 <= sz < 2^32) by (subst sz; unfold u32; apply Z.mod_pos_bound; lia).
  constructor; simpl; try lia.
  apply length_replicate.
Qed.


(** The wrap-around copy, run on the model: 4 bytes appended at offset 6
    of an 8-byte ring land in the slots 6, 7, 0 and 1. *)
Example ringbuffer_append_wraps :
  ringbuffer_append
    {| buffer := [0; 0; 0; 0; 1; 2; 0; 0]; size := 8;
       write_pos := 6; read_pos := 4; encrypted := false |}
    [11; 12; 13; 14] 4 0
  = ({| buffer := [13; 14; 0; 0; 1; 2; 11; 12]; size := 8;
        write_pos := 10; read_pos := 4; encrypted := false |}, 6, 10).
Proof. vm_compute. reflexivity. Qed.


(** ** Flow table *)

Lemma slot_index_bound ft t :
  0 < ft.(ft_size) < 2^32 -> 0 <= slot_index ft t < ft.(ft_size).
Proof.
  intros Hs. unfold slot_index.
  pose proof (Z.mod_pos_bound (flow_tuple_hash t) (ft_size ft)).
  rewrite u32_small; lia.
Qed.

Lemma update_call_unfold ft c :
  flow_table_update_call ft c =
  {| entries :=
       <[Z.to_nat (slot_index ft c.(uc_tuple)) :=
           entry_update (entry_at ft (slot_index ft c.(uc_tuple)))
                        c.(uc_tuple) (flow_tuple_hash c.(uc_tuple))
                        c.(uc_len) c.(uc_id) c.(uc_ts)]> ft.(entries);
     ft_size := ft.(ft_size);
     ft_count := if slot_free (entry_at ft (slot_index ft c.(uc_tuple)))
                 then u32 (ft.(ft_count) + 1)
                 else ft.(ft_count) |}.
Proof. reflexivity. Qed.

Lemma update_call_wf ft c : ft_wf ft -> ft_wf (flow_table_update_call ft c).
Proof.
  intros [Hs Hl]. rewrite update_call_unfold.
  split; cbn [entries ft_size]; [exact Hs|].
  now rewrite length_insert.
Qed.

Lemma update_call_size ft c :
  (flow_table_update_call ft c).(ft_size) = ft.(ft_size).
Proof. reflexivity. Qed.

Lemma update_call_slot ft c t :
  slot_index (flow_table_update_call ft c) t = slot_index ft t.
Proof. unfold slot_index. now rewrite update_call_size. Qed.

(** The slot of the updated tuple holds what [entry_update] computes. *)
Lemma update_call_at ft c :
  ft_wf ft ->
  entry_at (flow_table_update_call ft c) (slot_index ft c.(uc_tuple)) =
  entry_update (entry_at ft (slot_index ft c.(uc_tuple))) c.(uc_tuple)
    (flow_tuple_hash c.(uc_tuple)) c.(uc_len) c.(uc_id) c.(uc_ts).
Proof.
  intros [Hs Hl]. rewrite update_call_unfold. unfold entry_at at 1.
  cbn [entries]. rewrite list_lookup_insert_eq; [reflexivity|].
  pose proof (slot_index_bound ft c.(uc_tuple) Hs). lia.
Qed.

Lemma entry_inv_weaken k T k' T' e :
  k <= k' -> T <= T' -> entry_inv k T e -> entry_inv k' T' e.
Proof. unfold entry_inv. intros Hk HT H Hfree. specialize (H Hfree). lia. Qed.

Lemma entry_update_inv k T e t fid len pid ts :
  0 <= k -> k + 1 < 2^64 -> T <= ts ->
  entry_inv k T e ->
  entry_inv (k + 1) ts (entry_update e t fid len pid ts).
Proof.
  intros Hk Hbound HT Hinv. unfold entry_inv, entry_update.
  destruct (slot_free e) eqn:Hfree; simpl.
  - intros _. lia.
  - intros _. destruct (Hinv Hfree) as (Hp & Hfl & Hl).
    rewrite u64_small by lia. lia.
Qed.

Lemma update_call_inv k T ft c :
  0 <= k -> k + 1 < 2^64 -> T <= c.(uc_ts) ->
  table_inv k T ft ->
  table_inv (k + 1) c.(uc_ts) (flow_table_update_call ft c).
Proof.
  intros Hk Hbound HT [Hwf Hall]. split; [now apply update_call_wf|].
  intros i. rewrite update_call_unfold. cbn [entries].
  destruct (decide (Z.to_nat (slot_index ft c.(uc_tuple)) = i)) as [<-|Hne].
  - destruct Hwf as [Hs Hl].
    rewrite list_lookup_insert_eq
      by (pose proof (slot_index_bound ft c.(uc_tuple) Hs); lia).
    cbn [default]. apply (entry_update_inv k T); auto.
    apply (Hall (Z.to_nat (slot_index ft c.(uc_tuple)))).
  - rewrite list_lookup_insert_ne by exact Hne.
    eapply entry_inv_weaken; [| |apply Hall]; lia.
Qed.

Lemma updates_inv calls : forall ft k T,
  0 <= k -> k + Z.of_nat (length calls) < 2^64 ->
  ts_from T calls = true ->
  table_inv k T ft ->
  exists T', table_inv (k + Z.of_nat (length calls)) T'
               (flow_table_updates ft calls).
Proof.
  induction calls as [|c rest IH]; intros ft k T Hk Hbound Hts Hinv.
  - exists T. simpl. now rewrite Z.add_0_r.
  - simpl in Hts. apply andb_prop in Hts as [Hle Hrest].
    apply Z.leb_le in Hle.
    change (length (c :: rest)) with (S (length rest)) in *.
    rewrite Nat2Z.inj_succ in *.
    destruct (IH (flow_table_update_call ft c) (k + 1) c.(uc_ts))
      as [T' HT']; try lia; auto.
    + apply (update_call_inv k T); auto; lia.
    + exists T'. simpl.
      replace (k + Z.succ (Z.of_nat (length rest)))
        with (k + 1 + Z.of_nat (length rest)) by lia.
      exact HT'.
Qed.

Lemma empty_table_inv n T : 0 < n < 2^32 -> table_inv 0 T (empty_table n).
Proof.
  intros Hn. split.
  - split; simpl; [exact Hn|apply length_replicate].
  - intros i. unfold entry_inv. simpl.
    destruct (replicate (Z.to_nat n) zero_entry !! i) as [e|] eqn:He; simpl.
    + apply lookup_replicate in He as [-> _]. discriminate.
    + discriminate.
Qed.

(** A successful lookup returns the record of the slot, whose tuple agrees
    with the one asked for on the five compared fields. *)
Lemma lookup_found ft t r0 r :
  flow_table_lookup (Some ft) (Some t) (Some r0) = (0, Some r) ->
  r = (entry_at ft (slot_index ft t)).(flow) /\
  r.(tuple).(src_ip) = t.(src_ip).
Proof.
  unfold flow_table_lookup.
  destruct (_ && _) eqn:Hc; [|discriminate].
  intros [= <-]. split; [reflexivity|].
  repeat (apply andb_prop in Hc as [Hc ?]). now apply Z.eqb_eq in Hc.
Qed.

Lemma lookup_self ft t r0 :
  (entry_at ft (slot_index ft t)).(flow).(tuple) = t ->
  flow_table_lookup (Some ft) (Some t) (Some r0)
  = (0, Some (entry_at ft (slot_index ft t)).(flow)).
Proof.
  intros Ht. unfold flow_table_lookup. rewrite Ht.
  now rewrite !Z.eqb_refl.
Qed.

Lemma empty_table_entry n i : entry_at (empty_table n) i = zero_entry.
Proof.
  unfold entry_at. simpl.
  destruct (replicate (Z.to_nat n) zero_entry !! Z.to_nat i) as [e|] eqn:He;
    [|reflexivity].
  now apply lookup_replicate in He as [-> _].
Qed.

(** [entry_update] on a free slot and on a taken one, field by field. *)
Lemma entry_update_free e t fid len pid ts :
  slot_free e = true ->
  let f := (entry_update e t fid len pid ts).(flow) in
  f.(tuple) = t /\ f.(packets) = 1 /\ f.(bytes) = len /\
  f.(first_packet_id) = pid /\
  f.(last_packet_id) = e.(flow).(last_packet_id) /\
  f.(first_seen_ns) = ts /\ f.(last_seen_ns) = ts.
Proof.
  intros Hfree. unfold entry_update. rewrite Hfree. repeat split.
Qed.

Lemma entry_update_taken e t fid len pid ts :
  slot_free e = false ->
  let f := (entry_update e t fid len pid ts).(flow) in
  f.(tuple) = e.(flow).(tuple) /\
  f.(packets) = u64 (e.(flow).(packets) + 1) /\
  f.(bytes) = u64 (e.(flow).(bytes) + len) /\
  f.(first_packet_id) = e.(flow).(first_packet_id) /\
  f.(last_packet_id) = pid /\
  f.(first_seen_ns) = e.(flow).(first_seen_ns) /\ f.(last_seen_ns) = ts.
Proof.
  intros Hfree. unfold entry_update. rewrite Hfree. repeat split.
Qed.

(** The aggregate of three packets of 100, 200 and 50 bytes on a tuple
    with a nonzero source address, in a table that was empty. *)
Lemma three_updates_entry n t p1 p2 p3 t1 t2 t3 :
  0 < n < 2^32 -> t.(src_ip) <> 0 ->
  let ft := flow_table_updates (empty_table n)
              [mkUpdate t 100 p1 t1; mkUpdate t 200 p2 t2; mkUpdate t 50 p3 t3] in
  let f := (entry_at ft (slot_index ft t)).(flow) in
  f.(tuple) = t /\ f.(packets) = 3 /\ f.(bytes) = 350 /\
  f.(first_packet_id) = p1 /\ f.(last_packet_id) = p3 /\
  f.(first_seen_ns) = t1 /\ f.(last_seen_ns) = t3.
Proof.
  intros Hn Hsrc ft f. subst f ft.
  apply Z.eqb_neq in Hsrc.
  assert (Hwf0 : ft_wf (empty_table n))
    by (split; cbn [empty_table entries ft_size];
        [exact Hn | apply length_replicate]).
  unfold flow_table_updates. cbn [fold_left].
  set (ft1 := flow_table_update_call (empty_table n) (mkUpdate t 100 p1 t1)).
  set (ft2 := flow_table_update_call ft1 (mkUpdate t 200 p2 t2)).
  assert (Hwf1 : ft_wf ft1) by now apply update_call_wf.
  assert (Hwf2 : ft_wf ft2) by now apply update_call_wf.
  (* the slot after each of the three calls *)
  pose proof (update_call_at (empty_table n) (mkUpdate t 100 p1 t1) Hwf0) as H1.
  pose proof (update_call_at ft1 (mkUpdate t 200 p2 t2) Hwf1) as H2.
  pose proof (update_call_at ft2 (mkUpdate t 50 p3 t3) Hwf2) as H3.
  cbn [uc_tuple uc_len uc_id uc_ts] in H1, H2, H3.
  fold ft1 in H1. fold ft2 in H2.
  rewrite empty_table_entry in H1.
  rewrite <- (update_call_slot (empty_table n) (mkUpdate t 100 p1 t1) t) in H1.
  fold ft1 in H1.
  rewrite <- (update_call_slot ft1 (mkUpdate t 200 p2 t2) t) in H2 at 1.
  fold ft2 in H2.
  rewrite update_call_slot, H3.
  destruct (entry_update_free zero_entry t (flow_tuple_hash t) 100 p1 t1 eq_refl)
    as (A1 & A2 & A3 & A4 & A5 & A6 & A7).
  rewrite <- H1 in A1, A2, A3, A4, A5, A6, A7.
  assert (F1 : slot_free (entry_at ft1 (slot_index ft1 t)) = false)
    by (unfold slot_free; now rewrite A1).
  destruct (entry_update_taken _ t (flow_tuple_hash t) 200 p2 t2 F1)
    as (B1 & B2 & B3 & B4 & B5 & B6 & B7).
  rewrite <- H2 in B1, B2, B3, B4, B5, B6, B7.
  assert (F2 : slot_free (entry_at ft2 (slot_index ft2 t)) = false)
    by (unfold slot_free; now rewrite B1, A1).
  destruct (entry_update_taken _ t (flow_tuple_hash t) 50 p3 t3 F2)
    as (C1 & C2 & C3 & C4 & C5 & C6 & C7).
  rewrite C1, C2, C3, C4, C5, C6, C7, B1, B2, B3, B4, B6, A1, A2, A3, A4, A6.
  repeat split; reflexivity.
Qed.

(** Where the source address is not 0 the table aggregates. In a table
    that was empty, three updates of 100, 200 and 50 bytes on one tuple
    whose source address is not 0, with increasing packet ids and
    timestamps, leave a record with 3 packets, 350 bytes and
    [first_packet_id < last_packet_id]; and after any run of fewer than
    2^64 updates with non-decreasing timestamps, every record that a lookup
    of a tuple with a nonzero source address returns has [packets >= 1] and
    [first_seen_ns <= last_seen_ns]. *)
Lemma flow_table_aggregation (n : Z) (t : FlowTuple)
    (p1 p2 p3 t1 t2 t3 : Z) :
  0 < n < 2^32 -> t.(src_ip) <> 0 ->
  p1 < p2 < p3 -> t1 < t2 < t3 ->
  (exists r,
     flow_table_lookup
       (Some (flow_table_updates (empty_table n)
                [mkUpdate t 100 p1 t1; mkUpdate t 200 p2 t2;
                 mkUpdate t 50 p3 t3]))
       (Some t) (Some zero_record) = (0, Some r) /\
     r.(packets) = 3 /\ r.(bytes) = 350 /\
     r.(first_packet_id) < r.(last_packet_id)) /\
  (forall calls t' r0 r,
     ts_sorted calls = true ->
     Z.of_nat (length calls) < 2^64 ->
     t'.(src_ip) <> 0 ->
     flow_table_lookup (Some (flow_table_updates (empty_table n) calls))
       (Some t') (Some r0) = (0, Some r) ->
     1 <= r.(packets) /\ r.(first_seen_ns) <= r.(last_seen_ns)).
Proof.
  intros Hn Hsrc Hp Ht. split.
  - destruct (three_updates_entry n t p1 p2 p3 t1 t2 t3 Hn Hsrc)
      as (Htup & Hpk & Hby & Hfp & Hlp & _).
    eexists. split; [apply lookup_self; exact Htup|].
    rewrite Hpk, Hby, Hfp, Hlp. repeat split; lia.
  - intros calls t' r0 r Hsorted Hlen Hsrc' Hfound.
    apply lookup_found in Hfound as [-> Hip].
    assert (Hts : exists T, ts_from T calls = true).
    { destruct calls as [|c rest]; [now exists 0|].
      exists c.(uc_ts). simpl. rewrite Z.leb_refl. exact Hsorted. }
    destruct Hts as [T Hts].
    destruct (updates_inv calls (empty_table n) 0 T) as [T' [_ Hall]];
      try lia; auto using empty_table_inv.
    specialize (Hall (Z.to_nat (slot_index
                        (flow_table_updates (empty_table n) calls) t'))).
    fold (entry_at (flow_table_updates (empty_table n) calls)
            (slot_index (flow_table_updates (empty_table n) calls) t')) in Hall.
    unfold entry_inv, slot_free in Hall.
    rewrite Hip in Hall. apply Z.eqb_neq in Hsrc'.
    specialize (Hall Hsrc'). lia.
Qed.

Lemma flow_table_aggregation_witness :
  (exists r,
     flow_table_lookup
       (Some (flow_table_updates (empty_table 8) (three_packets web_tuple)))
       (Some web_tuple) (Some zero_record) = (0, Some r) /\
     r.(packets) = 3 /\ r.(bytes) = 350 /\
     r.(first_packet_id) < r.(last_packet_id)).
Proof.
  refine (proj1 (flow_table_aggregation 8 web_tuple 1 2 3 1000 2000 3000
                   _ _ _ _)); simpl; lia.
Defined.

(** C5, run on the code. Three packets of 100, 200 and 50 bytes, with
    packet ids 1, 2, 3 and timestamps 1000, 2000, 3000, on one tuple whose
    source address is 0.0.0.0 (a DHCP discover), in a table of 8 slots that
    was empty. [flow_table_update] tells a free slot by [src_ip == 0], so
    the slot of this flow looks free after every update: each of the three
    calls returns 0 through the "New entry" branch, which restarts the
    record and counts one more flow. The table counts 3 flows for the one
    tuple, and the record found holds 1 packet and 50 bytes, with
    [first_packet_id = 3] and [last_packet_id = 0], not 3 packets, 350
    bytes and [first_packet_id < last_packet_id]. *)
Theorem flow_table_zero_source_restarts :
  let c1 := flow_table_update (Some (empty_table 8)) (Some dhcp_tuple)
              100 1 1000 in
  let c2 := flow_table_update (fst c1) (Some dhcp_tuple) 200 2 2000 in
  let c3 := flow_table_update (fst c2) (Some dhcp_tuple) 50 3 3000 in
  let found := flow_table_lookup (fst c3) (Some dhcp_tuple)
                 (Some zero_record) in
  dhcp_tuple.(src_ip) = 0 /\
  (snd c1, snd c2, snd c3) = (0, 0, 0) /\
  fst c3 = Some (flow_table_updates (empty_table 8)
                   (three_packets dhcp_tuple)) /\
  option_map ft_count (fst c1) = Some 1 /\
  option_map ft_count (fst c2) = Some 2 /\
  option_map ft_count (fst c3) = Some 3 /\
  fst found = 0 /\
  option_map (fun r => (r.(tuple), r.(packets), r.(bytes),
                        r.(first_packet_id), r.(last_packet_id),
                        r.(first_seen_ns), r.(last_seen_ns)))
             (snd found)
  = Some (dhcp_tuple, 1, 50, 3, 0, 3000, 3000).
Proof. vm_compute. repeat split. Qed.

(** On that input the record the claimed aggregate describes does not
    exist. *)
Lemma flow_table_aggregation_zero_source :
  ~ (exists r,
       flow_table_lookup
         (Some (flow_table_updates (empty_table 8) (three_packets dhcp_tuple)))
         (Some dhcp_tuple) (Some zero_record) = (0, Some r) /\
       r.(packets) = 3 /\ r.(bytes) = 350 /\
       r.(first_packet_id) < r.(last_packet_id)).
Proof.
  intros (r & Hfound & Hpk & _).
  vm_compute in Hfound. injection Hfound as <-. discriminate Hpk.
Qed.

(** The first update of a flow takes the same branch on every tuple: it
    is the second update that tells the two apart. With a nonzero source
    address the slot is taken and the second packet is added to the
    record; with source 0.0.0.0 the slot is initialised again. *)
Lemma flow_table_second_update :
  let two t := flow_table_updates (empty_table 8)
                 [mkUpdate t 100 1 1000; mkUpdate t 200 2 2000] in
  let seen t := (entry_at (two t) (slot_index (two t) t)).(flow) in
  ((two web_tuple).(ft_count), (seen web_tuple).(packets),
   (seen web_tuple).(bytes)) = (1, 2, 300) /\
  ((two dhcp_tuple).(ft_count), (seen dhcp_tuple).(packets),
   (seen dhcp_tuple).(bytes)) = (2, 1, 200).
Proof. vm_compute. split; reflexivity. Qed.

(** A lookup of the all-zero tuple in a table that was never updated is
    answered with the zeroed slot, a record of 0 packets. *)
Lemma flow_table_lookup_empty_slot :
  flow_table_lookup (Some (empty_table 8)) (Some zero_tuple) (Some zero_record)
  = (0, Some zero_record).
Proof. vm_compute. reflexivity. Qed.


(** * Further properties of the packet capture engine *)

(** ** What [memcpy] leaves in the destination *)

Lemma memcpy_lookup_out n : forall src dst off j,
  (j < off \/ off + Nat.min n (length src) <= j)%nat ->
  memcpy dst off src n !! j = dst !! j.
Proof.
  induction n as [|n IH]; intros src dst off j Hj;
    [destruct src; reflexivity|].
  destruct src as [|b src]; [reflexivity|].
  cbn [memcpy]. cbn [length] in Hj.
  rewrite IH by lia. apply list_lookup_insert_ne. lia.
Qed.

Lemma memcpy_lookup_in n : forall src dst off i,
  (i < n)%nat -> (i < length src)%nat -> (off + i < length dst)%nat ->
  memcpy dst off src n !! (off + i)%nat = src !! i.
Proof.
  induction n as [|n IH]; intros src dst off i Hn Hs Hd; [lia|].
  destruct src as [|b src]; [cbn in Hs; lia|].
  cbn [memcpy]. cbn [length] in Hs.
  destruct i as [|i].
  - rewrite Nat.add_0_r, memcpy_lookup_out by lia.
    apply list_lookup_insert_eq. lia.
  - replace (off + S i)%nat with (S off + i)%nat by lia.
    rewrite IH by (rewrite ?length_insert; lia). reflexivity.
Qed.

(** The two-part copy of [ringbuffer_append], slot by slot: slot [j] holds
    byte [(j - o) mod s] of the packet when that is below [len], and what
    it held otherwise. *)
Lemma ring_copy_lookup (buf data : list Z) (o len s j : nat) :
  length buf = s -> (o < s)%nat -> (len <= s)%nat ->
  (len <= length data)%nat -> (j < s)%nat ->
  let buf' :=
    if (o + len <=? s)%nat then memcpy buf o data len
    else memcpy (memcpy buf o data (s - o)) 0 (drop (s - o) data)
                (len - (s - o)) in
  let i := (if (o <=? j)%nat then j - o else j + s - o)%nat in
  buf' !! j = if (i <? len)%nat then data !! i else buf !! j.
Proof.
  intros Hb Ho Hl Hd Hj. cbv zeta.
  destruct (Nat.leb_spec (o + len) s) as [Hfit|Hwrap].
  - destruct (Nat.leb_spec o j) as [Hge|Hlt].
    + destruct (Nat.ltb_spec (j - o) len) as [Hin|Hout].
      * replace j with (o + (j - o))%nat at 1 by lia.
        apply memcpy_lookup_in; lia.
      * apply memcpy_lookup_out. lia.
    + destruct (Nat.ltb_spec (j + s - o) len) as [Hin|Hout]; [lia|].
      apply memcpy_lookup_out. lia.
  - destruct (Nat.leb_spec o j) as [Hge|Hlt].
    + destruct (Nat.ltb_spec (j - o) len) as [Hin|Hout]; [|lia].
      rewrite memcpy_lookup_out by (rewrite length_drop; lia).
      replace j with (o + (j - o))%nat at 1 by lia.
      apply memcpy_lookup_in; lia.
    + destruct (Nat.ltb_spec (j + s - o) len) as [Hin|Hout].
      * change j with (0 + j)%nat at 1.
        rewrite memcpy_lookup_in
          by (rewrite ?length_drop, ?memcpy_length; lia).
        rewrite lookup_drop. f_equal. lia.
      * rewrite !memcpy_lookup_out by (rewrite ?length_drop; lia).
        reflexivity.
Qed.

(** ** Ring buffer contents *)

Lemma mod_below a s : 0 < s -> - s <= a < 0 -> a mod s = a + s.
Proof.
  intros Hs Ha. symmetry.
  apply (Z.mod_unique a s (-1) (a + s)); [left|]; lia.
Qed.

Lemma append_buffer rb data len pid :
  rb_wf rb ->
  0 <= len <= rb.(size) - (rb.(write_pos) - rb.(read_pos)) ->
  rb.(write_pos) mod rb.(size) + len < 2^32 ->
  let o := Z.to_nat (rb.(write_pos) mod rb.(size)) in
  let s := Z.to_nat rb.(size) in
  let n := Z.to_nat len in
  (fst (fst (ringbuffer_append rb data len pid))).(buffer)
  = if (o + n <=? s)%nat then memcpy rb.(buffer) o data n
    else memcpy (memcpy rb.(buffer) o data (s - o)) 0 (drop (s - o) data)
                (n - (s - o)).
Proof.
  intros Hwf Hlen Hno. cbv zeta. unfold ringbuffer_append.
  rewrite (available_exact rb Hwf).
  destruct (Z.ltb_spec (size rb - (write_pos rb - read_pos rb)) len)
    as [|_]; [lia|].
  cbn [fst buffer].
  pose proof Hwf as [Hs Hb Hr Ho Hf Hn].
  pose proof (Z.mod_pos_bound (write_pos rb) (size rb) ltac:(lia)) as Hmod.
  rewrite (u32_small (write_pos rb mod size rb)) by lia.
  rewrite (u32_small (write_pos rb mod size rb + len)) by lia.
  rewrite (u32_small (size rb - write_pos rb mod size rb)) by lia.
  destruct (Z.leb_spec (write_pos rb mod size rb + len) (size rb))
    as [Hfit|Hwrap];
    destruct (Nat.leb_spec (Z.to_nat (write_pos rb mod size rb) + Z.to_nat len)
                (Z.to_nat (size rb))) as [Hfit'|Hwrap']; try lia.
  - reflexivity.
  - rewrite u32_small by lia.
    rewrite !Z2Nat.inj_sub by lia. reflexivity.
Qed.

Lemma append_slot rb data len pid j :
  rb_wf rb ->
  0 <= len <= rb.(size) - (rb.(write_pos) - rb.(read_pos)) ->
  rb.(write_pos) mod rb.(size) + len < 2^32 ->
  (Z.to_nat len <= length data)%nat ->
  0 <= j < rb.(size) ->
  let i := (j - rb.(write_pos)) mod rb.(size) in
  (fst (fst (ringbuffer_append rb data len pid))).(buffer) !! Z.to_nat j
  = if i <? len then data !! Z.to_nat i else rb.(buffer) !! Z.to_nat j.
Proof.
  intros Hwf Hlen Hno Hd Hj. cbv zeta.
  rewrite append_buffer by assumption.
  pose proof Hwf as [Hs Hb Hr Ho Hf Hn].
  pose proof (Z.mod_pos_bound (write_pos rb) (size rb) ltac:(lia)) as Hmod.
  set (o := write_pos rb mod size rb) in *.
  assert (Hi : (j - write_pos rb) mod size rb = (j - o) mod size rb).
  { subst o. rewrite Zminus_mod_idemp_r. reflexivity. }
  rewrite Hi.
  pose proof (ring_copy_lookup (buffer rb) data (Z.to_nat o) (Z.to_nat len)
                (Z.to_nat (size rb)) (Z.to_nat j)) as H.
  cbv zeta in H. rewrite H by lia. clear H.
  destruct (Nat.leb_spec (Z.to_nat o) (Z.to_nat j)) as [Hge|Hlt].
  - rewrite (Z.mod_small (j - o)) by lia.
    destruct (Nat.ltb_spec (Z.to_nat j - Z.to_nat o) (Z.to_nat len));
      destruct (Z.ltb_spec (j - o) len); try lia; [|reflexivity].
    f_equal. lia.
  - assert (Hm : (j - o) mod size rb = j - o + size rb).
    { apply mod_below; lia. }
    rewrite Hm.
    destruct (Nat.ltb_spec (Z.to_nat j + Z.to_nat (size rb) - Z.to_nat o)
                (Z.to_nat len));
      destruct (Z.ltb_spec (j - o + size rb) len); try lia; [|reflexivity].
    f_equal. lia.
Qed.

(** X21. A packet that [ringbuffer_append] accepts can be read back.  On
    a well-formed buffer with room for [len] bytes, for a packet whose
    [len] bytes are at [data] and with [offset + len] below 2^32: the byte
    of absolute position [p] of the packet, from [write_pos] on, lies in
    slot [p mod size] (the copy wraps at the end of the region), and the
    bytes not yet read, at the positions from [read_pos] up to
    [write_pos], are not overwritten. *)
Theorem ringbuffer_append_stores (rb : RingBuffer) (data : list Z)
    (len pid : Z) :
  rb_wf rb ->
  0 <= len <= rb.(size) - (rb.(write_pos) - rb.(read_pos)) ->
  (Z.to_nat len <= length data)%nat ->
  rb.(write_pos) mod rb.(size) + len < 2^32 ->
  let rb' := fst (fst (ringbuffer_append rb data len pid)) in
  (forall p, rb.(write_pos) <= p < rb.(write_pos) + len ->
     rb'.(buffer) !! Z.to_nat (p mod rb.(size))
     = data !! Z.to_nat (p - rb.(write_pos))) /\
  (forall p, rb.(read_pos) <= p < rb.(write_pos) ->
     rb'.(buffer) !! Z.to_nat (p mod rb.(size))
     = rb.(buffer) !! Z.to_nat (p mod rb.(size))).
Proof.
  intros Hwf Hlen Hd Hno. cbv zeta.
  pose proof Hwf as [Hs Hb Hr Ho Hf Hn].
  split; intros p Hp;
    pose proof (Z.mod_pos_bound p (size rb) ltac:(lia)) as Hpm;
    rewrite append_slot by assumption;
    rewrite Zminus_mod_idemp_l.
  - rewrite (Z.mod_small (p - write_pos rb)) by lia.
    destruct (Z.ltb_spec (p - write_pos rb) len); [reflexivity|lia].
  - assert (Hm : (p - write_pos rb) mod size rb
                 = p - write_pos rb + size rb).
    { apply mod_below; lia. }
    rewrite Hm.
    destruct (Z.ltb_spec (p - write_pos rb + size rb) len); [lia|reflexivity].
Qed.

Lemma rb8_wrap_wf : rb_wf rb8_wrap.
Proof. constructor; simpl; lia. Qed.

Lemma ringbuffer_append_stores_witness :
  (fst (fst (ringbuffer_append rb8_wrap [11; 12; 13; 14] 4 0))).(buffer)
    !! Z.to_nat (9 mod rb8_wrap.(size))
  = [11; 12; 13; 14] !! Z.to_nat (9 - rb8_wrap.(write_pos)).
Proof.
  refine (proj1 (ringbuffer_append_stores rb8_wrap [11; 12; 13; 14] 4 0
                   rb8_wrap_wf _ _ _) 9 _).
  - simpl. lia.
  - simpl. lia.
  - vm_compute. reflexivity.
  - simpl. lia.
Defined.

Lemma append_frame rb data len pid :
  rb_wf rb -> 0 <= len < 2^32 ->
  let rb' := fst (fst (ringbuffer_append rb data len pid)) in
  rb_wf rb' /\ rb'.(read_pos) = rb.(read_pos) /\ rb'.(size) = rb.(size) /\
  rb.(write_pos) <= rb'.(write_pos).
Proof.
  intros Hwf Hlen. cbv zeta.
  destruct (Z.lt_ge_cases (rb.(size) - (rb.(write_pos) - rb.(read_pos))) len)
    as [Hlt|Hge].
  - rewrite (append_drop rb Hwf data len pid Hlt). cbn [fst].
    split; [exact Hwf|]. repeat split; lia.
  - destruct (append_store rb Hwf data len pid)
      as (rb' & -> & Hw & Hr & Hs & Hwf'); [lia|].
    cbn [fst]. split; [exact Hwf'|]. repeat split; [exact Hr|exact Hs|lia].
Qed.

Lemma append_all_frame pkts : forall rb pid,
  rb_wf rb -> lens_ok pkts ->
  let rb' := fst (ringbuffer_append_all rb pkts pid) in
  rb_wf rb' /\ rb'.(read_pos) = rb.(read_pos) /\ rb'.(size) = rb.(size) /\
  rb.(write_pos) <= rb'.(write_pos).
Proof.
  induction pkts as [|[data len] rest IH]; intros rb pid Hwf Hlens; cbv zeta.
  - cbn. split; [exact Hwf|]. repeat split; lia.
  - inversion Hlens as [|? ? Hlen Hrest]; subst. cbn [snd] in Hlen.
    destruct (append_frame rb data len pid Hwf Hlen) as (W & R & S & L).
    cbn [ringbuffer_append_all].
    destruct (ringbuffer_append rb data len pid) as [[rb1 off] pid1].
    cbn [fst] in W, R, S, L.
    destruct (IH rb1 pid1 W Hrest) as (W' & R' & S' & L').
    split; [exact W'|]. repeat split; [congruence|congruence|lia].
Qed.

(** X22. Nothing in the ring buffer code moves [read_pos]: after any run
    of appends on a buffer that [ringbuffer_alloc] returned, [read_pos] is
    still 0 and [write_pos] has not passed [size].  So the region is filled
    once, from slot 0 upwards: a packet of [len] > 0 bytes is accepted
    while [write_pos + len <= size], at the offset [write_pos] and with
    the packet id [write_pos + len], and dropped from then on. *)
Theorem fresh_ring_fills_once (malloc_ok mmap_ok : bool) (size_mb : Z)
    (rb : RingBuffer) (pkts : list (list Z * Z)) (pid0 : Z) :
  ringbuffer_alloc malloc_ok mmap_ok size_mb = Some rb ->
  lens_ok pkts ->
  let rb' := fst (ringbuffer_append_all rb pkts pid0) in
  rb'.(read_pos) = 0 /\ rb'.(size) = rb.(size) /\
  0 <= rb'.(write_pos) <= rb.(size) /\
  forall data len pid, 0 < len < 2^32 ->
    if rb'.(write_pos) + len <=? rb.(size) then
      exists rb'',
        ringbuffer_append rb' data len pid
        = (rb'', rb'.(write_pos), rb'.(write_pos) + len) /\
        rb''.(write_pos) = rb'.(write_pos) + len
    else ringbuffer_append rb' data len pid = (rb', UINT32_MAX, pid).
Proof.
  intros Halloc Hlens. cbv zeta.
  pose proof (ringbuffer_alloc_wf _ _ _ _ Halloc) as Hwf.
  assert (Hfresh : rb.(read_pos) = 0 /\ rb.(write_pos) = 0).
  { revert Halloc. unfold ringbuffer_alloc.
    destruct (negb malloc_ok); [discriminate|].
    destruct (negb mmap_ok || _); [discriminate|].
    intros [= <-]. split; reflexivity. }
  destruct Hfresh as [Hr0 Hw0].
  destruct (append_all_frame pkts rb pid0 Hwf Hlens) as (W & R & S & L).
  set (rb' := fst (ringbuffer_append_all rb pkts pid0)) in *.
  pose proof W as [Hs Hb Hr Ho Hf Hn].
  split; [congruence|]. split; [exact S|]. split; [lia|].
  intros data len pid Hlen.
  destruct (Z.leb_spec (write_pos rb' + len) (size rb)) as [Hfit|Hfull].
  - destruct (append_store rb' W data len pid)
      as (rb'' & Heq & Hw & _); [lia|].
    exists rb''.
    rewrite Z.mod_small in Heq by lia.
    rewrite Hw in Heq. split; [exact Heq|exact Hw].
  - apply (append_drop rb' W). lia.
Qed.

Lemma fresh_ring_fills_once_witness :
  (fst (ringbuffer_append_all
          {| buffer := replicate (Z.to_nat 1048576) 0; size := 1048576;
             write_pos := 0; read_pos := 0; encrypted := false |}
          [([1; 2; 3], 3); ([4; 5], 2)] 0)).(read_pos) = 0.
Proof.
  refine (proj1 (fresh_ring_fills_once true true 1 _
                   [([1; 2; 3], 3); ([4; 5], 2)] 0 _ _)).
  - reflexivity.
  - repeat constructor; simpl; lia.
Defined.

(** ** Flow table: one update, then a lookup *)

Lemma update_call_other ft c i :
  i <> slot_index ft c.(uc_tuple) -> 0 <= i ->
  0 < ft.(ft_size) < 2^32 ->
  entry_at (flow_table_update_call ft c) i = entry_at ft i.
Proof.
  intros Hne Hi Hs. rewrite update_call_unfold. unfold entry_at.
  cbn [entries]. rewrite list_lookup_insert_ne; [reflexivity|].
  pose proof (slot_index_bound ft c.(uc_tuple) Hs). lia.
Qed.

(** X23. The first packet of a flow can be looked up: after
    [flow_table_update] on a tuple whose slot was free, [flow_table_lookup]
    of that tuple returns 0 and a record with the tuple, its FNV-1a hash
    as flow id, the packet's id as [first_packet_id], one packet, the
    packet's bytes, both timestamps at the packet's and state ACTIVE;
    [last_packet_id] is not written by a first packet.  The count goes up
    by one and every other slot is left as it was. *)
Theorem flow_update_then_lookup (ft : FlowTable) (t : FlowTuple)
    (len pid ts : Z) (r0 : FlowRecord) :
  ft_wf ft ->
  slot_free (entry_at ft (slot_index ft t)) = true ->
  let old := (entry_at ft (slot_index ft t)).(flow) in
  exists ft' r,
    flow_table_update (Some ft) (Some t) len pid ts = (Some ft', 0) /\
    flow_table_lookup (Some ft') (Some t) (Some r0) = (0, Some r) /\
    r.(tuple) = t /\ r.(flow_id) = flow_tuple_hash t /\
    r.(first_packet_id) = pid /\ r.(last_packet_id) = old.(last_packet_id) /\
    r.(packets) = 1 /\ r.(bytes) = len /\
    r.(first_seen_ns) = ts /\ r.(last_seen_ns) = ts /\ r.(state) = 0 /\
    ft'.(ft_count) = u32 (ft.(ft_count) + 1) /\
    ft'.(ft_size) = ft.(ft_size) /\
    (forall i, 0 <= i -> i <> slot_index ft t ->
       entry_at ft' i = entry_at ft i).
Proof.
  intros Hwf Hfree. cbv zeta.
  set (c := mkUpdate t len pid ts).
  exists (flow_table_update_call ft c).
  pose proof (update_call_at ft c Hwf) as Hat. cbn [uc_tuple uc_len uc_id uc_ts c]
    in Hat.
  assert (Hrec : (entry_at (flow_table_update_call ft c)
                    (slot_index (flow_table_update_call ft c) t)).(flow)
                 = (entry_update (entry_at ft (slot_index ft t)) t
                      (flow_tuple_hash t) len pid ts).(flow)).
  { rewrite update_call_slot. now rewrite Hat. }
  eexists. split; [reflexivity|]. split.
  { apply lookup_self. rewrite Hrec. unfold entry_update. now rewrite Hfree. }
  rewrite Hrec. unfold entry_update. rewrite Hfree.
  cbn [flow tuple flow_id first_packet_id last_packet_id packets bytes
       first_seen_ns last_seen_ns state].
  repeat split.
  - rewrite update_call_unfold. cbn [ft_count uc_tuple c]. now rewrite Hfree.
  - intros i Hi Hne. apply update_call_other; [exact Hne|exact Hi|].
    exact (proj1 Hwf).
Qed.

Lemma flow_update_then_lookup_witness :
  exists ft' r,
    flow_table_update (Some (empty_table 8)) (Some web_tuple) 100 1 1000
    = (Some ft', 0) /\
    flow_table_lookup (Some ft') (Some web_tuple) (Some zero_record)
    = (0, Some r) /\
    r.(tuple) = web_tuple /\ r.(flow_id) = flow_tuple_hash web_tuple.
Proof.
  destruct (flow_update_then_lookup (empty_table 8) web_tuple 100 1 1000
              zero_record) as (ft' & r & H1 & H2 & H3 & H4 & _).
  - split; [simpl; lia|reflexivity].
  - vm_compute. reflexivity.
  - exists ft', r. repeat split; assumption.
Defined.

(** ** Flow table: any number of packets on one flow *)

Lemma u64_twice x : u64 (u64 x) = u64 x.
Proof. unfold u64. apply Z.mod_mod. lia. Qed.

Lemma u64_plus_l x y : u64 (u64 x + y) = u64 (x + y).
Proof. unfold u64. apply Z.add_mod_idemp_l. lia. Qed.

Lemma default_last_cons {A} (d x : A) (l : list A) :
  default d (last (x :: l)) = default x (last l).
Proof. rewrite last_cons. now destruct (last l). Qed.

Lemma same_tuple_updates t rest : forall ft,
  ft_wf ft ->
  slot_free (entry_at ft (slot_index ft t)) = false ->
  Forall (fun c => c.(uc_tuple) = t) rest ->
  let f := (entry_at ft (slot_index ft t)).(flow) in
  let ft' := flow_table_updates ft rest in
  let f' := (entry_at ft' (slot_index ft' t)).(flow) in
  f.(packets) = u64 f.(packets) -> f.(bytes) = u64 f.(bytes) ->
  f'.(tuple) = f.(tuple) /\
  f'.(packets) = u64 (f.(packets) + Z.of_nat (length rest)) /\
  f'.(bytes) = u64 (f.(bytes) + total_len rest) /\
  f'.(first_packet_id) = f.(first_packet_id) /\
  f'.(last_packet_id)
  = default f.(last_packet_id) (last (map uc_id rest)) /\
  f'.(first_seen_ns) = f.(first_seen_ns) /\
  f'.(last_seen_ns) = default f.(last_seen_ns) (last (map uc_ts rest)) /\
  ft'.(ft_count) = ft.(ft_count) /\ ft'.(ft_size) = ft.(ft_size).
Proof.
  induction rest as [|c rest IH]; intros ft Hwf Htaken Hall; cbv zeta;
    intros Hp Hb.
  - cbn. rewrite !Z.add_0_r. repeat split; assumption.
  - apply Forall_cons in Hall as [Hc Hall].
    change (flow_table_updates ft (c :: rest))
      with (flow_table_updates (flow_table_update_call ft c) rest).
    set (ft1 := flow_table_update_call ft c).
    assert (Hslot : slot_index ft1 t = slot_index ft t)
      by apply update_call_slot.
    pose proof (update_call_at ft c Hwf) as Hat. rewrite Hc in Hat.
    fold ft1 in Hat. rewrite <- Hslot in Hat at 1.
    destruct (entry_update_taken (entry_at ft (slot_index ft t)) t
                (flow_tuple_hash t) (uc_len c) (uc_id c) (uc_ts c) Htaken)
      as (U1 & U2 & U3 & U4 & U5 & U6 & U7).
    rewrite <- Hat in U1, U2, U3, U4, U5, U6, U7.
    assert (Htaken1 : slot_free (entry_at ft1 (slot_index ft1 t)) = false).
    { unfold slot_free in *. rewrite U1. exact Htaken. }
    specialize (IH ft1 (update_call_wf ft c Hwf) Htaken1 Hall).
    cbv zeta in IH.
    destruct IH as (I1 & I2 & I3 & I4 & I5 & I6 & I7 & I8 & I9);
      [rewrite U2; symmetry; apply u64_twice
      |rewrite U3; symmetry; apply u64_twice|].
    rewrite I1, I2, I3, I4, I5, I6, I7, I8, I9.
    rewrite U1, U2, U3, U4, U5, U6, U7, !u64_plus_l.
    cbn [map length total_len fold_right].
    rewrite !default_last_cons.
    repeat split; try (f_equal; unfold total_len; lia).
    subst ft1. rewrite update_call_unfold. cbn [ft_count].
    rewrite Hc. now rewrite Htaken.
Qed.

(** X24. Any number of packets on one flow are aggregated: after a run of
    updates on one tuple with a nonzero source address, in a table that was
    empty, the lookup of the tuple returns the record with the number of
    packets and the sum of their lengths (modulo 2^64), the id and
    timestamp of the first update, the timestamp of the last one, and as
    [last_packet_id] the id of the last update, or 0 when there was only
    one; the table counts one flow. *)
Theorem flow_aggregates_run (n : Z) (t : FlowTuple) (c0 : update_call)
    (rest : list update_call) (r0 : FlowRecord) :
  0 < n < 2^32 -> t.(src_ip) <> 0 ->
  Forall (fun c => c.(uc_tuple) = t) (c0 :: rest) ->
  0 <= c0.(uc_len) < 2^64 ->
  let ft := flow_table_updates (empty_table n) (c0 :: rest) in
  exists r,
    flow_table_lookup (Some ft) (Some t) (Some r0) = (0, Some r) /\
    r.(tuple) = t /\
    r.(packets) = u64 (1 + Z.of_nat (length rest)) /\
    r.(bytes) = u64 (total_len (c0 :: rest)) /\
    r.(first_packet_id) = c0.(uc_id) /\
    r.(last_packet_id) = default 0 (last (map uc_id rest)) /\
    r.(first_seen_ns) = c0.(uc_ts) /\
    r.(last_seen_ns) = default c0.(uc_ts) (last (map uc_ts rest)) /\
    ft.(ft_count) = 1.
Proof.
  intros Hn Hsrc Hall Hlen0. cbv zeta.
  apply Forall_cons in Hall as [Hc0 Hall].
  change (flow_table_updates (empty_table n) (c0 :: rest))
    with (flow_table_updates (flow_table_update_call (empty_table n) c0) rest).
  assert (Hwf0 : ft_wf (empty_table n))
    by (split; [exact Hn|apply length_replicate]).
  set (ft1 := flow_table_update_call (empty_table n) c0).
  assert (Hslot : slot_index ft1 t = slot_index (empty_table n) t)
    by apply update_call_slot.
  pose proof (update_call_at (empty_table n) c0 Hwf0) as Hat.
  rewrite Hc0, empty_table_entry in Hat. fold ft1 in Hat.
  rewrite <- Hslot in Hat.
  destruct (entry_update_free zero_entry t (flow_tuple_hash t) (uc_len c0)
              (uc_id c0) (uc_ts c0) eq_refl)
    as (U1 & U2 & U3 & U4 & U5 & U6 & U7).
  rewrite <- Hat in U1, U2, U3, U4, U5, U6, U7.
  assert (Htaken1 : slot_free (entry_at ft1 (slot_index ft1 t)) = false).
  { unfold slot_free. rewrite U1. now apply Z.eqb_neq. }
  assert (Hcount1 : ft_count ft1 = 1).
  { subst ft1. rewrite update_call_unfold. cbn [ft_count].
    rewrite Hc0, empty_table_entry. reflexivity. }
  destruct (same_tuple_updates t rest ft1
              (update_call_wf _ c0 Hwf0) Htaken1 Hall)
    as (I1 & I2 & I3 & I4 & I5 & I6 & I7 & I8 & I9).
  { rewrite U2. reflexivity. }
  { rewrite U3. symmetry. apply u64_small. exact Hlen0. }
  eexists. split.
  { apply lookup_self. rewrite I1. exact U1. }
  rewrite I1, I2, I3, I4, I5, I6, I7, I8.
  rewrite U1, U2, U3, U4, U5, U6, U7, Hcount1.
  cbn [map total_len fold_right]. repeat split.
Qed.

Lemma flow_aggregates_run_witness :
  exists r,
    flow_table_lookup
      (Some (flow_table_updates (empty_table 8) (three_packets web_tuple)))
      (Some web_tuple) (Some zero_record) = (0, Some r) /\
    r.(tuple) = web_tuple /\ r.(packets) = u64 (1 + 2).
Proof.
  destruct (flow_aggregates_run 8 web_tuple (mkUpdate web_tuple 100 1 1000)
              [mkUpdate web_tuple 200 2 2000; mkUpdate web_tuple 50 3 3000]
              zero_record) as (r & H1 & H2 & H3 & _).
  - lia.
  - simpl. lia.
  - repeat constructor.
  - simpl. lia.
  - exists r. repeat split; assumption.
Defined.

(** ** Flow table: two flows in one slot *)

(** X25. Collisions are not resolved.  When the slot of a tuple is taken
    by another flow (a tuple with a nonzero source address that differs in
    one of the five compared fields), [flow_table_update] returns 0 all the
    same and accounts the packet to that other flow: its record keeps its
    tuple and first packet and gains the packet, the bytes, the packet id
    and the timestamp; the count is unchanged, and the lookup of the
    updated tuple still answers 1, not found. *)
Theorem flow_collision_merges (ft : FlowTable) (t1 t2 : FlowTuple)
    (len pid ts : Z) (r0 : FlowRecord) :
  ft_wf ft ->
  slot_index ft t2 = slot_index ft t1 ->
  (entry_at ft (slot_index ft t1)).(flow).(tuple) = t1 ->
  t1.(src_ip) <> 0 ->
  (t1.(src_ip), t1.(dst_ip), t1.(src_port), t1.(dst_port), t1.(protocol))
  <> (t2.(src_ip), t2.(dst_ip), t2.(src_port), t2.(dst_port), t2.(protocol)) ->
  let old := (entry_at ft (slot_index ft t1)).(flow) in
  exists ft' r,
    flow_table_update (Some ft) (Some t2) len pid ts = (Some ft', 0) /\
    flow_table_lookup (Some ft') (Some t2) (Some r0) = (1, Some r0) /\
    flow_table_lookup (Some ft') (Some t1) (Some r0) = (0, Some r) /\
    r.(tuple) = t1 /\
    r.(packets) = u64 (old.(packets) + 1) /\
    r.(bytes) = u64 (old.(bytes) + len) /\
    r.(first_packet_id) = old.(first_packet_id) /\
    r.(last_packet_id) = pid /\
    r.(first_seen_ns) = old.(first_seen_ns) /\ r.(last_seen_ns) = ts /\
    ft'.(ft_count) = ft.(ft_count).
Proof.
  intros Hwf Hslot Htup Hsrc Hdiff. cbv zeta.
  set (c := mkUpdate t2 len pid ts).
  exists (flow_table_update_call ft c).
  assert (Htaken : slot_free (entry_at ft (slot_index ft t1)) = false).
  { unfold slot_free. rewrite Htup. now apply Z.eqb_neq. }
  pose proof (update_call_at ft c Hwf) as Hat.
  cbn [uc_tuple uc_len uc_id uc_ts c] in Hat. rewrite Hslot in Hat.
  destruct (entry_update_taken (entry_at ft (slot_index ft t1)) t2
              (flow_tuple_hash t2) len pid ts Htaken)
    as (U1 & U2 & U3 & U4 & U5 & U6 & U7).
  rewrite <- Hat in U1, U2, U3, U4, U5, U6, U7.
  eexists. split; [reflexivity|]. split; [|split].
  - unfold flow_table_lookup. rewrite update_call_slot, Hslot, U1, Htup.
    destruct ((src_ip t1 =? src_ip t2) && (dst_ip t1 =? dst_ip t2) &&
              (src_port t1 =? src_port t2) && (dst_port t1 =? dst_port t2) &&
              (protocol t1 =? protocol t2)) eqn:Hc; [|reflexivity].
    repeat (apply andb_prop in Hc as [Hc ?]).
    exfalso. apply Hdiff.
    repeat match goal with
           | H : (_ =? _) = true |- _ => apply Z.eqb_eq in H
           end.
    congruence.
  - apply lookup_self. rewrite update_call_slot, U1. exact Htup.
  - rewrite update_call_slot.
    rewrite U1, U2, U3, U4, U5, U6, U7. repeat split; try assumption.
    rewrite update_call_unfold. cbn [ft_count uc_tuple c].
    now rewrite Hslot, Htaken.
Qed.

Lemma flow_collision_merges_witness :
  exists ft' r,
    flow_table_update (Some one_slot_table) (Some tls_tuple) 60 2 2000
    = (Some ft', 0) /\
    flow_table_lookup (Some ft') (Some tls_tuple) (Some zero_record)
    = (1, Some zero_record) /\
    flow_table_lookup (Some ft') (Some web_tuple) (Some zero_record)
    = (0, Some r) /\
    r.(tuple) = web_tuple.
Proof.
  destruct (flow_collision_merges one_slot_table web_tuple tls_tuple
              60 2 2000 zero_record) as (ft' & r & H1 & H2 & H3 & H4 & _).
  - split; [simpl; lia|reflexivity].
  - vm_compute. reflexivity.
  - vm_compute. reflexivity.
  - simpl. lia.
  - simpl. discriminate.
  - exists ft', r. repeat split; assumption.
Defined.

(** ** Flow table: the count and [flow_table_get_all] *)

Lemma taken_app l k : taken (l ++ k) = taken l ++ taken k.
Proof. apply List.filter_app. Qed.

Lemma taken_length_le l : (length (taken l) <= length l)%nat.
Proof. apply List.filter_length_le. Qed.

Lemma taken_insert l : forall i x y,
  l !! i = Some x ->
  (length (taken (<[i := y]> l)) + (if slot_free x then 0 else 1)
   = length (taken l) + (if slot_free y then 0 else 1))%nat.
Proof.
  induction l as [|a l IH]; intros i x y Hx; [discriminate|].
  destruct i as [|i].
  - injection Hx as ->.
    change (<[0%nat := y]> (x :: l)) with (y :: l).
    unfold taken. cbn [List.filter]. cbv beta.
    destruct (slot_free x), (slot_free y); cbn; lia.
  - change (<[S i := y]> (a :: l)) with (a :: <[i := y]> l).
    change ((a :: l) !! S i) with (l !! i) in Hx.
    specialize (IH i x y Hx). unfold taken in *. cbn [List.filter].
    cbv beta. destruct (negb (slot_free a)); cbn [length]; lia.
Qed.

(** [ft_count] is the number of taken slots. *)
Lemma update_call_count ft c :
  ft_wf ft -> 0 < c.(uc_tuple).(src_ip) < 2^32 ->
  ft.(ft_count) = Z.of_nat (length (taken ft.(entries))) ->
  (flow_table_update_call ft c).(ft_count)
  = Z.of_nat (length (taken (flow_table_update_call ft c).(entries))).
Proof.
  intros Hwf Hsrc Hcount. pose proof Hwf as [Hs Hl].
  pose proof (slot_index_bound ft c.(uc_tuple) Hs) as Hidx.
  rewrite update_call_unfold. cbn [ft_count entries].
  set (i := Z.to_nat (slot_index ft (uc_tuple c))).
  destruct (lookup_lt_is_Some_2 (entries ft) i) as [x Hx]; [subst i; lia|].
  assert (Hat : entry_at ft (slot_index ft (uc_tuple c)) = x).
  { unfold entry_at. fold i. now rewrite Hx. }
  rewrite Hat.
  pose proof (taken_insert (entries ft) i x
                (entry_update x (uc_tuple c) (flow_tuple_hash (uc_tuple c))
                   (uc_len c) (uc_id c) (uc_ts c)) Hx) as Hins.
  pose proof (taken_length_le
                (<[i := entry_update x (uc_tuple c)
                          (flow_tuple_hash (uc_tuple c))
                          (uc_len c) (uc_id c) (uc_ts c)]> (entries ft)))
    as Hle.
  rewrite length_insert in Hle.
  destruct (slot_free x) eqn:Hfree.
  - destruct (entry_update_free x (uc_tuple c) (flow_tuple_hash (uc_tuple c))
                (uc_len c) (uc_id c) (uc_ts c) Hfree) as (U1 & _).
    assert (Hnew : slot_free (entry_update x (uc_tuple c)
                                (flow_tuple_hash (uc_tuple c))
                                (uc_len c) (uc_id c) (uc_ts c)) = false).
    { unfold slot_free. rewrite U1. apply Z.eqb_neq. lia. }
    rewrite Hnew in Hins. rewrite u32_small by lia. lia.
  - destruct (entry_update_taken x (uc_tuple c) (flow_tuple_hash (uc_tuple c))
                (uc_len c) (uc_id c) (uc_ts c) Hfree) as (U1 & _).
    assert (Hnew : slot_free (entry_update x (uc_tuple c)
                                (flow_tuple_hash (uc_tuple c))
                                (uc_len c) (uc_id c) (uc_ts c)) = false).
    { unfold slot_free in *. rewrite U1. exact Hfree. }
    rewrite Hnew in Hins. lia.
Qed.

Lemma updates_count calls : forall ft,
  ft_wf ft -> sources_nonzero calls ->
  ft.(ft_count) = Z.of_nat (length (taken ft.(entries))) ->
  let ft' := flow_table_updates ft calls in
  ft_wf ft' /\ ft'.(ft_size) = ft.(ft_size) /\
  ft'.(ft_count) = Z.of_nat (length (taken ft'.(entries))).
Proof.
  induction calls as [|c calls IH]; intros ft Hwf Hsrc Hcount; cbv zeta.
  - split; [exact Hwf|]. split; [reflexivity|exact Hcount].
  - apply Forall_cons in Hsrc as [Hc Hsrc].
    change (flow_table_updates ft (c :: calls))
      with (flow_table_updates (flow_table_update_call ft c) calls).
    destruct (IH (flow_table_update_call ft c)) as (W & S & C).
    + now apply update_call_wf.
    + exact Hsrc.
    + now apply update_call_count.
    + split; [exact W|]. split; [|exact C].
      rewrite S. apply update_call_size.
Qed.

Lemma get_all_loop_spec ft :
  ft_wf ft ->
  ft.(ft_count) = Z.of_nat (length (taken ft.(entries))) ->
  forall fuel i idx flows,
    (i + fuel = length ft.(entries))%nat ->
    idx = length (taken (take i ft.(entries))) ->
    length flows = length (taken ft.(entries)) ->
    take idx flows = map flow (taken (take i ft.(entries))) ->
    get_all_loop ft flows i idx fuel = map flow (taken ft.(entries)).
Proof.
  intros [Hs Hl] Hcount.
  induction fuel as [|fuel IH]; intros i idx flows Hi Hidx Hlen Hpre.
  - cbn [get_all_loop]. rewrite Nat.add_0_r in Hi. subst i.
    rewrite firstn_all in Hidx, Hpre.
    rewrite <- Hpre. symmetry. apply take_ge. lia.
  - cbn [get_all_loop].
    destruct (Z.ltb_spec (Z.of_nat i) (ft_size ft)) as [_|]; [|lia].
    cbn [andb].
    destruct (lookup_lt_is_Some_2 (entries ft) i) as [e He]; [lia|].
    assert (Hat : entry_at ft (Z.of_nat i) = e).
    { unfold entry_at. now rewrite Nat2Z.id, He. }
    assert (Htake : taken (take (S i) (entries ft))
                    = taken (take i (entries ft)) ++ taken [e]).
    { now rewrite (take_S_r _ _ _ He), taken_app. }
    destruct (Z.ltb_spec (Z.of_nat idx) (ft_count ft)) as [Hmore|Hdone].
    + rewrite Hat. unfold taken at 1 in Htake. cbn [taken List.filter] in Htake.
      fold (taken (take (S i) (entries ft))) in Htake.
      destruct (negb (slot_free e)).
      * apply IH; [lia| | |].
        -- rewrite Htake, length_app. cbn [length]. lia.
        -- now rewrite length_insert.
        -- rewrite Htake, map_app. cbn [map].
           rewrite (take_S_r _ idx (flow e))
             by (apply list_lookup_insert_eq; lia).
           rewrite take_insert_ge by lia. now rewrite Hpre.
      * rewrite app_nil_r in Htake. apply IH; [lia| | |].
        -- now rewrite Htake.
        -- exact Hlen.
        -- now rewrite Htake.
    + assert (Hsplit : taken (entries ft)
                       = taken (take i (entries ft))
                         ++ taken (drop i (entries ft))).
      { now rewrite <- taken_app, take_drop. }
      assert (Hrest : taken (drop i (entries ft)) = []).
      { apply length_zero_iff_nil.
        apply (f_equal (@length _)) in Hsplit.
        rewrite length_app in Hsplit. lia. }
      rewrite Hsplit, Hrest, app_nil_r, <- Hpre.
      symmetry. apply take_ge.
      rewrite Hsplit, Hrest, app_nil_r in Hlen. lia.
Qed.

(** X26. In a table filled from empty by updates on tuples with nonzero
    source addresses, [count] is the number of taken slots, and
    [flow_table_get_all] returns 0 with that count and an array holding
    the record of every taken slot exactly once, in slot order; no entry
    of the array is left unwritten.  When [malloc] fails it returns -1
    with the count already stored and a NULL array. *)
Theorem flow_table_get_all_complete (n : Z) (calls : list update_call)
    (flows0 : option (list FlowRecord)) (count0 : Z) :
  0 < n < 2^32 -> sources_nonzero calls ->
  let ft := flow_table_updates (empty_table n) calls in
  let recorded := map flow (taken ft.(entries)) in
  ft.(ft_count) = Z.of_nat (length recorded) /\
  ft.(ft_count) <= n /\
  Forall (fun r => r.(tuple).(src_ip) <> 0) recorded /\
  flow_table_get_all true (Some ft) (Some flows0) (Some count0)
  = (0, Some (Some recorded), Some ft.(ft_count)) /\
  flow_table_get_all false (Some ft) (Some flows0) (Some count0)
  = (-1, Some None, Some ft.(ft_count)).
Proof.
  intros Hn Hsrc. cbv zeta.
  assert (Hwf0 : ft_wf (empty_table n))
    by (split; [exact Hn|apply length_replicate]).
  assert (Hc0 : (empty_table n).(ft_count)
                = Z.of_nat (length (taken (empty_table n).(entries)))).
  { cbn [empty_table ft_count entries].
    induction (Z.to_nat n) as [|k IHk]; [reflexivity|exact IHk]. }
  destruct (updates_count calls (empty_table n) Hwf0 Hsrc Hc0)
    as (W & S & C).
  set (ft := flow_table_updates (empty_table n) calls) in *.
  rewrite length_map. split; [exact C|]. split.
  { pose proof (taken_length_le (entries ft)) as Hle.
    destruct W as [_ Hl]. rewrite S in Hl. cbn [empty_table ft_size] in Hl.
    lia. }
  split.
  { apply Forall_forall. intros r Hr. apply list_elem_of_fmap in Hr
      as (e & -> & He).
    apply list_elem_of_In, List.filter_In in He as [_ He].
    unfold slot_free in He. apply negb_true_iff, Z.eqb_neq in He. exact He. }
  split; [|reflexivity].
  unfold flow_table_get_all. cbn [negb].
  rewrite (get_all_loop_spec ft W C); [reflexivity| | | |].
  - destruct W as [Hs Hl]. rewrite Hl. lia.
  - reflexivity.
  - rewrite length_replicate, C. lia.
  - reflexivity.
Qed.

Lemma flow_table_get_all_complete_witness :
  (flow_table_updates (empty_table 8)
     (three_packets web_tuple ++ three_packets tls_tuple)).(ft_count) <= 8.
Proof.
  refine (proj1 (proj2 (flow_table_get_all_complete 8
                          (three_packets web_tuple ++ three_packets tls_tuple)
                          None 0 _ _))).
  - lia.
  - repeat constructor; simpl; lia.
Defined.

(** * Capture sessions *)

Import CaptureApi.

Lemma step_flow_table_empty s c :
  flow_table_empty s ->
  match c with
  | CallFlowEnable calloc_ok table_size _ =>
      calloc_ok = true /\ 0 <= table_size < 2^32
  | _ => True
  end ->
  flow_table_empty (capture_step s c).
Proof.
  intros [Hcount Htbl] Hc. unfold flow_table_empty in *.
  destruct c as [snap f| |ok n idle| |ip port iv cb|ci k|cb ctx];
    cbn [capture_step capture_start capture_stop capture_flow_enable
         capture_flow_disable capture_netflow_enable capture_set_encryption
         capture_set_error_callback fst default from_option Datatypes.id];
    try (split; [exact Hcount|exact Htbl]).
  - destruct Hc as [-> Hn].
    cbn [negb fst default from_option Datatypes.id session_set_flow
         flow_table flow_enabled st_count st_entries st_size].
    split; [reflexivity|]. split; [|reflexivity].
    destruct (Z.eqb_spec n 0); [unfold DEFAULT_FLOW_TABLE_SIZE|]; lia.
  - cbn [session_set_flow flow_table flow_enabled st_count st_entries st_size].
    split; [exact Hcount|reflexivity].
Qed.

Lemma run_flow_table_empty calls : forall s,
  flow_table_empty s -> table_sizes_ok calls -> callocs_ok calls ->
  flow_table_empty (capture_run s calls).
Proof.
  induction calls as [|c calls IH]; intros s Hs Hsz Hok; [exact Hs|].
  apply Forall_cons in Hsz as [Hsz1 Hsz].
  apply Forall_cons in Hok as [Hok1 Hok].
  change (capture_run s (c :: calls))
    with (capture_run (capture_step s c) calls).
  apply IH; [|exact Hsz|exact Hok].
  apply step_flow_table_empty; [exact Hs|].
  destruct c; try exact I. split; assumption.
Qed.

Lemma capture_init_session calloc_ok malloc_ok mmap_ok b name mb ts s :
  capture_init calloc_ok malloc_ok mmap_ok b name mb ts = Done (Some s) ->
  s.(flow_table) = mkSessionTable None 0 0 /\ s.(flow_enabled) = false /\
  s.(is_running) = false /\ s.(packet_counter) = 0 /\
  s.(stats) = zero_capture_stats /\ s.(backend) = b /\ s.(ts_source) = ts /\
  ringbuffer_alloc malloc_ok mmap_ok
    (if mb =? 0 then DEFAULT_BUFFER_SIZE_MB else mb) = Some s.(ring_buffer).
Proof.
  unfold capture_init. destruct name as [name|]; [|discriminate].
  destruct (negb calloc_ok); [discriminate|].
  destruct (ringbuffer_alloc _ _ _) as [rb|]; [|discriminate].
  intros [= <-]. cbn. repeat split.
Qed.

Lemma zero_five_spec t :
  ((0 =? t.(src_ip)) && (0 =? t.(dst_ip)) && (0 =? t.(src_port)) &&
   (0 =? t.(dst_port)) && (0 =? t.(protocol))) = zero_five t.
Proof.
  unfold zero_five.
  now rewrite (Z.eqb_sym 0 (src_ip t)), (Z.eqb_sym 0 (dst_ip t)),
    (Z.eqb_sym 0 (src_port t)), (Z.eqb_sym 0 (dst_port t)),
    (Z.eqb_sym 0 (protocol t)).
Qed.

(** X27. Through the public API no flow is ever recorded.  After any run
    of calls on a session that [capture_init] returned, in which no
    [calloc] of [capture_flow_enable] fails, [capture_flow_lookup] does
    not fault and answers -1 while flow metering is disabled and 1, not
    found, while it is enabled; only a tuple whose five compared fields
    are all 0 is answered 0, with a zeroed record.
    [capture_flow_get_all] then returns 0 flows. *)
Theorem api_records_no_flow (calloc_ok malloc_ok mmap_ok : bool)
    (b : CaptureBackend) (name : option (list Z)) (mb : Z)
    (ts : TimestampSource) (s0 : capture_session)
    (calls : list capture_call) (t : FlowTuple) (r0 : FlowRecord)
    (flows0 : option (list FlowRecord)) (count0 : Z) :
  capture_init calloc_ok malloc_ok mmap_ok b name mb ts = Done (Some s0) ->
  table_sizes_ok calls -> callocs_ok calls ->
  let s := capture_run s0 calls in
  capture_flow_lookup (Some s) (Some t) (Some r0)
  = Done (if negb s.(flow_enabled) then (-1, Some r0)
          else if zero_five t then (0, Some zero_record)
          else (1, Some r0)) /\
  capture_flow_get_all true (Some s) (Some flows0) (Some count0)
  = Done (if negb s.(flow_enabled) then (-1, Some flows0, Some count0)
          else (0, Some (Some []), Some 0)).
Proof.
  intros Hinit Hsz Hok. cbv zeta.
  destruct (capture_init_session _ _ _ _ _ _ _ _ Hinit) as (Ht & He & _).
  assert (H0 : flow_table_empty s0).
  { unfold flow_table_empty. rewrite Ht. cbn. split; [reflexivity|exact He]. }
  pose proof (run_flow_table_empty calls s0 H0 Hsz Hok) as [Hcount Htbl].
  set (s := capture_run s0 calls) in *.
  unfold capture_flow_lookup, capture_flow_get_all.
  destruct (st_entries (flow_table s)) as [es|] eqn:Hes.
  - destruct Htbl as [Hn ->].
    destruct (flow_enabled s); cbn [negb]; [|split; reflexivity].
    destruct (Z.eqb_spec (st_size (flow_table s)) 0) as [|_]; [lia|].
    split.
    + f_equal. unfold flow_table_lookup.
      change (mkFlowTable
                (replicate (Z.to_nat (st_size (flow_table s))) zero_entry)
                (st_size (flow_table s)) (st_count (flow_table s)))
        with (mkFlowTable
                (entries (empty_table (st_size (flow_table s))))
                (st_size (flow_table s)) (st_count (flow_table s))).
      unfold entry_at. cbn [entries empty_table].
      destruct (replicate _ zero_entry !! _) as [e|] eqn:He';
        [apply lookup_replicate in He' as [-> _]|];
        cbn [default from_option Datatypes.id flow tuple zero_entry
             zero_record zero_tuple src_ip dst_ip src_port dst_port protocol];
        rewrite zero_five_spec; reflexivity.
    + f_equal. unfold flow_table_get_all. cbn [negb ft_count ft_size].
      rewrite Hcount. cbn [Z.to_nat replicate].
      destruct (Z.to_nat (st_size (flow_table s))) as [|k]; [reflexivity|].
      cbn [get_all_loop ft_size ft_count].
      now rewrite andb_false_r.
  - rewrite Htbl. split; reflexivity.
Qed.

Lemma eth0_session_init :
  capture_init true true true CAPTURE_BACKEND_PCAP (Some (lit "eth0")) 1
    TS_SOURCE_PTP = Done (Some eth0_session).
Proof. reflexivity. Qed.

Lemma api_records_no_flow_witness :
  capture_flow_lookup (Some (capture_run eth0_session eth0_calls))
    (Some web_tuple) (Some zero_record)
  = Done (if negb (capture_run eth0_session eth0_calls).(flow_enabled)
          then (-1, Some zero_record)
          else if zero_five web_tuple then (0, Some zero_record)
          else (1, Some zero_record)).
Proof.
  refine (proj1 (api_records_no_flow true true true CAPTURE_BACKEND_PCAP
                   (Some (lit "eth0")) 1 TS_SOURCE_PTP eth0_session
                   eth0_calls web_tuple zero_record None 0 _ _ _)).
  - reflexivity.
  - repeat constructor; simpl; lia.
  - repeat constructor.
Defined.

Lemma megabytes_size mb :
  u32 (u32 (mb * 1024) * 1024) = (mb mod 4096) * 1048576.
Proof.
  unfold u32. rewrite Z.mul_mod_idemp_l by lia.
  replace (mb * 1024 * 1024) with (mb * 1048576) by lia.
  change (2 ^ 32) with (4096 * 1048576).
  apply Z.mul_mod_distr_r; lia.
Qed.

Lemma c_str_nonzero s : Forall (fun b => b <> 0) (c_str s).
Proof.
  induction s as [|b s IH]; cbn [c_str]; [constructor|].
  destruct (Z.eqb_spec b 0); constructor; assumption.
Qed.

Lemma c_str_before_nul l k :
  Forall (fun b => b <> 0) l -> c_str (l ++ 0 :: k) = l.
Proof.
  induction 1 as [|b l Hb _ IH]; cbn [c_str app]; [reflexivity|].
  destruct (Z.eqb_spec b 0); [contradiction|]. now rewrite IH.
Qed.

(** What [strncpy] into a zeroed array of [n + 1] bytes leaves as a C
    string: the source cut to [n] bytes. *)
Lemma strncpy_zeroed src n :
  c_str (strncpy (replicate (S n) 0) src n) = take n (c_str src) /\
  length (strncpy (replicate (S n) 0) src n) = S n.
Proof.
  unfold strncpy. rewrite resize_spec, drop_replicate.
  replace (S n - n)%nat with 1%nat by lia. split.
  - rewrite <- app_assoc.
    replace (replicate (n - length (c_str src)) 0 ++ replicate 1 0)
      with (0 :: replicate (n - length (c_str src)) 0).
    + apply c_str_before_nul, Forall_take, c_str_nonzero.
    + generalize (n - length (c_str src))%nat as k.
      induction k as [|k IH]; [reflexivity|].
      cbn [replicate app] in *. f_equal. exact IH.
  - rewrite !length_app, length_take, !length_replicate. lia.
Qed.

(** X28. [capture_init] on an interface name: it returns NULL when the
    [calloc] of the session fails; it dereferences the NULL pointer that
    [ringbuffer_alloc] returns when [malloc] or [mmap] fails or when the
    size in MB (256 for a requested 0) is a multiple of 4096, so that the
    32-bit byte size is 0; otherwise it returns a stopped session with flow
    metering off, a ring buffer of (MB mod 4096) * 2^20 bytes at positions
    0, and the interface name cut to 255 bytes in its 256-byte array.
    With a NULL name it returns NULL. *)
Theorem capture_init_outcomes (calloc_ok malloc_ok mmap_ok : bool)
    (b : CaptureBackend) (name : list Z) (mb : Z) (ts : TimestampSource) :
  let mb' := if mb =? 0 then 256 else mb in
  match capture_init calloc_ok malloc_ok mmap_ok b (Some name) mb ts with
  | Fault =>
      calloc_ok = true /\
      (malloc_ok = false \/ mmap_ok = false \/ mb' mod 4096 = 0)
  | Done None => calloc_ok = false
  | Done (Some s) =>
      calloc_ok = true /\ malloc_ok = true /\ mmap_ok = true /\
      mb' mod 4096 <> 0 /\
      s.(ring_buffer).(size) = (mb' mod 4096) * 1048576 /\
      length s.(ring_buffer).(buffer) = Z.to_nat s.(ring_buffer).(size) /\
      s.(ring_buffer).(write_pos) = 0 /\ s.(ring_buffer).(read_pos) = 0 /\
      c_str s.(interface_name) = take 255 (c_str name) /\
      length s.(interface_name) = 256%nat /\
      s.(is_running) = false /\ s.(flow_enabled) = false /\
      s.(backend) = b /\ s.(ts_source) = ts
  end /\
  capture_init calloc_ok malloc_ok mmap_ok b None mb ts = Done None.
Proof.
  cbv zeta. split; [|reflexivity].
  unfold capture_init, ringbuffer_alloc, DEFAULT_BUFFER_SIZE_MB.
  set (mb' := if mb =? 0 then 256 else mb).
  rewrite megabytes_size.
  destruct calloc_ok; cbn [negb]; [|reflexivity].
  destruct malloc_ok; cbn [negb]; [|split; [reflexivity|now left]].
  destruct mmap_ok; cbn [negb orb];
    [|split; [reflexivity|right; now left]].
  destruct (Z.eqb_spec (mb' mod 4096 * 1048576) 0) as [Hz|Hnz].
  - split; [reflexivity|]. right; right. lia.
  - cbn [ring_buffer size buffer write_pos read_pos interface_name
         is_running flow_enabled backend ts_source].
    destruct (strncpy_zeroed name 255) as [Hname Hlen].
    repeat split; try assumption; try lia.
    apply length_replicate.
Qed.

Lemma step_captures_nothing s c :
  let s' := capture_step s c in
  s'.(stats) = s.(stats) /\ s'.(ring_buffer) = s.(ring_buffer) /\
  s'.(backend) = s.(backend) /\ s'.(ts_source) = s.(ts_source) /\
  s'.(interface_name) = s.(interface_name) /\
  (s.(packet_counter) = 0 -> s'.(packet_counter) = 0).
Proof.
  destruct c as [snap f| |ok n idle| |ip port iv cb|ci k|cb ctx];
    try destruct ok; cbn; repeat split; auto.
Qed.

(** X29. The API captures nothing.  After any run of calls on a session
    that [capture_init] returned, the statistics [capture_get_stats]
    copies out are all zero, the ring buffer is as [capture_init] left it,
    with nothing written, and the packet counter is 0; [capture_poll]
    returns 0 packets for any callback, which it never calls. *)
Theorem api_captures_nothing (calloc_ok malloc_ok mmap_ok : bool)
    (b : CaptureBackend) (name : option (list Z)) (mb : Z)
    (ts : TimestampSource) (s0 : capture_session)
    (calls : list capture_call) (st0 : CaptureStats) :
  capture_init calloc_ok malloc_ok mmap_ok b name mb ts = Done (Some s0) ->
  let s := capture_run s0 calls in
  capture_get_stats (Some s) (Some st0) = (0, Some zero_capture_stats) /\
  s.(ring_buffer) = s0.(ring_buffer) /\
  s.(ring_buffer).(write_pos) = 0 /\ s.(packet_counter) = 0 /\
  s.(backend) = b /\ s.(ts_source) = ts /\
  (forall callback user_data timeout_ms,
     capture_poll (Some s) (Some callback) user_data timeout_ms = 0).
Proof.
  intros Hinit. cbv zeta.
  destruct (capture_init_session _ _ _ _ _ _ _ _ Hinit)
    as (_ & _ & _ & Hpc & Hst & Hb & Hts & Hrb).
  assert (Hw0 : s0.(ring_buffer).(write_pos) = 0).
  { revert Hrb. unfold ringbuffer_alloc.
    destruct (negb malloc_ok); [discriminate|].
    destruct (negb mmap_ok || _); [discriminate|].
    now intros [= <-]. }
  assert (Hrun : forall calls s,
            let s' := capture_run s calls in
            s'.(stats) = s.(stats) /\ s'.(ring_buffer) = s.(ring_buffer) /\
            s'.(backend) = s.(backend) /\ s'.(ts_source) = s.(ts_source) /\
            (s.(packet_counter) = 0 -> s'.(packet_counter) = 0)).
  { clear. induction calls as [|c calls IH]; intros s; cbv zeta.
    - repeat split; auto.
    - change (capture_run s (c :: calls))
        with (capture_run (capture_step s c) calls).
      destruct (step_captures_nothing s c) as (A1 & A2 & A3 & A4 & _ & A6).
      destruct (IH (capture_step s c)) as (B1 & B2 & B3 & B4 & B5).
      repeat split; try congruence. intros H0. auto. }
  destruct (Hrun calls s0) as (R1 & R2 & R3 & R4 & R5).
  unfold capture_get_stats. rewrite R1, R2, R3, R4, Hst, Hw0, Hb, Hts.
  repeat split. now apply R5.
Qed.

Lemma api_captures_nothing_witness :
  capture_get_stats (Some (capture_run eth0_session eth0_calls))
    (Some zero_capture_stats) = (0, Some zero_capture_stats).
Proof.
  refine (proj1 (api_captures_nothing true true true CAPTURE_BACKEND_PCAP
                   (Some (lit "eth0")) 1 TS_SOURCE_PTP eth0_session
                   eth0_calls zero_capture_stats _)).
  reflexivity.
Defined.

(** X30. A failed re-enable breaks the lookups.  When [calloc] fails in
    [capture_flow_enable] on a session whose flow metering is enabled, the
    call returns -1 but has already stored the NULL pointer in
    [flow_table.entries] while [flow_enabled] stays set; the next
    [capture_flow_lookup], on any tuple, dereferences that NULL table. *)
Theorem flow_enable_failure_leaves_null (s : capture_session)
    (table_size idle_timeout : Z) (t : FlowTuple) (r0 : FlowRecord) :
  s.(flow_enabled) = true ->
  exists s',
    capture_flow_enable false (Some s) table_size idle_timeout
    = (Some s', -1) /\
    s'.(flow_enabled) = true /\
    s'.(flow_table).(st_entries) = None /\
    capture_flow_lookup (Some s') (Some t) (Some r0) = Fault.
Proof.
  intros Hen. eexists. split; [reflexivity|].
  cbn [session_set_flow flow_enabled flow_table st_entries].
  split; [exact Hen|]. split; [reflexivity|].
  unfold capture_flow_lookup.
  cbn [session_set_flow flow_enabled flow_table st_entries st_size].
  rewrite Hen. cbn [negb]. now destruct (_ =? 0).
Qed.

Lemma flow_enable_failure_leaves_null_witness :
  exists s',
    capture_flow_enable false (Some (capture_run eth0_session eth0_calls))
      4096 0 = (Some s', -1) /\
    capture_flow_lookup (Some s') (Some web_tuple) (Some zero_record) = Fault.
Proof.
  destruct (flow_enable_failure_leaves_null
              (capture_run eth0_session eth0_calls) 4096 0 web_tuple
              zero_record) as (s' & H1 & _ & _ & H2).
  - reflexivity.
  - exists s'. split; assumption.
Defined.
End CaptureFacts.


(** * Properties of the DPI engine *)

Module DPIFacts.
Import DPI DPIInputs.

Lemma max_rules_pos : 0 < DPI_MAX_RULES /\ (0 < Z.to_nat DPI_MAX_RULES)%nat.
Proof. unfold DPI_MAX_RULES. lia. Qed.

(** The sizes of the rule arrays and of the alert queue stay symbolic in
    the proofs below. *)
Opaque DPI_MAX_RULES DPI_MAX_ALERTS.

(** ** The scenarios of spec section 8, run on the model *)

Example scenario_http_request :
  let e := dpi_process_call fresh_engine
             (mkPacket [] web_flow get_index_payload 32 1000 0) in
  option_map
    (fun s => (s.(sess_protocol).(pr_protocol),
               option_map (fun d => (d.(method), d.(is_request))) s.(http_data),
               s.(anomaly_count), s.(state), s.(packets_seen), s.(total_bytes)))
    (dpi_get_session (Some e) (Some web_flow))
  = Some (DPI_PROTO_HTTP, Some ("GET"%string, 1), 0, DPI_STATE_ESTABLISHED,
          1, 32) /\
  length e.(eng_sessions).(sessions) = 1%nat.
Proof. vm_compute. split; reflexivity. Qed.

Example scenario_http_other_port :
  let e := dpi_process_call fresh_engine
             (mkPacket [] alt_web_flow get_index_payload 32 1000 0) in
  option_map (fun s => (s.(anomaly_count),
                        map (fun a => (a.(anomaly_type), a.(an_severity),
                                       a.(description))) s.(anomalies)))
             (dpi_get_session (Some e) (Some alt_web_flow))
  = Some (1, [(3, 4, "HTTP on non-standard port 8888"%string)]).
Proof. vm_compute. reflexivity. Qed.

Example scenario_tls_hello :
  let e := dpi_process_call fresh_engine
             (mkPacket [] tls_flow tls_hello_payload 5 1000 0) in
  option_map
    (fun s => (s.(sess_protocol).(pr_protocol),
               option_map (fun d => (d.(version_major), d.(version_minor)))
                          s.(tls_data)))
    (dpi_get_session (Some e) (Some tls_flow))
  = Some (DPI_PROTO_HTTPS, Some (3, 3)).
Proof. vm_compute. reflexivity. Qed.

Example scenario_dns_query :
  let e := dpi_process_call fresh_engine
             (mkPacket [] dns_flow dns_query_payload 12 1000 0) in
  option_map
    (fun s => (s.(sess_protocol).(pr_protocol),
               option_map (fun d => (d.(transaction_id), d.(is_query),
                                     d.(response_code))) s.(dns_data)))
    (dpi_get_session (Some e) (Some dns_flow))
  = Some (DPI_PROTO_DNS, Some (4660, 1, 0)).
Proof. vm_compute. reflexivity. Qed.

(** ** Boundary of [dpi_process_packet] and [dpi_set_tls_mode] *)

(** C9. A call of [dpi_process_packet] with [packet_len = 0], or with a
    NULL engine, flow or data pointer, returns 0 and leaves the engine,
    hence every session and its classification, the rules, the alert queue
    and the statistics, as well as the caller's [alerts_out] cell, as they
    were. *)
Theorem dpi_process_packet_rejected (h : heap) (engine : option dpi_engine_t)
    (flow : option dpi_flow_tuple_t) (data : option (list Z))
    (len ts is_response : Z) (out : option (option (list dpi_alert_t))) :
  dpi_process_packet h engine flow data 0 ts is_response out
    = (engine, 0, out) /\
  dpi_process_packet h None flow data len ts is_response out
    = (None, 0, out) /\
  dpi_process_packet h engine None data len ts is_response out
    = (engine, 0, out) /\
  dpi_process_packet h engine flow None len ts is_response out
    = (engine, 0, out) /\
  (forall f,
     dpi_get_session
       (fst (fst (dpi_process_packet h engine flow data 0 ts is_response out)))
       f
     = dpi_get_session engine f).
Proof.
  repeat split.
  - destruct engine, flow, data; reflexivity.
  - destruct engine as [e|]; [destruct flow|]; reflexivity.
  - destruct engine as [e|]; [destruct flow, data|]; reflexivity.
  - destruct engine, flow, data; reflexivity.
Qed.

(** C10. [dpi_set_tls_mode] with a non-NULL engine and flow returns 0 and
    stores [mode] in the engine-wide [config.tls_mode]; the sessions, the
    rules, the alerts, the statistics, the two id counters and every other
    configuration field keep their values, and the result is the same for
    any two flows. *)
Theorem dpi_set_tls_mode_engine_wide (e : dpi_engine_t)
    (f1 f2 : dpi_flow_tuple_t) (mode : dpi_tls_mode_t) :
  dpi_set_tls_mode (Some e) (Some f1) mode
    = dpi_set_tls_mode (Some e) (Some f2) mode /\
  exists e',
    dpi_set_tls_mode (Some e) (Some f1) mode = (Some e', 0) /\
    e'.(config) = config_set_tls_mode e.(config) mode /\
    e'.(config).(tls_mode) = mode /\
    e'.(eng_sessions) = e.(eng_sessions) /\
    e'.(eng_rules) = e.(eng_rules) /\
    e'.(alerts) = e.(alerts) /\
    e'.(stats) = e.(stats) /\
    e'.(next_session_id) = e.(next_session_id) /\
    e'.(next_alert_id) = e.(next_alert_id).
Proof.
  split; [reflexivity|].
  eexists. split; [reflexivity|]. repeat split.
Qed.

(** ** Rule engine *)

Lemma memmove_down_0 {A} (a : list A) i : memmove_down a i 0 = a.
Proof.
  unfold memmove_down. rewrite Nat.add_0_r. simpl. apply take_drop.
Qed.

(** What [dpi_init] leaves in the rule engine. *)
Lemma dpi_init_rules h cfg e :
  dpi_init h cfg = Some e ->
  e.(eng_rules) =
    {| rules := replicate (Z.to_nat DPI_MAX_RULES) zero_rule;
       compiled_regex := replicate (Z.to_nat DPI_MAX_RULES) None;
       rule_count := 0;
       max_rules := DPI_MAX_RULES |}.
Proof.
  unfold dpi_init.
  destruct (alloc h) as [[] h1]; [|discriminate].
  destruct (alloc h1) as [[] h2]; [|discriminate].
  destruct (alloc h2) as [[] h3]; destruct (alloc h3) as [[] h4];
    try discriminate.
  destruct (alloc h4) as [[] h5]; [|discriminate].
  intros [= <-]. reflexivity.
Qed.

(** Adding a REGEX rule to an engine without rules, then removing it
    twice. *)
Lemma add_remove_no_rules regcomp_ok e r :
  e.(eng_rules).(rule_count) = 0 ->
  0 < e.(eng_rules).(max_rules) ->
  (0 < length e.(eng_rules).(rules))%nat ->
  r.(type) = DPI_RULE_REGEX ->
  snd (dpi_add_rule regcomp_ok (Some e) (Some r)) <> 0 ->
  snd (dpi_add_rule regcomp_ok (Some e) (Some r)) = 1 /\
  exists e1 e2,
    fst (dpi_add_rule regcomp_ok (Some e) (Some r)) = Some e1 /\
    e1.(eng_rules).(rule_count) = 1 /\
    dpi_remove_rule (Some e1) 1 = (Some e2, 0) /\
    e2.(eng_rules).(rule_count) = 0 /\
    dpi_remove_rule (Some e2) 1 = (Some e2, -1).
Proof.
  destruct e as [cfg ss [rs cr rc mr] al st ns na]. simpl.
  intros -> Hmax Hlen Htype.
  destruct rs as [|r0 rs]; [simpl in Hlen; lia|clear Hlen].
  unfold dpi_add_rule. simpl.
  destruct (Z.leb_spec mr 0) as [Hle|_]; [lia|].
  rewrite Htype. change (u32 (0 + 1)) with 1.
  assert (Hgo : forall cr',
    exists e2,
      dpi_remove_rule
        (Some (engine_set_rules (mkEngine cfg ss (mkRuleEngine (r0 :: rs) cr 0 mr)
                                    al st ns na)
                 (mkRuleEngine (rule_with_id r 1 :: rs) cr' 1 mr))) 1
        = (Some e2, 0) /\
      e2.(eng_rules).(rule_count) = 0 /\
      dpi_remove_rule (Some e2) 1 = (Some e2, -1)).
  { intros cr'. unfold dpi_remove_rule at 1. simpl.
    rewrite Htype. rewrite !memmove_down_0.
    eexists. split; [reflexivity|]. split; reflexivity. }
  destruct (pattern r) as [p|].
  - destruct (regcomp_ok p _); simpl; intros Hne; [|congruence].
    split; [reflexivity|].
    destruct (Hgo (<[0%nat := Some (mkRegex p (Z.lor REG_EXTENDED REG_ICASE))]> cr))
      as (e2 & H1 & H2 & H3).
    eexists _, e2. split; [reflexivity|]. split; [reflexivity|].
    split; [exact H1|]. split; assumption.
  - simpl. intros _. split; [reflexivity|].
    destruct (Hgo cr) as (e2 & H1 & H2 & H3).
    eexists _, e2. split; [reflexivity|]. split; [reflexivity|].
    split; [exact H1|]. split; assumption.
Qed.

(** C8. On the engine [dpi_init] returns, a successful [dpi_add_rule] of a
    REGEX rule returns id 1; [dpi_remove_rule] of that id then succeeds and
    brings the rule count back to what it was, 0; a second
    [dpi_remove_rule] of the id returns -1 and leaves the engine as it
    is. *)
Theorem rule_add_remove_roundtrip (regcomp_ok : string -> Z -> bool)
    (h : heap) (cfg : dpi_config_t) (e : dpi_engine_t) (r : dpi_rule_t) :
  dpi_init h cfg = Some e ->
  r.(type) = DPI_RULE_REGEX ->
  snd (dpi_add_rule regcomp_ok (Some e) (Some r)) <> 0 ->
  snd (dpi_add_rule regcomp_ok (Some e) (Some r)) = 1 /\
  exists e1 e2,
    fst (dpi_add_rule regcomp_ok (Some e) (Some r)) = Some e1 /\
    e1.(eng_rules).(rule_count) = e.(eng_rules).(rule_count) + 1 /\
    dpi_remove_rule (Some e1) 1 = (Some e2, 0) /\
    e2.(eng_rules).(rule_count) = e.(eng_rules).(rule_count) /\
    e.(eng_rules).(rule_count) = 0 /\
    dpi_remove_rule (Some e2) 1 = (Some e2, -1).
Proof.
  intros Hinit Htype Hok.
  pose proof (dpi_init_rules h cfg e Hinit) as Hrules.
  assert (Hcount : e.(eng_rules).(rule_count) = 0) by now rewrite Hrules.
  destruct (add_remove_no_rules regcomp_ok e r) as (Hid & e1 & e2 & H1 & H2 & H3 & H4 & H5);
    auto.
  - rewrite Hrules. apply max_rules_pos.
  - rewrite Hrules. cbn [rules]. rewrite length_replicate. apply max_rules_pos.
  - split; [exact Hid|]. exists e1, e2. rewrite Hcount.
    repeat split; assumption.
Qed.

Lemma fresh_engine_init : dpi_init [] default_config = Some fresh_engine.
Proof. reflexivity. Qed.

Lemma rule_add_remove_roundtrip_witness :
  snd (dpi_add_rule regcomp_any (Some fresh_engine) (Some evil_regex_rule)) = 1.
Proof.
  refine (proj1 (rule_add_remove_roundtrip regcomp_any [] default_config
                   fresh_engine evil_regex_rule _ _ _)).
  - reflexivity.
  - reflexivity.
  - lazy. discriminate.
Defined.

(** C2, run on the code. On the fresh engine: two rules are added and get
    ids 1 and 2; rule 1 is removed; the next rule added gets id 2 again,
    while the rule that got id 2 first is still there. *)
Theorem rule_id_reused :
  let r := Some evil_content_rule in
  let a1 := dpi_add_rule regcomp_any (Some fresh_engine) r in
  let a2 := dpi_add_rule regcomp_any (fst a1) r in
  let d := dpi_remove_rule (fst a2) 1 in
  let a3 := dpi_add_rule regcomp_any (fst d) r in
  snd a1 = 1 /\ snd a2 = 2 /\ snd d = 0 /\ snd a3 = 2 /\
  option_map live_rule_ids (fst a2) = Some [1; 2] /\
  option_map live_rule_ids (fst d) = Some [2] /\
  option_map live_rule_ids (fst a3) = Some [2; 2].
Proof. vm_compute. repeat split. Qed.

(** The id a successful [dpi_add_rule] returns is the rule count plus one,
    whatever ids were handed out before. *)
Lemma add_rule_id_from_count regcomp_ok e r :
  snd (dpi_add_rule regcomp_ok (Some e) (Some r)) <> 0 ->
  snd (dpi_add_rule regcomp_ok (Some e) (Some r))
  = u32 (e.(eng_rules).(rule_count) + 1).
Proof.
  unfold dpi_add_rule.
  destruct (_ <=? _); [intros H; now elim H|].
  destruct (type r), (pattern r) as [p|]; try reflexivity.
  destruct (regcomp_ok p _); [reflexivity|intros H; now elim H].
Qed.

(** ** Alert queue *)

(** Without [clear_after_read] the loop never moves [head]: as long as the
    queue is not empty it runs all its [n] iterations, leaves the queue as
    it is and writes the entry at [head] into each of the [n] slots. *)
Lemma get_alerts_loop_peek n : forall q dst cnt,
  q.(head) <> q.(tail) ->
  let a := default zero_alert (q.(queue) !! Z.to_nat q.(head)) in
  let res := get_alerts_loop q 0 dst cnt n in
  fst (fst res) = q /\
  snd res = (cnt + n)%nat /\
  length (snd (fst res)) = length dst /\
  (forall i, (cnt <= i < cnt + n)%nat -> (i < length dst)%nat ->
     snd (fst res) !! i = Some a) /\
  (forall i, (i < cnt)%nat -> snd (fst res) !! i = dst !! i).
Proof.
  induction n as [|n IH]; intros q dst cnt Hne a res; subst res.
  - cbn [get_alerts_loop fst snd]. repeat split; try lia.
  - cbn [get_alerts_loop].
    destruct (Z.eqb_spec (head q) (tail q)) as [Heq|_]; [contradiction|].
    change (negb (0 =? 0)) with false. cbv iota.
    fold a.
    destruct (IH q (<[cnt := a]> dst) (S cnt) Hne) as (Hq & Hc & Hl & Hw & Hk).
    fold a in Hw.
    split; [exact Hq|]. split; [rewrite Hc; lia|].
    split; [rewrite Hl; apply length_insert|]. split.
    + intros i Hi Hlen.
      destruct (decide (i = cnt)) as [->|Hneq].
      * rewrite Hk by lia. now apply list_lookup_insert_eq.
      * apply Hw; [lia|]. now rewrite length_insert.
    + intros i Hi. rewrite Hk by lia.
      apply list_lookup_insert_ne. lia.
Qed.

Lemma mod_wrap x c : 0 < c -> - c <= x < 0 -> x mod c = x + c.
Proof.
  intros Hc Hx. symmetry. apply (Z.mod_unique_pos x c (-1) (x + c)); lia.
Qed.

Lemma alerts_held_pos q :
  queue_wf q -> q.(head) <> q.(tail) -> 1 <= alerts_held q < q.(al_capacity).
Proof.
  intros (Hc & Hh & Ht) Hne. unfold alerts_held.
  destruct (Z.lt_ge_cases (tail q) (head q)).
  - rewrite mod_wrap by lia. lia.
  - rewrite Z.mod_small by lia. lia.
Qed.

Lemma alerts_held_advance q :
  queue_wf q -> q.(head) <> q.(tail) ->
  let q' := queue_set_head q (u32 (q.(head) + 1) mod q.(al_capacity)) in
  queue_wf q' /\ alerts_held q' = alerts_held q - 1 /\
  q'.(head) = (q.(head) + 1) mod q.(al_capacity).
Proof.
  intros (Hc & Hh & Ht) Hne q'. subst q'.
  unfold queue_wf, alerts_held. cbn [queue_set_head head tail al_capacity].
  rewrite (u32_small (head q + 1)) by lia.
  pose proof (Z.mod_pos_bound (head q + 1) (al_capacity q) ltac:(lia)) as Hb.
  split; [repeat split; lia|]. split; [|reflexivity].
  destruct (Z.eq_dec (head q + 1) (al_capacity q)) as [Heq|Hneq].
  - rewrite Heq, Z.mod_same by lia. rewrite Z.sub_0_r.
    rewrite (Z.mod_small (tail q)) by lia.
    rewrite (mod_wrap (tail q - head q)) by lia. lia.
  - rewrite (Z.mod_small (head q + 1)) by lia.
    destruct (Z.lt_ge_cases (tail q) (head q)).
    + rewrite !mod_wrap by lia. lia.
    + rewrite !Z.mod_small by lia. lia.
Qed.

(** With [clear_after_read] the loop drains [min n k] entries of a queue
    holding [k], in FIFO order, and moves [head] past them. *)
Lemma get_alerts_loop_drain n : forall q dst cnt,
  queue_wf q ->
  let m := Nat.min n (Z.to_nat (alerts_held q)) in
  let res := get_alerts_loop q 1 dst cnt n in
  snd res = (cnt + m)%nat /\
  (fst (fst res)).(head) = (q.(head) + Z.of_nat m) mod q.(al_capacity) /\
  alerts_held (fst (fst res)) = alerts_held q - Z.of_nat m /\
  length (snd (fst res)) = length dst /\
  (forall j, (j < m)%nat -> (cnt + j < length dst)%nat ->
     snd (fst res) !! (cnt + j)%nat = Some (queue_nth q j)) /\
  (forall i, (i < cnt)%nat -> snd (fst res) !! i = dst !! i).
Proof.
  induction n as [|n IH]; intros q dst cnt Hwf m res; subst m res.
  - cbn [get_alerts_loop fst snd Nat.min].
    destruct Hwf as (Hc & Hh & Ht).
    rewrite Z.add_0_r, Z.mod_small by lia.
    repeat split; try lia.
  - cbn [get_alerts_loop].
    destruct (Z.eqb_spec (head q) (tail q)) as [Heq|Hne].
    + assert (Hk : alerts_held q = 0)
        by (unfold alerts_held; rewrite Heq, Z.sub_diag; apply Z.mod_0_l;
            destruct Hwf; lia).
      rewrite Hk. rewrite Nat.min_0_r. cbn [fst snd].
      destruct Hwf as (Hc & Hh & Ht).
      rewrite Z.add_0_r, Z.mod_small by lia.
      repeat split; try lia.
    + change (negb (1 =? 0)) with true. cbv iota.
      pose proof (alerts_held_pos q Hwf Hne) as Hk.
      destruct (alerts_held_advance q Hwf Hne) as (Hwf' & Hk' & Hh').
      set (q' := queue_set_head q (u32 (head q + 1) mod al_capacity q)) in *.
      set (a := default zero_alert (queue q !! Z.to_nat (head q))).
      destruct (IH q' (<[cnt := a]> dst) (S cnt) Hwf')
        as (Hc & Hhd & Hheld & Hl & Hw & Hkeep).
      set (res := get_alerts_loop q' 1 (<[cnt := a]> dst) (S cnt) n) in *.
      assert (Hm : Nat.min (S n) (Z.to_nat (alerts_held q))
                   = S (Nat.min n (Z.to_nat (alerts_held q')))) by lia.
      rewrite Hm.
      assert (Hcap : al_capacity q' = al_capacity q) by reflexivity.
      split; [rewrite Hc; lia|]. split.
      { rewrite Hhd, Hh', Hcap. rewrite Zplus_mod_idemp_l. f_equal. lia. }
      split; [rewrite Hheld, Hk'; lia|].
      split; [rewrite Hl; apply length_insert|]. split.
      * intros j Hj Hlen. destruct j as [|j].
        -- rewrite Nat.add_0_r. rewrite Hkeep by lia.
           rewrite list_lookup_insert_eq by lia. f_equal.
           unfold queue_nth, a. destruct Hwf as (Hc0 & Hh0 & Ht0).
           now rewrite Z.add_0_r, Z.mod_small by lia.
        -- replace (cnt + S j)%nat with (S cnt + j)%nat by lia.
           rewrite Hw; [|lia|rewrite length_insert; lia]. f_equal.
           unfold queue_nth. change (queue q') with (queue q).
           rewrite Hh', Hcap, Zplus_mod_idemp_l. do 4 f_equal. lia.
      * intros i Hi. rewrite Hkeep by lia.
        apply list_lookup_insert_ne. lia.
Qed.

(** The loop on a queue set up by hand, which no call of the API produces
    (nothing enqueues an alert): it holds two alerts, [alert_1] then
    [alert_2], and the caller asks for up to three without clearing. The
    loop returns 3 and writes three copies of [alert_1]; the queue is left
    as it was. *)
Example get_alerts_peek_repeats_head :
  let res := dpi_get_alerts (Some engine_two_alerts)
                            (Some (replicate 3 zero_alert)) 3 0 in
  alerts_held engine_two_alerts.(alerts) = 2 /\
  snd res = 3 /\
  snd (fst res) = Some [alert_1; alert_1; alert_1] /\
  option_map (fun e => (e.(alerts).(head), e.(alerts).(tail))) (fst (fst res))
  = Some (0, 2).
Proof. vm_compute. repeat split. Qed.

(** With [clear_after_read] the same call drains the two alerts in FIFO
    order. *)
Example get_alerts_clear_drains :
  let res := dpi_get_alerts (Some engine_two_alerts)
                            (Some (replicate 3 zero_alert)) 3 1 in
  snd res = 2 /\
  snd (fst res) = Some [alert_1; alert_2; zero_alert] /\
  option_map (fun e => (e.(alerts).(head), e.(alerts).(tail))) (fst (fst res))
  = Some (2, 2).
Proof. vm_compute. repeat split. Qed.

(** [atoi] on a status of 20 digits: [strtol] stops at [LONG_MAX], whose
    low 32 bits read -1, and the [uint16_t] field stores 65535. *)
Example dissect_http_status_saturates :
  option_map status_code
    (snd (fst (dissect_http [] (lit "HTTP/1.1 20000000000000000000 x") 31)))
  = Some 65535 /\
  option_map status_code
    (snd (fst (dissect_http [] (lit "HTTP/1.1 404 Not Found") 22)))
  = Some 404.
Proof. vm_compute. split; reflexivity. Qed.

(** ** HTTP dissector *)

(** The test of [dissect_http] for a request, on the bytes at [data], is
    the spec's test on those bytes. *)
Lemma http_method_prefix_spec data :
  http_method_prefix data = spec_http_request data.
Proof.
  unfold http_method_prefix, spec_http_request, http_methods.
  cbn [existsb].
  rewrite !(strncmp_lit _ _ data) by reflexivity.
  change (lit ("GET" ++ " ")) with (lit "GET ").
  change (lit ("POST" ++ " ")) with (lit "POST ").
  change (lit ("PUT" ++ " ")) with (lit "PUT ").
  change (lit ("DELETE" ++ " ")) with (lit "DELETE ").
  change (lit ("HEAD" ++ " ")) with (lit "HEAD ").
  change (lit ("OPTIONS" ++ " ")) with (lit "OPTIONS ").
  change (lit ("PATCH" ++ " ")) with (lit "PATCH ").
  rewrite orb_false_r, !orb_assoc. reflexivity.
Qed.

Lemma spec_http_request_intro m data :
  In m http_methods -> is_prefix (lit (m ++ " ")) data = true ->
  spec_http_request data = true.
Proof.
  intros Hin Hp. unfold spec_http_request. apply existsb_exists.
  exists m. split; assumption.
Qed.

(** No buffer begins with a request method and with "HTTP/". *)
Lemma request_not_response data :
  spec_http_request data = true -> spec_http_response data = false.
Proof.
  unfold spec_http_request, spec_http_response. intros H.
  apply existsb_exists in H as (m & Hin & Hm).
  destruct (is_prefix (lit "HTTP/") data) eqn:Hr; [exfalso|reflexivity].
  unfold http_methods in Hin. cbn [In] in Hin.
  repeat (destruct Hin as [<-|Hin];
          [pose proof (is_prefix_first_two _ _ data Hm Hr) as Hc;
           vm_compute in Hc;
           specialize (Hc ltac:(lia) ltac:(lia)); discriminate|]).
  exact Hin.
Qed.

(** On a payload of at least 7 bytes other than "OPTIONS" the spec's test
    gives the same on the payload as on the bytes at [data]. *)
Lemma spec_http_request_payload data len :
  7 <= len <= Z.of_nat (length data) ->
  take (Z.to_nat len) data <> lit "OPTIONS" ->
  spec_http_request (take (Z.to_nat len) data) = spec_http_request data.
Proof.
  intros Hlen Hopt. unfold spec_http_request, http_methods. cbn [existsb].
  rewrite !(is_prefix_take (lit ("GET" ++ " "))),
          !(is_prefix_take (lit ("POST" ++ " "))),
          !(is_prefix_take (lit ("PUT" ++ " "))),
          !(is_prefix_take (lit ("DELETE" ++ " "))),
          !(is_prefix_take (lit ("HEAD" ++ " "))),
          !(is_prefix_take (lit ("PATCH" ++ " ")))
    by (vm_compute length; lia).
  do 5 f_equal.
  destruct (Z.le_gt_cases 8 len) as [H8|H7].
  - now rewrite is_prefix_take by (vm_compute length; lia).
  - assert (len = 7) by lia. subst len.
    destruct (is_prefix (lit ("OPTIONS" ++ " ")) (take (Z.to_nat 7) data))
      eqn:Hp.
    + apply is_prefix_length in Hp. rewrite length_take in Hp.
      vm_compute length in Hp. lia.
    + destruct (is_prefix (lit ("OPTIONS" ++ " ")) data) eqn:Hd;
        [exfalso|reflexivity].
      apply Hopt.
      change (lit ("OPTIONS" ++ " ")) with (lit "OPTIONS" ++ [32]) in Hd.
      apply is_prefix_app, is_prefix_take_eq in Hd. exact Hd.
Qed.

(** The method [dissect_http] stores when the buffer begins with a method
    and a space. *)
Lemma dissect_http_method data m :
  In m http_methods -> is_prefix (lit (m ++ " ")) data = true ->
  (match strchr data 32 with
   | Some method_len =>
       if (Z.of_nat method_len <? 16)
       then string_of_bytes (c_str (take method_len data))
       else ""%string
   | None => ""%string
   end) = m.
Proof.
  intros Hin Hm.
  unfold http_methods in Hin. cbn [In] in Hin.
  repeat (destruct Hin as [<-|Hin];
    [ match type of Hm with
      | is_prefix (lit (?s ++ " ")) _ = true =>
          change (lit (s ++ " ")) with (lit s ++ [32]) in Hm;
          rewrite (strchr_after_prefix (lit s) 32
                     ltac:(vm_compute; repeat constructor; lia) data Hm);
          apply is_prefix_app, is_prefix_take_eq in Hm;
          rewrite Hm; vm_compute; reflexivity
      end |]).
  destruct Hin.
Qed.

(** C6, as the code has it. A payload of fewer than 7 bytes is classified
    neither as a request nor as a response. For a payload of at least 7
    bytes other than the 7 bytes "OPTIONS", when the allocation of the
    record succeeds: the payload is classified as an HTTP request exactly
    when it begins with one of "GET ", "POST ", "PUT ", "DELETE ",
    "HEAD ", "OPTIONS ", "PATCH ", as an HTTP response exactly when it
    begins with "HTTP/", and the record of a request carries the
    method. *)
Theorem dissect_http_prefixes (h : heap) (data : list Z) (len : Z) :
  fst (alloc h) = true ->
  0 <= len <= Z.of_nat (length data) ->
  let payload := take (Z.to_nat len) data in
  let res := dissect_http h data len in
  (len < 7 -> res = (DPI_PROTO_UNKNOWN, None, h)) /\
  (7 <= len -> payload <> lit "OPTIONS" ->
     (http_request_result res = true <-> spec_http_request payload = true) /\
     (http_response_result res = true <-> spec_http_response payload = true) /\
     (forall m, In m http_methods ->
        is_prefix (lit (m ++ " ")) payload = true ->
        exists d h',
          res = (DPI_PROTO_HTTP, Some d, h') /\
          d.(is_request) = 1 /\ d.(method) = m)).
Proof.
  intros Halloc Hlen payload res. subst res. split.
  - intros Hlt. unfold dissect_http.
    destruct (Z.ltb_spec len 7); [reflexivity|lia].
  - intros H7 Hopt.
    assert (Hreq : spec_http_request payload = spec_http_request data)
      by (apply spec_http_request_payload; [lia|exact Hopt]).
    assert (Hresp : spec_http_response payload = spec_http_response data)
      by (unfold spec_http_response, payload;
          apply is_prefix_take; vm_compute length; lia).
    rewrite Hreq, Hresp.
    unfold dissect_http.
    destruct (Z.ltb_spec len 7) as [Hlt|_]; [lia|].
    rewrite http_method_prefix_spec.
    rewrite (strncmp_lit _ _ data) by reflexivity.
    fold (spec_http_response data).
    destruct (alloc h) as [ok h'] eqn:Hal. cbn [fst] in Halloc. subst ok.
    cbn [negb].
    destruct (spec_http_request data) eqn:Ereq.
    + pose proof (request_not_response data Ereq) as Enot. rewrite Enot.
      cbn [http_request_result http_response_result is_request].
      split; [split; reflexivity|]. split; [split; discriminate|].
      intros m Hin Hm. unfold payload in Hm.
      assert (Hm' : is_prefix (lit (m ++ " ")) data = true).
        by exact (is_prefix_of_take _ _ _ Hm).
      eexists _, h'. split; [reflexivity|]. cbn [is_request method].
      split; [reflexivity|]. now apply dissect_http_method.
    + destruct (spec_http_response data) eqn:Eresp;
        cbn [http_request_result http_response_result is_request].
      * split; [split; discriminate|]. split; [split; reflexivity|].
        intros m Hin Hm. exfalso. unfold payload in Hm.
        assert (Hm' : is_prefix (lit (m ++ " ")) data = true).
          by exact (is_prefix_of_take _ _ _ Hm).
        pose proof (spec_http_request_intro m data Hin Hm'). congruence.
      * split; [split; discriminate|]. split; [split; discriminate|].
        intros m Hin Hm. exfalso. unfold payload in Hm.
        assert (Hm' : is_prefix (lit (m ++ " ")) data = true).
          by exact (is_prefix_of_take _ _ _ Hm).
        pose proof (spec_http_request_intro m data Hin Hm'). congruence.
Qed.

Lemma dissect_http_prefixes_witness :
  exists d h',
    dissect_http [] get_evil_payload 31 = (DPI_PROTO_HTTP, Some d, h') /\
    d.(is_request) = 1 /\ d.(method) = "GET"%string.
Proof.
  refine (proj2 (proj2 (proj2 (dissect_http_prefixes [] get_evil_payload 31
                                 _ _) _ _)) "GET"%string _ _).
  - reflexivity.
  - vm_compute. split; discriminate.
  - lia.
  - vm_compute. discriminate.
  - left. reflexivity.
  - vm_compute. reflexivity.
Defined.

(** C6, as stated, fails on the 6 bytes "GET /\n": they begin with "GET "
    and [dissect_http] does not classify them. *)
Lemma dissect_http_short_get :
  ~ (http_request_result (dissect_http [] short_get_payload 6) = true <->
     spec_http_request short_get_payload = true).
Proof.
  vm_compute. intros [_ H]. specialize (H eq_refl). discriminate.
Qed.

(** The payload left out above: the 7 bytes "OPTIONS" are classified as a request when the byte that follows them
    in the buffer happens to be a space. *)
Lemma dissect_http_reads_past_payload :
  let data := lit "OPTIONS and more" in
  take 7 data = lit "OPTIONS" /\
  spec_http_request (take 7 data) = false /\
  http_request_result (dissect_http [] data 7) = true.
Proof. vm_compute. repeat split. Qed.

(** ** Sessions and classification *)

Lemma classify_confidence h s f data len :
  (fst (classify h s f data len)).(sess_protocol).(confidence)
  = s.(sess_protocol).(confidence).
Proof.
  unfold classify.
  destruct (dissect_http h data len) as [[p1 d1] h1].
  destruct (negb (is_unknown p1)); [reflexivity|].
  destruct (dissect_dns h1 data len) as [[p2 d2] h2].
  destruct (negb (is_unknown p2)); [reflexivity|].
  destruct (dissect_tls h2 data len) as [[p3 d3] h3].
  destruct (negb (is_unknown p3)); [reflexivity|].
  destruct (negb (is_unknown (dissect_smtp data len))); [reflexivity|].
  destruct (negb (is_unknown (dissect_smb data len))); reflexivity.
Qed.

Lemma detect_anomalies_protocol h s data len r :
  (fst (detect_anomalies h s data len r)).(sess_protocol) = s.(sess_protocol).
Proof.
  unfold detect_anomalies.
  destruct (10 <=? anomaly_count s); [reflexivity|]. cbv zeta.
  match goal with
  | |- context [if negb (anomaly_type ?a =? 0) then _ else _] =>
      destruct (negb (anomaly_type a =? 0))
  end; [|reflexivity].
  destruct (alloc h) as [[] h']; reflexivity.
Qed.

Lemma session_packet_confidence h cfg s f data len ts r :
  (fst (session_packet h cfg s f data len ts r)).(sess_protocol).(confidence)
  = s.(sess_protocol).(confidence).
Proof.
  unfold session_packet.
  set (s1 := session_touch s ts len).
  assert (H1 : s1.(sess_protocol).(confidence) = s.(sess_protocol).(confidence))
    by reflexivity.
  destruct (is_unknown (pr_protocol (sess_protocol s1)) && (0 <? len)).
  - pose proof (classify_confidence h s1 f data len) as H2.
    destruct (classify h s1 f data len) as [s2 h2]. cbn [fst] in H2.
    assert (H3 : (match state s2 with
                  | DPI_STATE_NEW => session_set_state s2 DPI_STATE_ESTABLISHED
                  | _ => s2
                  end).(sess_protocol) = s2.(sess_protocol))
      by (destruct (state s2); reflexivity).
    destruct (negb (enable_anomaly_detection cfg =? 0)).
    + rewrite detect_anomalies_protocol, H3. congruence.
    + cbn [fst]. rewrite H3. congruence.
  - assert (H3 : (match state s1 with
                  | DPI_STATE_NEW => session_set_state s1 DPI_STATE_ESTABLISHED
                  | _ => s1
                  end).(sess_protocol) = s1.(sess_protocol))
      by (destruct (state s1); reflexivity).
    destruct (negb (enable_anomaly_detection cfg =? 0)).
    + rewrite detect_anomalies_protocol, H3. congruence.
    + cbn [fst]. rewrite H3. congruence.
Qed.

Lemma new_session_confidence h id f ts :
  (fst (new_session h id f ts)).(sess_protocol).(confidence) = 0.
Proof.
  unfold new_session.
  destruct (alloc h) as [fwd h1]. destruct (alloc h1) as [rev h2].
  reflexivity.
Qed.

(** A call of [dpi_process_packet] that passes the guard: it returns 0 and
    writes NULL through [alerts_out]; the rules, the alert queue, the alert
    id counter and the configuration are left as they were; the session
    array is the old one with one session rewritten by [session_packet],
    after a new session was appended when none matched and one could be
    created. *)
Lemma process_packet_effect h e f data len ts r out :
  len <> 0 ->
  exists e',
    dpi_process_packet h (Some e) (Some f) (Some data) len ts r out
      = (Some e', 0, match out with Some _ => Some None | None => None end) /\
    e'.(eng_rules) = e.(eng_rules) /\
    e'.(alerts) = e.(alerts) /\
    e'.(next_alert_id) = e.(next_alert_id) /\
    e'.(config) = e.(config) /\
    e'.(stats).(alerts_generated) = e.(stats).(alerts_generated) /\
    (e'.(eng_sessions).(sessions) = e.(eng_sessions).(sessions) \/
     (exists i s h',
        e.(eng_sessions).(sessions) !! i = Some s /\
        e'.(eng_sessions).(sessions)
        = <[i := fst (session_packet h' e.(config) s f data len ts r)]>
            e.(eng_sessions).(sessions)) \/
     (exists h1 h2 id,
        e'.(eng_sessions).(sessions)
        = e.(eng_sessions).(sessions) ++
          [fst (session_packet h2 e.(config)
                  (fst (new_session h1 id f ts)) f data len ts r)])).
Proof.
  intros Hlen. unfold dpi_process_packet.
  destruct (Z.eqb_spec len 0) as [|_]; [contradiction|]. cbv zeta.
  destruct (find_session (sessions (eng_sessions e)) f) as [i|] eqn:Hfind.
  - destruct (sessions (eng_sessions e) !! i) as [s|] eqn:Hs.
    + eexists. split; [reflexivity|]. cbn.
      repeat (split; [reflexivity|]).
      right. left. exists i, s, h. split; [exact Hs|reflexivity].
    + eexists. split; [reflexivity|]. cbn.
      repeat (split; [reflexivity|]). left. reflexivity.
  - destruct (count (eng_sessions e) <? capacity (eng_sessions e)).
    + destruct (alloc h) as [[] h1].
      * destruct (new_session h1 (next_session_id e) f ts) as [s h2] eqn:Hnew.
        rewrite lookup_app_r by lia. rewrite Nat.sub_diag. cbn [lookup list_lookup].
        eexists. split; [reflexivity|]. cbn.
        repeat (split; [reflexivity|]).
        right. right. exists h1, h2, (next_session_id e).
        rewrite Hnew. cbn [fst].
        replace (length (sessions (eng_sessions e)))
          with (length (sessions (eng_sessions e)) + 0)%nat by lia.
        rewrite insert_app_r. reflexivity.
      * eexists. split; [reflexivity|]. cbn.
        repeat (split; [reflexivity|]). left. reflexivity.
    + eexists. split; [reflexivity|]. cbn.
      repeat (split; [reflexivity|]). left. reflexivity.
Qed.

Lemma dpi_init_sessions h cfg e :
  dpi_init h cfg = Some e -> e.(eng_sessions).(sessions) = [].
Proof.
  unfold dpi_init.
  destruct (alloc h) as [[] h1]; [|discriminate].
  destruct (alloc h1) as [[] h2]; [|discriminate].
  destruct (alloc h2) as [[] h3]; destruct (alloc h3) as [[] h4];
    try discriminate.
  destruct (alloc h4) as [[] h5]; [|discriminate].
  intros [= <-]. reflexivity.
Qed.

Lemma process_call_confidence e p :
  confidence_unset e -> confidence_unset (dpi_process_call e p).
Proof.
  intros Hinv. unfold dpi_process_call.
  destruct (Z.eq_dec (pk_len p) 0) as [Hz|Hnz].
  - unfold dpi_process_packet. rewrite Hz. exact Hinv.
  - destruct (process_packet_effect (pk_heap p) e (pk_flow p) (pk_data p)
                (pk_len p) (pk_ts p) (pk_is_response p) None Hnz)
      as (e' & -> & _ & _ & _ & Hcfg & _ & Hss).
    cbn [fst default from_option id]. unfold confidence_unset in *.
    destruct Hss as [->|[(i & s & h' & Hs & ->)|(h1 & h2 & id & ->)]].
    + exact Hinv.
    + apply Forall_insert; [exact Hinv|].
      rewrite session_packet_confidence.
      exact (proj1 (Forall_lookup _ _) Hinv i s Hs).
    + apply Forall_app. split; [exact Hinv|].
      apply Forall_singleton.
      rewrite session_packet_confidence. apply new_session_confidence.
Qed.

Lemma process_all_confidence ps : forall e,
  confidence_unset e -> confidence_unset (dpi_process_all e ps).
Proof.
  induction ps as [|p ps IH]; intros e Hinv; [exact Hinv|].
  apply IH. now apply process_call_confidence.
Qed.

Lemma classify_protocol_confidence e f :
  confidence_unset e ->
  (dpi_classify_protocol (Some e) (Some f)).(confidence) = 0.
Proof.
  intros Hinv. unfold dpi_classify_protocol, dpi_get_session.
  destruct (find_session (sessions (eng_sessions e)) f) as [i|];
    [|reflexivity].
  destruct (sessions (eng_sessions e) !! i) as [s|] eqn:Hs; [|reflexivity].
  exact (proj1 (Forall_lookup _ _) Hinv i s Hs).
Qed.

(** No statement of the engine writes [protocol.confidence]: after any run
    of [dpi_process_packet] calls on an engine that [dpi_init] returned
    with room for at least one session, every session carries the
    confidence 0 that [calloc] left, and [dpi_classify_protocol] reports
    confidence 0 for every flow, whether a payload dissector or the port
    table classified the session. *)
Lemma confidence_never_written (h : heap) (cfg : dpi_config_t)
    (e : dpi_engine_t) (ps : list packet_call) :
  dpi_init h cfg = Some e ->
  0 < cfg.(max_concurrent_sessions) ->
  confidence_unset (dpi_process_all e ps) /\
  forall f,
    (dpi_classify_protocol (Some (dpi_process_all e ps)) (Some f)).(confidence)
    = 0.
Proof.
  intros Hinit _.
  assert (Hinv : confidence_unset (dpi_process_all e ps)).
  { apply process_all_confidence. unfold confidence_unset.
    rewrite (dpi_init_sessions h cfg e Hinit). constructor. }
  split; [exact Hinv|]. intros f. now apply classify_protocol_confidence.
Qed.

Lemma confidence_never_written_witness :
  (dpi_classify_protocol
     (Some (dpi_process_all fresh_engine
              [mkPacket [] web_flow get_evil_payload 31 1000 0;
               mkPacket [] ssh_flow tiny_payload 2 2000 0]))
     (Some web_flow)).(confidence) = 0.
Proof.
  refine (proj2 (confidence_never_written [] default_config fresh_engine _ _ _)
            web_flow); reflexivity.
Defined.

(** C7, run on the code. The engine is the one [dpi_init] returns for 1024
    sessions. The first packet of a session, a GET request to port 80, is
    classified HTTP by [dissect_http]; the first packet of another session,
    two bytes to port 22, is declined by the five dissectors and classified
    SSH by [classify_by_port]. For both sessions the classification block
    stores [protocol.protocol] and [protocol.detection_tick] and leaves
    [protocol.confidence] alone: [dpi_classify_protocol] returns confidence
    0 for the session a dissector classified, not 100, and confidence 0 for
    the session the port table classified, not 50. *)
Theorem confidence_stored_on_run :
  let c1 := dpi_process_packet [] (Some fresh_engine) (Some web_flow)
              (Some get_evil_payload) 31 1000 0 None in
  let c2 := dpi_process_packet [] (fst (fst c1)) (Some ssh_flow)
              (Some tiny_payload) 2 2000 0 None in
  let e2 := fst (fst c2) in
  dpi_init [] default_config = Some fresh_engine /\
  fst (fst (dissect_http [] get_evil_payload 31)) = DPI_PROTO_HTTP /\
  dpi_classify_protocol e2 (Some web_flow)
    = mkProtoResult DPI_PROTO_HTTP 0 1 "" /\
  (fst (fst (dissect_http [] tiny_payload 2)),
   fst (fst (dissect_dns [] tiny_payload 2)),
   fst (fst (dissect_tls [] tiny_payload 2)),
   dissect_smtp tiny_payload 2,
   dissect_smb tiny_payload 2)
  = (DPI_PROTO_UNKNOWN, DPI_PROTO_UNKNOWN, DPI_PROTO_UNKNOWN,
     DPI_PROTO_UNKNOWN, DPI_PROTO_UNKNOWN) /\
  classify_by_port 52344 22 = DPI_PROTO_SSH /\
  dpi_classify_protocol e2 (Some ssh_flow)
    = mkProtoResult DPI_PROTO_SSH 0 1 "".
Proof.
  cbv zeta. split; [reflexivity|]. vm_compute. repeat split.
Qed.

(** ** Rules are not evaluated *)

(** C1, run on the code. The engine holds one enabled CONTENT rule with
    pattern "evil", for every protocol and every port. A packet whose
    payload contains "evil" is processed: the rule admits the session and
    its pattern occurs in the payload, yet the call returns 0, the alert
    queue stays empty and no alert counter moves. *)
Theorem process_packet_skips_rules :
  let rule := rule_with_id evil_content_rule 1 in
  let res := dpi_process_packet [] (Some engine_with_rule) (Some web_flow)
               (Some get_evil_payload) 31 1000 0 (Some None) in
  engine_with_rule.(eng_rules).(rule_count) = 1 /\
  engine_with_rule.(eng_rules).(rules) !! 0%nat = Some rule /\
  option_map (spec_rule_admits rule)
             (dpi_get_session (fst (fst res)) (Some web_flow)) = Some true /\
  spec_content_match rule get_evil_payload = true /\
  snd (fst res) = 0 /\
  snd res = Some None /\
  option_map (fun e => (alerts_held e.(alerts), e.(alerts).(head),
                        e.(alerts).(tail), e.(next_alert_id),
                        e.(stats).(alerts_generated)))
             (fst (fst res))
  = Some (0, 0, 0, 1, 0).
Proof. vm_compute. repeat split. Qed.

(** The same holds on every input: [dpi_process_packet] returns 0 and
    leaves the alert queue and the alert counters as they were. *)
Lemma process_packet_never_alerts h engine f data len ts r out :
  let res := dpi_process_packet h engine f data len ts r out in
  snd (fst res) = 0 /\
  option_map alerts (fst (fst res)) = option_map alerts engine /\
  option_map next_alert_id (fst (fst res)) = option_map next_alert_id engine.
Proof.
  destruct engine as [e|]; [|repeat split].
  destruct f as [f|]; [|repeat split].
  destruct data as [data|]; [|repeat split].
  destruct (Z.eq_dec len 0) as [->|Hnz]; [repeat split|].
  destruct (process_packet_effect h e f data len ts r out Hnz)
    as (e' & Heq & _ & Hal & Hid & _).
  cbv zeta. rewrite Heq. cbn [fst snd option_map]. now rewrite Hal, Hid.
Qed.


(** * Further properties of the DPI engine *)

(** ** Tuples and the session search *)

Lemma flow_tuple_equal_eq a b : flow_tuple_equal a b = true <-> a = b.
Proof.
  unfold flow_tuple_equal. split.
  - intros H. repeat (apply andb_prop in H as [H ?]).
    destruct a, b; cbn in *.
    repeat match goal with E : (_ =? _) = true |- _ => apply Z.eqb_eq in E end.
    congruence.
  - intros ->. now rewrite !Z.eqb_refl.
Qed.

Lemma flow_tuple_equal_neq a b : flow_tuple_equal a b = false <-> a <> b.
Proof.
  rewrite <- flow_tuple_equal_eq. destruct (flow_tuple_equal a b); split;
    congruence.
Qed.

Lemma get_session_lookup e f :
  dpi_get_session (Some e) (Some f) = lookup_session e.(eng_sessions).(sessions) f.
Proof. reflexivity. Qed.

Lemma find_session_Some ss f : forall i,
  find_session ss f = Some i ->
  exists s, ss !! i = Some s /\ flow s = f.
Proof.
  induction ss as [|s0 ss IH]; intros i H; cbn in H; [discriminate|].
  destruct (flow_tuple_equal (flow s0) f) eqn:E.
  - injection H as <-. exists s0. split; [reflexivity|].
    now apply flow_tuple_equal_eq.
  - destruct (find_session ss f) as [i'|] eqn:F; [|discriminate].
    injection H as <-. destruct (IH i' eq_refl) as (s & Hs & Hf).
    exists s. split; assumption.
Qed.

Lemma find_session_lt ss f i :
  find_session ss f = Some i -> (i < length ss)%nat.
Proof.
  intros H. destruct (find_session_Some ss f i H) as (s & Hs & _).
  now apply lookup_lt_Some in Hs.
Qed.

Lemma find_session_None ss f :
  find_session ss f = None <-> f ∉ (flow <$> ss).
Proof.
  induction ss as [|s0 ss IH]; cbn.
  - split; [intros _; apply not_elem_of_nil|reflexivity].
  - rewrite not_elem_of_cons.
    destruct (flow_tuple_equal (flow s0) f) eqn:E.
    + apply flow_tuple_equal_eq in E. split; [discriminate|].
      intros [Hne _]. congruence.
    + apply flow_tuple_equal_neq in E.
      destruct (find_session ss f) as [i|]; cbn.
      * split; [discriminate|]. intros [_ Hn]. now apply IH in Hn.
      * split; [|reflexivity]. intros _. split; [congruence|now apply IH].
Qed.

Lemma find_session_insert ss : forall i s s' f,
  ss !! i = Some s -> flow s' = flow s ->
  find_session (<[i := s']> ss) f = find_session ss f.
Proof.
  induction ss as [|s0 ss IH]; intros [|i] s s' f Hs Hf;
    try discriminate.
  - injection Hs as ->.
    change (<[0%nat := s']> (s :: ss)) with (s' :: ss).
    cbn [find_session]. now rewrite Hf.
  - change (<[S i := s']> (s0 :: ss)) with (s0 :: <[i := s']> ss).
    cbn [find_session]. now rewrite (IH i s s' f Hs Hf).
Qed.

Lemma find_session_app_l ss l f i :
  find_session ss f = Some i -> find_session (ss ++ l) f = Some i.
Proof.
  revert i. induction ss as [|s0 ss IH]; intros i H; cbn in *; [discriminate|].
  destruct (flow_tuple_equal (flow s0) f); [exact H|].
  destruct (find_session ss f) as [i'|]; [|discriminate].
  now rewrite (IH i' eq_refl).
Qed.

Lemma find_session_app_new ss s f :
  find_session ss f = None ->
  find_session (ss ++ [s]) f
  = if flow_tuple_equal (flow s) f then Some (length ss) else None.
Proof.
  induction ss as [|s0 ss IH]; intros H; cbn in *.
  - destruct (flow_tuple_equal (flow s) f); reflexivity.
  - destruct (flow_tuple_equal (flow s0) f); [discriminate|].
    destruct (find_session ss f); [discriminate|].
    rewrite (IH eq_refl). destruct (flow_tuple_equal (flow s) f); reflexivity.
Qed.

Lemma lookup_session_flow ss f s :
  lookup_session ss f = Some s -> flow s = f.
Proof.
  unfold lookup_session. destruct (find_session ss f) as [i|] eqn:F;
    [|discriminate].
  destruct (find_session_Some ss f i F) as (s0 & Hs & Hf). congruence.
Qed.

Lemma lookup_session_None ss f :
  lookup_session ss f = None <-> find_session ss f = None.
Proof.
  unfold lookup_session. destruct (find_session ss f) as [i|] eqn:F.
  - destruct (find_session_Some ss f i F) as (s0 & Hs & _). rewrite Hs.
    split; discriminate.
  - split; reflexivity.
Qed.

(** Deleting the session found for [f] leaves the search for any other
    tuple with the session it found before. *)
Lemma lookup_session_delete_other ss : forall i f f2,
  find_session ss f = Some i -> f2 <> f ->
  lookup_session (delete i ss) f2 = lookup_session ss f2.
Proof.
  unfold lookup_session.
  induction ss as [|s0 ss IH]; intros i f f2 H Hne; cbn in H; [discriminate|].
  destruct (flow_tuple_equal (flow s0) f) eqn:E.
  - injection H as <-. cbn. apply flow_tuple_equal_eq in E.
    assert (E2 : flow_tuple_equal (flow s0) f2 = false)
      by (apply flow_tuple_equal_neq; congruence).
    rewrite E2. destruct (find_session ss f2); reflexivity.
  - destruct (find_session ss f) as [i'|] eqn:F; [|discriminate].
    injection H as <-.
    change (delete (S i') (s0 :: ss)) with (s0 :: delete i' ss).
    cbn [find_session].
    destruct (flow_tuple_equal (flow s0) f2); [reflexivity|].
    specialize (IH i' f f2 F Hne).
    destruct (find_session (delete i' ss) f2), (find_session ss f2);
      cbn [option_map]; exact IH.
Qed.

Lemma find_session_delete ss : forall i f,
  NoDup (flow <$> ss) -> find_session ss f = Some i ->
  find_session (delete i ss) f = None.
Proof.
  induction ss as [|s0 ss IH]; intros i f Hnd H; cbn in H; [discriminate|].
  rewrite fmap_cons in Hnd. apply NoDup_cons in Hnd as [Hnotin Hnd].
  destruct (flow_tuple_equal (flow s0) f) eqn:E.
  - injection H as <-. cbn. apply flow_tuple_equal_eq in E. subst f.
    now apply find_session_None.
  - destruct (find_session ss f) as [i'|] eqn:F; [|discriminate].
    injection H as <-.
    change (delete (S i') (s0 :: ss)) with (s0 :: delete i' ss).
    cbn [find_session]. rewrite E. now rewrite (IH i' f Hnd F).
Qed.

(** ** What a packet does to its session *)

(** The fields the classification cascade leaves alone. *)
Lemma classify_frame h s f data len :
  let s' := fst (classify h s f data len) in
  s'.(session_id) = s.(session_id) /\ s'.(flow) = s.(flow) /\
  s'.(state) = s.(state) /\ s'.(created_ns) = s.(created_ns) /\
  s'.(last_seen_ns) = s.(last_seen_ns) /\
  s'.(packets_seen) = s.(packets_seen) /\
  s'.(total_bytes) = s.(total_bytes) /\
  s'.(anomalies) = s.(anomalies) /\ s'.(anomaly_count) = s.(anomaly_count) /\
  s'.(sess_protocol).(detection_tick) = s.(packets_seen).
Proof.
  unfold classify.
  destruct (dissect_http h data len) as [[p1 d1] h1].
  destruct (negb (is_unknown p1)); [cbn; repeat split|].
  destruct (dissect_dns h1 data len) as [[p2 d2] h2].
  destruct (negb (is_unknown p2)); [cbn; repeat split|].
  destruct (dissect_tls h2 data len) as [[p3 d3] h3].
  destruct (negb (is_unknown p3)); [cbn; repeat split|].
  destruct (negb (is_unknown (dissect_smtp data len))); [cbn; repeat split|].
  destruct (negb (is_unknown (dissect_smb data len))); cbn; repeat split.
Qed.

(** The fields [detect_anomalies] leaves alone. *)
Lemma detect_anomalies_frame h s data len r :
  let s' := fst (detect_anomalies h s data len r) in
  s'.(session_id) = s.(session_id) /\ s'.(flow) = s.(flow) /\
  s'.(state) = s.(state) /\ s'.(created_ns) = s.(created_ns) /\
  s'.(last_seen_ns) = s.(last_seen_ns) /\
  s'.(packets_seen) = s.(packets_seen) /\
  s'.(total_bytes) = s.(total_bytes) /\
  s'.(sess_protocol) = s.(sess_protocol) /\
  s'.(http_data) = s.(http_data) /\ s'.(dns_data) = s.(dns_data) /\
  s'.(tls_data) = s.(tls_data).
Proof.
  unfold detect_anomalies.
  destruct (10 <=? anomaly_count s); [repeat split|]. cbv zeta.
  match goal with
  | |- context [if negb (anomaly_type ?a =? 0) then _ else _] =>
      destruct (negb (anomaly_type a =? 0))
  end; [|repeat split].
  destruct (alloc h) as [[] h']; cbn; repeat split.
Qed.

Lemma established_state_frame s :
  let s' := match state s with
            | DPI_STATE_NEW => session_set_state s DPI_STATE_ESTABLISHED
            | _ => s
            end in
  s'.(session_id) = s.(session_id) /\ s'.(flow) = s.(flow) /\
  s'.(state) = established s.(state) /\ s'.(created_ns) = s.(created_ns) /\
  s'.(last_seen_ns) = s.(last_seen_ns) /\
  s'.(packets_seen) = s.(packets_seen) /\
  s'.(total_bytes) = s.(total_bytes) /\
  s'.(sess_protocol) = s.(sess_protocol) /\
  s'.(http_data) = s.(http_data) /\ s'.(dns_data) = s.(dns_data) /\
  s'.(tls_data) = s.(tls_data) /\
  s'.(anomalies) = s.(anomalies) /\ s'.(anomaly_count) = s.(anomaly_count).
Proof. destruct s as [? ? [] ? ? ? ? ? ? ? ? ? ? ? ? ? ? ? ?]; cbn; repeat split. Qed.

(** The counters and the identity of a session after a packet. *)
Lemma session_packet_frame h cfg s f data len ts r :
  let s' := fst (session_packet h cfg s f data len ts r) in
  s'.(session_id) = s.(session_id) /\ s'.(flow) = s.(flow) /\
  s'.(created_ns) = s.(created_ns) /\
  s'.(last_seen_ns) = ts /\
  s'.(packets_seen) = u32 (s.(packets_seen) + 1) /\
  s'.(total_bytes) = u64 (s.(total_bytes) + len) /\
  s'.(state) = established s.(state).
Proof.
  unfold session_packet.
  set (s1 := session_touch s ts len).
  assert (H1 : s1.(session_id) = s.(session_id) /\ s1.(flow) = s.(flow) /\
               s1.(created_ns) = s.(created_ns) /\ s1.(last_seen_ns) = ts /\
               s1.(packets_seen) = u32 (s.(packets_seen) + 1) /\
               s1.(total_bytes) = u64 (s.(total_bytes) + len) /\
               s1.(state) = s.(state)) by (repeat split).
  assert (H2 : exists s2 h2,
            (if is_unknown (pr_protocol (sess_protocol s1)) && (0 <? len)
             then classify h s1 f data len else (s1, h)) = (s2, h2) /\
            s2.(session_id) = s1.(session_id) /\ s2.(flow) = s1.(flow) /\
            s2.(created_ns) = s1.(created_ns) /\
            s2.(last_seen_ns) = s1.(last_seen_ns) /\
            s2.(packets_seen) = s1.(packets_seen) /\
            s2.(total_bytes) = s1.(total_bytes) /\
            s2.(state) = s1.(state)).
  { destruct (is_unknown (pr_protocol (sess_protocol s1)) && (0 <? len)).
    - pose proof (classify_frame h s1 f data len) as Hc. cbv zeta in Hc.
      destruct (classify h s1 f data len) as [s2 h2]. cbn [fst] in Hc.
      exists s2, h2. intuition congruence.
    - exists s1, h. repeat split. }
  destruct H2 as (s2 & h2 & -> & H2).
  pose proof (established_state_frame s2) as H3. cbv zeta in H3.
  set (s3 := match state s2 with
             | DPI_STATE_NEW => session_set_state s2 DPI_STATE_ESTABLISHED
             | _ => s2
             end) in *.
  destruct (negb (enable_anomaly_detection cfg =? 0)).
  - pose proof (detect_anomalies_frame h2 s3 data len r) as H4.
    cbv zeta in H4.
    destruct (detect_anomalies h2 s3 data len r) as [s4 h4]. cbn [fst] in *.
    intuition congruence.
  - cbn [fst]. intuition congruence.
Qed.

(** A session whose protocol is known keeps its classification and its
    parsed records. *)
Lemma session_packet_classified h cfg s f data len ts r :
  is_unknown s.(sess_protocol).(pr_protocol) = false ->
  let s' := fst (session_packet h cfg s f data len ts r) in
  s'.(sess_protocol) = s.(sess_protocol) /\
  s'.(http_data) = s.(http_data) /\ s'.(dns_data) = s.(dns_data) /\
  s'.(tls_data) = s.(tls_data).
Proof.
  intros Hk. unfold session_packet.
  set (s1 := session_touch s ts len).
  change (pr_protocol (sess_protocol s1)) with (pr_protocol (sess_protocol s)).
  rewrite Hk. cbn [andb].
  pose proof (established_state_frame s1) as H3. cbv zeta in H3.
  set (s3 := match state s1 with
             | DPI_STATE_NEW => session_set_state s1 DPI_STATE_ESTABLISHED
             | _ => s1
             end) in *.
  assert (H1 : s1.(sess_protocol) = s.(sess_protocol) /\
               s1.(http_data) = s.(http_data) /\
               s1.(dns_data) = s.(dns_data) /\
               s1.(tls_data) = s.(tls_data)) by (repeat split).
  destruct (negb (enable_anomaly_detection cfg =? 0)).
  - pose proof (detect_anomalies_frame h s3 data len r) as H4.
    cbv zeta in H4.
    destruct (detect_anomalies h s3 data len r) as [s4 h4]. cbn [fst] in *.
    intuition congruence.
  - cbn [fst]. intuition congruence.
Qed.

Lemma is_unknown_false p : p <> DPI_PROTO_UNKNOWN -> is_unknown p = false.
Proof. destruct p; intros H; try reflexivity. now elim H. Qed.

Lemma is_unknown_true p : is_unknown p = true -> p = DPI_PROTO_UNKNOWN.
Proof. destruct p; intros H; try discriminate. reflexivity. Qed.

(** The parsed records the cascade stores go with the protocol it sets. *)
Lemma classify_data_wf h s f data len :
  s.(http_data) = None -> s.(dns_data) = None -> s.(tls_data) = None ->
  let s' := fst (classify h s f data len) in
  (s'.(http_data) <> None -> s'.(sess_protocol).(pr_protocol) = DPI_PROTO_HTTP) /\
  (s'.(dns_data) <> None -> s'.(sess_protocol).(pr_protocol) = DPI_PROTO_DNS) /\
  (s'.(tls_data) <> None -> s'.(sess_protocol).(pr_protocol) = DPI_PROTO_HTTPS).
Proof.
  intros Hh Hd Ht. unfold classify.
  destruct (dissect_http h data len) as [[p1 d1] h1].
  destruct (negb (is_unknown p1)).
  { cbn. rewrite Hd, Ht. repeat split; congruence. }
  destruct (dissect_dns h1 data len) as [[p2 d2] h2].
  destruct (negb (is_unknown p2)).
  { cbn. rewrite Hh, Ht. repeat split; congruence. }
  destruct (dissect_tls h2 data len) as [[p3 d3] h3].
  destruct (negb (is_unknown p3)).
  { cbn. rewrite Hh, Hd. repeat split; congruence. }
  destruct (negb (is_unknown (dissect_smtp data len))).
  { cbn. rewrite Hh, Hd, Ht. repeat split; congruence. }
  destruct (negb (is_unknown (dissect_smb data len)));
    cbn; rewrite Hh, Hd, Ht; repeat split; congruence.
Qed.

(** [detect_anomalies] adds at most one anomaly and never counts more than
    10. *)
Lemma detect_anomalies_count h s data len r :
  0 <= s.(anomaly_count) <= 10 ->
  (length s.(anomalies) <= Z.to_nat s.(anomaly_count))%nat ->
  let s' := fst (detect_anomalies h s data len r) in
  s.(anomaly_count) <= s'.(anomaly_count) <= s.(anomaly_count) + 1 /\
  s'.(anomaly_count) <= 10 /\
  (length s'.(anomalies) <= Z.to_nat s'.(anomaly_count))%nat.
Proof.
  intros Hc Hl. unfold detect_anomalies.
  destruct (Z.leb_spec 10 (anomaly_count s)); [cbn; lia|]. cbv zeta.
  match goal with
  | |- context [if negb (anomaly_type ?a =? 0) then _ else _] =>
      destruct (negb (anomaly_type a =? 0))
  end; [|cbn; lia].
  destruct (alloc h) as [[] h']; cbn [fst session_set_anomalies anomaly_count
                                      anomalies].
  - rewrite u32_small by lia. rewrite length_app, length_resize. cbn. lia.
  - cbn. lia.
Qed.

Lemma session_packet_data_wf h cfg s f data len ts r :
  session_data_wf s ->
  session_data_wf (fst (session_packet h cfg s f data len ts r)).
Proof.
  intros (Wh & Wd & Wt & Wc & Wl). unfold session_packet.
  set (s1 := session_touch s ts len).
  assert (W2 : exists s2 h2,
            (if is_unknown (pr_protocol (sess_protocol s1)) && (0 <? len)
             then classify h s1 f data len else (s1, h)) = (s2, h2) /\
            (s2.(http_data) <> None ->
             s2.(sess_protocol).(pr_protocol) = DPI_PROTO_HTTP) /\
            (s2.(dns_data) <> None ->
             s2.(sess_protocol).(pr_protocol) = DPI_PROTO_DNS) /\
            (s2.(tls_data) <> None ->
             s2.(sess_protocol).(pr_protocol) = DPI_PROTO_HTTPS) /\
            s2.(anomalies) = s.(anomalies) /\
            s2.(anomaly_count) = s.(anomaly_count)).
  { destruct (is_unknown (pr_protocol (sess_protocol s1))) eqn:Hu; cbn [andb].
    - apply is_unknown_true in Hu.
      change (pr_protocol (sess_protocol s1))
        with (pr_protocol (sess_protocol s)) in Hu.
      assert (Nh : http_data s1 = None)
        by (change (http_data s1) with (http_data s);
            destruct (http_data s); [|reflexivity];
            assert (Some d <> None) as X by discriminate;
            specialize (Wh X); congruence).
      assert (Nd : dns_data s1 = None)
        by (change (dns_data s1) with (dns_data s);
            destruct (dns_data s); [|reflexivity];
            assert (Some d <> None) as X by discriminate;
            specialize (Wd X); congruence).
      assert (Nt : tls_data s1 = None)
        by (change (tls_data s1) with (tls_data s);
            destruct (tls_data s); [|reflexivity];
            assert (Some d <> None) as X by discriminate;
            specialize (Wt X); congruence).
      destruct (0 <? len).
      + pose proof (classify_data_wf h s1 f data len Nh Nd Nt) as Hc.
        pose proof (classify_frame h s1 f data len) as Hf.
        cbv zeta in Hc, Hf.
        destruct (classify h s1 f data len) as [s2 h2]. cbn [fst] in *.
        exists s2, h2. split; [reflexivity|].
        destruct Hf as (_ & _ & _ & _ & _ & _ & _ & Ha & Hn & _).
        change (anomalies s1) with (anomalies s) in Ha.
        change (anomaly_count s1) with (anomaly_count s) in Hn.
        intuition.
      + exists s1, h. split; [reflexivity|]. repeat split; assumption.
    - exists s1, h. split; [reflexivity|]. repeat split; assumption. }
  destruct W2 as (s2 & h2 & -> & Xh & Xd & Xt & Xa & Xc).
  pose proof (established_state_frame s2) as H3. cbv zeta in H3.
  set (s3 := match state s2 with
             | DPI_STATE_NEW => session_set_state s2 DPI_STATE_ESTABLISHED
             | _ => s2
             end) in *.
  destruct H3 as (_ & _ & _ & _ & _ & _ & _ & Ep & Eh & Ed & Et & Ea & Ec).
  assert (W3 : session_data_wf s3).
  { unfold session_data_wf. rewrite Ep, Eh, Ed, Et, Ea, Ec, Xa, Xc.
    repeat split; try assumption; lia. }
  destruct (negb (enable_anomaly_detection cfg =? 0)); [|exact W3].
  destruct W3 as (Yh & Yd & Yt & Yc & Yl).
  pose proof (detect_anomalies_frame h2 s3 data len r) as H4.
  pose proof (detect_anomalies_count h2 s3 data len r Yc Yl) as H5.
  cbv zeta in H4, H5.
  destruct (detect_anomalies h2 s3 data len r) as [s4 h4]. cbn [fst] in *.
  destruct H4 as (_ & _ & _ & _ & _ & _ & _ & Fp & Fh & Fd & Ft).
  unfold session_data_wf. rewrite Fp, Fh, Fd, Ft.
  repeat split; try assumption; lia.
Qed.

(** ** What a call does to the engine *)

(** [dpi_process_packet] on a packet that passes the guard, by the outcome
    of the search for a session. *)
Lemma process_packet_cases h e f data len ts r out :
  len <> 0 ->
  exists e',
    dpi_process_packet h (Some e) (Some f) (Some data) len ts r out
      = (Some e', 0, match out with Some _ => Some None | None => None end) /\
    e'.(eng_rules) = e.(eng_rules) /\
    e'.(alerts) = e.(alerts) /\
    e'.(next_alert_id) = e.(next_alert_id) /\
    e'.(config) = e.(config) /\
    e'.(eng_sessions).(capacity) = e.(eng_sessions).(capacity) /\
    e'.(stats) = stats_packet e.(stats) len (count e'.(eng_sessions)) /\
    match find_session e.(eng_sessions).(sessions) f with
    | Some i =>
        exists s,
          e.(eng_sessions).(sessions) !! i = Some s /\ s.(flow) = f /\
          e'.(eng_sessions).(sessions)
          = <[i := fst (session_packet h e.(config) s f data len ts r)]>
              e.(eng_sessions).(sessions) /\
          e'.(next_session_id) = e.(next_session_id)
    | None =>
        if (count e.(eng_sessions) <? e.(eng_sessions).(capacity))
           && fst (alloc h)
        then
          let created := new_session (snd (alloc h)) e.(next_session_id) f ts in
          e'.(eng_sessions).(sessions)
          = e.(eng_sessions).(sessions) ++
            [fst (session_packet (snd created) e.(config) (fst created)
                    f data len ts r)] /\
          e'.(next_session_id) = u64 (e.(next_session_id) + 1)
        else
          e'.(eng_sessions).(sessions) = e.(eng_sessions).(sessions) /\
          e'.(next_session_id) = e.(next_session_id)
    end.
Proof.
  intros Hlen. unfold dpi_process_packet.
  destruct (Z.eqb_spec len 0) as [|_]; [contradiction|]. cbv zeta.
  destruct (find_session (sessions (eng_sessions e)) f) as [i|] eqn:Hfind.
  - destruct (find_session_Some _ _ _ Hfind) as (s & Hs & Hf).
    rewrite Hs. eexists. split; [reflexivity|]. cbn.
    repeat (split; [reflexivity|]).
    exists s. repeat split; assumption.
  - destruct (count (eng_sessions e) <? capacity (eng_sessions e)).
    + destruct (alloc h) as [[] h1]; cbn [fst snd andb].
      * destruct (new_session h1 (next_session_id e) f ts) as [s h2] eqn:Hnew.
        rewrite lookup_app_r by lia. rewrite Nat.sub_diag.
        cbn [lookup list_lookup].
        eexists. split; [reflexivity|]. cbn.
        repeat (split; [reflexivity|]).
        split; [|reflexivity].
        replace (length (sessions (eng_sessions e)))
          with (length (sessions (eng_sessions e)) + 0)%nat at 1 by lia.
        rewrite insert_app_r. reflexivity.
      * eexists. split; [reflexivity|]. cbn.
        repeat (split; [reflexivity|]). split; reflexivity.
    + cbn [andb]. eexists. split; [reflexivity|]. cbn.
      repeat (split; [reflexivity|]). split; reflexivity.
Qed.

Lemma new_session_fields h id f ts :
  let s := fst (new_session h id f ts) in
  s.(session_id) = id /\ s.(flow) = f /\ s.(state) = DPI_STATE_NEW /\
  s.(sess_protocol) = zero_proto_result /\
  s.(http_data) = None /\ s.(dns_data) = None /\ s.(tls_data) = None /\
  s.(anomalies) = [] /\ s.(anomaly_count) = 0 /\
  s.(created_ns) = ts /\ s.(packets_seen) = 0 /\ s.(total_bytes) = 0.
Proof.
  unfold new_session.
  destruct (alloc h) as [fwd h1]. destruct (alloc h1) as [rev h2].
  cbn. repeat split.
Qed.

(** The calls other than [dpi_process_packet] and [dpi_terminate_session]
    leave the sessions, their id counter and the statistics alone. *)
Lemma add_rule_sessions regcomp_ok e r :
  let e' := default e (fst (dpi_add_rule regcomp_ok (Some e) (Some r))) in
  e'.(eng_sessions) = e.(eng_sessions) /\
  e'.(next_session_id) = e.(next_session_id) /\
  e'.(stats) = e.(stats) /\ e'.(alerts) = e.(alerts) /\
  e'.(next_alert_id) = e.(next_alert_id) /\ e'.(config) = e.(config).
Proof.
  unfold dpi_add_rule.
  destruct (_ <=? _); [repeat split|].
  destruct (type r), (pattern r) as [p|];
    try destruct (regcomp_ok p _); cbn; repeat split.
Qed.

Lemma remove_rule_sessions e id :
  let e' := default e (fst (dpi_remove_rule (Some e) id)) in
  e'.(eng_sessions) = e.(eng_sessions) /\
  e'.(next_session_id) = e.(next_session_id) /\
  e'.(stats) = e.(stats) /\ e'.(alerts) = e.(alerts) /\
  e'.(next_alert_id) = e.(next_alert_id) /\ e'.(config) = e.(config).
Proof.
  unfold dpi_remove_rule.
  destruct (id =? 0); [repeat split|].
  destruct (find_rule _ _ _ _); cbn; repeat split.
Qed.

Lemma get_alerts_sessions e dst max clear :
  let e' := default e (fst (fst (dpi_get_alerts (Some e) (Some dst) max clear))) in
  e'.(eng_sessions) = e.(eng_sessions) /\
  e'.(next_session_id) = e.(next_session_id) /\
  e'.(stats) = e.(stats) /\ e'.(eng_rules) = e.(eng_rules) /\
  e'.(next_alert_id) = e.(next_alert_id) /\ e'.(config) = e.(config).
Proof.
  unfold dpi_get_alerts.
  destruct (max =? 0); [repeat split|].
  destruct (get_alerts_loop _ _ _ _ _) as [[q d] c]. cbn. repeat split.
Qed.

Lemma set_tls_mode_sessions e f mode :
  let e' := default e (fst (dpi_set_tls_mode (Some e) (Some f) mode)) in
  e'.(eng_sessions) = e.(eng_sessions) /\
  e'.(next_session_id) = e.(next_session_id) /\
  e'.(stats) = e.(stats) /\ e'.(eng_rules) = e.(eng_rules) /\
  e'.(alerts) = e.(alerts) /\ e'.(next_alert_id) = e.(next_alert_id).
Proof. cbn. repeat split. Qed.

Lemma terminate_cases e f :
  let e' := default e (fst (dpi_terminate_session (Some e) (Some f))) in
  e'.(eng_rules) = e.(eng_rules) /\ e'.(alerts) = e.(alerts) /\
  e'.(stats) = e.(stats) /\ e'.(config) = e.(config) /\
  e'.(next_session_id) = e.(next_session_id) /\
  e'.(next_alert_id) = e.(next_alert_id) /\
  e'.(eng_sessions).(capacity) = e.(eng_sessions).(capacity) /\
  match find_session e.(eng_sessions).(sessions) f with
  | Some i =>
      dpi_terminate_session (Some e) (Some f) = (Some e', 0) /\
      e'.(eng_sessions).(sessions) = delete i e.(eng_sessions).(sessions)
  | None =>
      dpi_terminate_session (Some e) (Some f) = (Some e, -1) /\ e' = e
  end.
Proof.
  unfold dpi_terminate_session.
  destruct (find_session (sessions (eng_sessions e)) f) as [i|];
    cbn; repeat split.
Qed.

(** ** Invariants along a run of calls *)

Lemma process_call_unfold e p :
  dpi_process_call e p
  = default e
      (fst (fst (dpi_process_packet p.(pk_heap) (Some e) (Some p.(pk_flow))
                   (Some p.(pk_data)) p.(pk_len) p.(pk_ts)
                   p.(pk_is_response) None))).
Proof. reflexivity. Qed.

Lemma process_call_zero_len e p : pk_len p = 0 -> dpi_process_call e p = e.
Proof.
  intros Hz. rewrite process_call_unfold. unfold dpi_process_packet.
  now rewrite Hz.
Qed.

Lemma run_invariant (P : dpi_engine_t -> Prop) :
  (forall e c, P e -> P (dpi_step e c)) ->
  forall calls e, P e -> P (dpi_run e calls).
Proof.
  intros Hstep. induction calls as [|c calls IH]; intros e He; [exact He|].
  apply IH. now apply Hstep.
Qed.

Lemma step_sessions_wf e c : sessions_wf e -> sessions_wf (dpi_step e c).
Proof.
  intros [Hnd Hcap]. destruct c as [p|rc r|id|dst mx cl|f m|f];
    cbn [dpi_step].
  - destruct (Z.eq_dec (pk_len p) 0) as [Hz|Hnz];
      [now rewrite process_call_zero_len|].
    rewrite process_call_unfold.
    destruct (process_packet_cases (pk_heap p) e (pk_flow p) (pk_data p)
                (pk_len p) (pk_ts p) (pk_is_response p) None Hnz)
      as (e' & -> & _ & _ & _ & _ & Hc & _ & Hss).
    cbn [fst default from_option id]. unfold sessions_wf, count in *.
    rewrite Hc.
    destruct (find_session (sessions (eng_sessions e)) (pk_flow p)) as [i|]
      eqn:Hfind.
    + destruct Hss as (s & Hs & Hf & -> & _).
      rewrite list_fmap_insert, length_insert.
      destruct (session_packet_frame (pk_heap p) (config e) s (pk_flow p)
                  (pk_data p) (pk_len p) (pk_ts p) (pk_is_response p))
        as (_ & Hfl & _).
      rewrite Hfl, list_insert_id; [split; assumption|].
      now rewrite list_lookup_fmap, Hs.
    + destruct (Z.ltb_spec (Z.of_nat (length (sessions (eng_sessions e))))
                  (capacity (eng_sessions e))) as [Hlt|Hge];
        cbn [andb] in Hss; [destruct (fst (alloc (pk_heap p)))|].
      * cbv zeta in Hss. destruct Hss as [-> _].
        rewrite fmap_app, length_app. cbn [fmap list_fmap length].
        destruct (session_packet_frame
                    (snd (new_session (snd (alloc (pk_heap p)))
                            (next_session_id e) (pk_flow p) (pk_ts p)))
                    (config e)
                    (fst (new_session (snd (alloc (pk_heap p)))
                            (next_session_id e) (pk_flow p) (pk_ts p)))
                    (pk_flow p) (pk_data p) (pk_len p) (pk_ts p)
                    (pk_is_response p)) as (_ & Hfl & _).
        destruct (new_session_fields (snd (alloc (pk_heap p)))
                    (next_session_id e) (pk_flow p) (pk_ts p))
          as (_ & Hnf & _).
        rewrite Hfl, Hnf. split; [|lia].
        apply NoDup_app. split; [exact Hnd|]. split; [|apply NoDup_singleton].
        intros x Hx Hin. apply list_elem_of_singleton in Hin. subst x.
        now apply find_session_None in Hfind.
      * destruct Hss as [-> _]. split; assumption.
      * destruct Hss as [-> _]. split; assumption.
  - destruct (add_rule_sessions rc e r) as (Hs & _).
    unfold sessions_wf, count. rewrite Hs. split; assumption.
  - destruct (remove_rule_sessions e id) as (Hs & _).
    unfold sessions_wf, count. rewrite Hs. split; assumption.
  - destruct (get_alerts_sessions e dst mx cl) as (Hs & _).
    unfold sessions_wf, count. rewrite Hs. split; assumption.
  - destruct (set_tls_mode_sessions e f m) as (Hs & _).
    unfold sessions_wf, count. rewrite Hs. split; assumption.
  - destruct (terminate_cases e f) as (_ & _ & _ & _ & _ & _ & Hc & Hss).
    unfold sessions_wf, count in *. rewrite Hc.
    destruct (find_session (sessions (eng_sessions e)) f) as [i|] eqn:Hfind.
    + destruct Hss as [_ ->]. split.
      * rewrite list_fmap_delete.
        exact (sublist_NoDup _ _ Hnd (sublist_delete _ i)).
      * pose proof (length_delete (sessions (eng_sessions e)) i) as Hl.
        destruct (find_session_Some _ _ _ Hfind) as (s & Hs & _).
        specialize (Hl (ex_intro _ s Hs)). lia.
    + destruct Hss as [_ ->]. split; assumption.
Qed.

Lemma dpi_init_engine h cfg e :
  dpi_init h cfg = Some e ->
  e.(config) = cfg /\ e.(eng_sessions).(sessions) = [] /\
  e.(eng_sessions).(capacity) = cfg.(max_concurrent_sessions) /\
  e.(alerts).(head) = 0 /\ e.(alerts).(tail) = 0 /\
  e.(stats) = zero_stats /\
  e.(next_session_id) = 1 /\ e.(next_alert_id) = 1.
Proof.
  unfold dpi_init.
  destruct (alloc h) as [[] h1]; [|discriminate].
  destruct (alloc h1) as [[] h2]; [|discriminate].
  destruct (alloc h2) as [[] h3]; destruct (alloc h3) as [[] h4];
    try discriminate.
  destruct (alloc h4) as [[] h5]; [|discriminate].
  intros [= <-]. cbn. repeat split.
Qed.

Lemma step_capacity e c :
  (dpi_step e c).(eng_sessions).(capacity) = e.(eng_sessions).(capacity).
Proof.
  destruct c as [p|rc r|id|dst mx cl|f m|f]; cbn [dpi_step].
  - destruct (Z.eq_dec (pk_len p) 0) as [Hz|Hnz];
      [now rewrite process_call_zero_len|].
    rewrite process_call_unfold.
    destruct (process_packet_cases (pk_heap p) e (pk_flow p) (pk_data p)
                (pk_len p) (pk_ts p) (pk_is_response p) None Hnz)
      as (e' & -> & _ & _ & _ & _ & Hc & _). exact Hc.
  - destruct (add_rule_sessions rc e r) as (Hs & _). now rewrite Hs.
  - destruct (remove_rule_sessions e id) as (Hs & _). now rewrite Hs.
  - destruct (get_alerts_sessions e dst mx cl) as (Hs & _). now rewrite Hs.
  - destruct (set_tls_mode_sessions e f m) as (Hs & _). now rewrite Hs.
  - now destruct (terminate_cases e f) as (_ & _ & _ & _ & _ & _ & Hc & _).
Qed.

Lemma run_capacity calls : forall e,
  (dpi_run e calls).(eng_sessions).(capacity) = e.(eng_sessions).(capacity).
Proof.
  induction calls as [|c calls IH]; intros e; [reflexivity|].
  cbn [dpi_run fold_left]. fold (dpi_run (dpi_step e c) calls).
  now rewrite IH, step_capacity.
Qed.

(** X1. Along any run of API calls on an engine that [dpi_init] returned
    for a nonzero [max_concurrent_sessions], no two sessions of the
    array carry the same tuple and the number of sessions never exceeds
    [max_concurrent_sessions]. *)
Theorem sessions_unique_and_bounded (h : heap) (cfg : dpi_config_t)
    (e : dpi_engine_t) (calls : list dpi_call) :
  dpi_init h cfg = Some e ->
  0 < cfg.(max_concurrent_sessions) ->
  let ss := (dpi_run e calls).(eng_sessions).(sessions) in
  (forall i j si sj,
     ss !! i = Some si -> ss !! j = Some sj ->
     si.(flow) = sj.(flow) -> i = j) /\
  Z.of_nat (length ss) <= cfg.(max_concurrent_sessions).
Proof.
  intros Hinit Hcap ss.
  destruct (dpi_init_engine h cfg e Hinit) as (_ & Hss & Hc & _).
  assert (Hwf : sessions_wf (dpi_run e calls)).
  { apply run_invariant; [apply step_sessions_wf|].
    split; [rewrite Hss; constructor|].
    unfold count. rewrite Hss, Hc. cbn. lia. }
  destruct Hwf as [Hnd Hle]. split.
  - intros i j si sj Hi Hj Heq.
    apply (NoDup_lookup _ i j (flow si) Hnd); rewrite list_lookup_fmap.
    + fold ss. now rewrite Hi.
    + fold ss. rewrite Hj. cbn. now rewrite Heq.
  - unfold count in Hle. rewrite run_capacity, Hc in Hle. exact Hle.
Qed.

Lemma sessions_unique_and_bounded_witness :
  Z.of_nat (length (dpi_run fresh_engine sample_run).(eng_sessions).(sessions))
  <= 1024.
Proof.
  refine (proj2 (sessions_unique_and_bounded [] default_config fresh_engine
                   sample_run _ _)); [reflexivity | cbn; lia].
Defined.

(** The ids of the sessions along a run, with the number of calls still
    allowed before the 64-bit counter could wrap. *)
Lemma step_session_ids e c :
  session_ids_wf e -> e.(next_session_id) + 1 < 2^64 ->
  session_ids_wf (dpi_step e c) /\
  e.(next_session_id) <= (dpi_step e c).(next_session_id)
                      <= e.(next_session_id) + 1.
Proof.
  intros (Hn & Hb & Hs) Hw.
  assert (Hsame : forall e',
            e'.(eng_sessions).(sessions) = e.(eng_sessions).(sessions) ->
            e'.(next_session_id) = e.(next_session_id) ->
            session_ids_wf e' /\
            e.(next_session_id) <= e'.(next_session_id)
                                <= e.(next_session_id) + 1).
  { intros e' E1 E2. unfold session_ids_wf. rewrite E1, E2.
    split; [exact (conj Hn (conj Hb Hs))|lia]. }
  destruct c as [p|rc r|id|dst mx cl|f m|f]; cbn [dpi_step].
  - destruct (Z.eq_dec (pk_len p) 0) as [Hz|Hnz].
    { rewrite process_call_zero_len by exact Hz. now apply Hsame. }
    rewrite process_call_unfold.
    destruct (process_packet_cases (pk_heap p) e (pk_flow p) (pk_data p)
                (pk_len p) (pk_ts p) (pk_is_response p) None Hnz)
      as (e' & -> & _ & _ & _ & _ & _ & _ & Hss).
    cbn [fst default from_option id].
    destruct (find_session (sessions (eng_sessions e)) (pk_flow p)) as [i|]
      eqn:Hfind.
    + destruct Hss as (s & Hsi & Hf & Hss & Hnext).
      destruct (session_packet_frame (pk_heap p) (config e) s (pk_flow p)
                  (pk_data p) (pk_len p) (pk_ts p) (pk_is_response p))
        as (Hid & _).
      assert (Hlk : forall j sj,
                sessions (eng_sessions e') !! j = Some sj ->
                exists sj0, sessions (eng_sessions e) !! j = Some sj0 /\
                            session_id sj = session_id sj0).
      { intros j sj Hj. rewrite Hss in Hj.
        destruct (decide (i = j)) as [<-|Hne].
        - rewrite list_lookup_insert_eq in Hj
            by (now apply lookup_lt_Some in Hsi).
          injection Hj as <-. exists s. split; [exact Hsi|exact Hid].
        - rewrite list_lookup_insert_ne in Hj by exact Hne.
          exists sj. split; [exact Hj|reflexivity]. }
      split; [|lia]. unfold session_ids_wf. rewrite Hnext.
      split; [exact Hn|]. split.
      * intros j sj Hj. destruct (Hlk j sj Hj) as (sj0 & Hj0 & ->).
        exact (Hb j sj0 Hj0).
      * intros j k sj sk Hjk Hj Hk.
        destruct (Hlk j sj Hj) as (sj0 & Hj0 & ->).
        destruct (Hlk k sk Hk) as (sk0 & Hk0 & ->).
        exact (Hs j k sj0 sk0 Hjk Hj0 Hk0).
    + destruct ((count (eng_sessions e) <? capacity (eng_sessions e))
                && fst (alloc (pk_heap p))).
      * cbv zeta in Hss. destruct Hss as [Hss Hnext].
        rewrite u64_small in Hnext by lia.
        set (s' := fst (session_packet _ _ _ _ _ _ _ _)) in Hss.
        assert (Hid : session_id s' = next_session_id e).
        { subst s'.
          destruct (session_packet_frame
                      (snd (new_session (snd (alloc (pk_heap p)))
                              (next_session_id e) (pk_flow p) (pk_ts p)))
                      (config e)
                      (fst (new_session (snd (alloc (pk_heap p)))
                              (next_session_id e) (pk_flow p) (pk_ts p)))
                      (pk_flow p) (pk_data p) (pk_len p) (pk_ts p)
                      (pk_is_response p)) as (-> & _).
          now destruct (new_session_fields (snd (alloc (pk_heap p)))
                          (next_session_id e) (pk_flow p) (pk_ts p)). }
        split; [|lia]. unfold session_ids_wf. rewrite Hnext, Hss.
        split; [lia|]. split.
        -- intros j sj Hj. apply lookup_app_Some in Hj as [Hj|[_ Hj]].
           ++ specialize (Hb j sj Hj). lia.
           ++ apply list_lookup_singleton_Some in Hj as [_ <-]. lia.
        -- intros j k sj sk Hjk Hj Hk.
           apply lookup_app_Some in Hj as [Hj|[Hjl Hj]];
             apply lookup_app_Some in Hk as [Hk|[Hkl Hk]].
           ++ exact (Hs j k sj sk Hjk Hj Hk).
           ++ apply list_lookup_singleton_Some in Hk as [_ <-].
              specialize (Hb j sj Hj). lia.
           ++ apply lookup_lt_Some in Hk. lia.
           ++ apply list_lookup_singleton_Some in Hj as [Hj0 _].
              apply list_lookup_singleton_Some in Hk as [Hk0 _]. lia.
      * destruct Hss as [Hss Hnext]. now apply Hsame.
  - destruct (add_rule_sessions rc e r) as (E1 & E2 & _).
    apply Hsame; [now rewrite E1|exact E2].
  - destruct (remove_rule_sessions e id) as (E1 & E2 & _).
    apply Hsame; [now rewrite E1|exact E2].
  - destruct (get_alerts_sessions e dst mx cl) as (E1 & E2 & _).
    apply Hsame; [now rewrite E1|exact E2].
  - destruct (set_tls_mode_sessions e f m) as (E1 & E2 & _).
    apply Hsame; [now rewrite E1|exact E2].
  - destruct (terminate_cases e f) as (_ & _ & _ & _ & Hnext & _ & _ & Hss).
    destruct (find_session (sessions (eng_sessions e)) f) as [i|] eqn:Hfind.
    + destruct Hss as [_ Hss]. split; [|lia].
      unfold session_ids_wf. rewrite Hnext, Hss.
      split; [exact Hn|]. split.
      * intros j sj Hj. rewrite list_lookup_delete in Hj.
        destruct (decide (j < i)%nat); eauto.
      * intros j k sj sk Hjk Hj Hk. rewrite list_lookup_delete in Hj, Hk.
        destruct (decide (j < i)%nat), (decide (k < i)%nat);
          refine (Hs _ _ _ _ _ Hj Hk); lia.
    + destruct Hss as [_ ->]. apply Hsame; reflexivity.
Qed.

Lemma run_session_ids calls : forall e,
  session_ids_wf e ->
  e.(next_session_id) + Z.of_nat (length calls) < 2^64 ->
  session_ids_wf (dpi_run e calls) /\
  (dpi_run e calls).(next_session_id)
  <= e.(next_session_id) + Z.of_nat (length calls).
Proof.
  induction calls as [|c calls IH]; intros e Hwf Hlen.
  - split; [exact Hwf|cbn; lia].
  - cbn [length] in Hlen. rewrite Nat2Z.inj_succ in Hlen.
    destruct (step_session_ids e c Hwf) as [Hwf' Hnext]; [lia|].
    destruct (IH (dpi_step e c) Hwf') as [Hrun Hle]; [lia|].
    split; [exact Hrun|].
    cbn [length]. rewrite Nat2Z.inj_succ.
    change (dpi_run e (c :: calls)) with (dpi_run (dpi_step e c) calls). lia.
Qed.

(** A call that creates a session gives it the id [next_session_id] and
    moves the counter on by one; every other call leaves the counter as
    it is. *)
Lemma step_created e c :
  0 <= e.(next_session_id) -> e.(next_session_id) + 1 < 2^64 ->
  match created_session e c with
  | Some s => s.(session_id) = e.(next_session_id) /\
              (dpi_step e c).(next_session_id) = e.(next_session_id) + 1
  | None => (dpi_step e c).(next_session_id) = e.(next_session_id)
  end.
Proof.
  intros Hlo Hhi.
  destruct c as [p|rc r|id|dst mx cl|f m|f]; cbn [created_session dpi_step].
  - change (dpi_get_session (Some e) (Some (pk_flow p)))
      with (lookup_session (sessions (eng_sessions e)) (pk_flow p)).
    destruct (Z.eq_dec (pk_len p) 0) as [Hz|Hnz].
    { rewrite process_call_zero_len by exact Hz.
      change (dpi_get_session (Some e) (Some (pk_flow p)))
        with (lookup_session (sessions (eng_sessions e)) (pk_flow p)).
      destruct (lookup_session (sessions (eng_sessions e)) (pk_flow p)) eqn:E;
        [reflexivity|]. reflexivity. }
    rewrite process_call_unfold.
    destruct (process_packet_cases (pk_heap p) e (pk_flow p) (pk_data p)
                (pk_len p) (pk_ts p) (pk_is_response p) None Hnz)
      as (e' & -> & _ & _ & _ & _ & _ & _ & Hss).
    cbn [fst default from_option id].
    change (dpi_get_session (Some e') (Some (pk_flow p)))
      with (lookup_session (sessions (eng_sessions e')) (pk_flow p)).
    destruct (find_session (sessions (eng_sessions e)) (pk_flow p)) as [i|]
      eqn:Hfind.
    + destruct Hss as (s & Hsi & _ & _ & Hnext).
      unfold lookup_session at 1. rewrite Hfind, Hsi. exact Hnext.
    + rewrite (proj2 (lookup_session_None _ _) Hfind).
      destruct ((count (eng_sessions e) <? capacity (eng_sessions e))
                && fst (alloc (pk_heap p))).
      * cbv zeta in Hss. destruct Hss as [Hss Hnext].
        rewrite u64_small in Hnext by lia.
        set (s' := fst (session_packet _ _ _ _ _ _ _ _)) in Hss.
        assert (Hs' : session_id s' = next_session_id e /\ flow s' = pk_flow p).
        { subst s'.
          destruct (session_packet_frame
                      (snd (new_session (snd (alloc (pk_heap p)))
                              (next_session_id e) (pk_flow p) (pk_ts p)))
                      (config e)
                      (fst (new_session (snd (alloc (pk_heap p)))
                              (next_session_id e) (pk_flow p) (pk_ts p)))
                      (pk_flow p) (pk_data p) (pk_len p) (pk_ts p)
                      (pk_is_response p)) as (-> & -> & _).
          destruct (new_session_fields (snd (alloc (pk_heap p)))
                      (next_session_id e) (pk_flow p) (pk_ts p))
            as (Hi & Hf & _).
          split; assumption. }
        destruct Hs' as [Hid Hfl].
        rewrite Hss. unfold lookup_session.
        rewrite find_session_app_new by exact Hfind.
        rewrite (proj2 (flow_tuple_equal_eq (flow s') (pk_flow p)) Hfl).
        rewrite lookup_app_r by lia. rewrite Nat.sub_diag.
        cbn [lookup list_lookup]. split; assumption.
      * destruct Hss as [Hss Hnext].
        rewrite Hss, (proj2 (lookup_session_None _ _) Hfind). exact Hnext.
  - now destruct (add_rule_sessions rc e r) as (_ & E & _).
  - now destruct (remove_rule_sessions e id) as (_ & E & _).
  - now destruct (get_alerts_sessions e dst mx cl) as (_ & E & _).
  - now destruct (set_tls_mode_sessions e f m) as (_ & E & _).
  - now destruct (terminate_cases e f) as (_ & _ & _ & _ & E & _).
Qed.

(** The ids handed out along a run are consecutive, from the value of the
    counter at its start, and the counter ends one past the last of them. *)
Lemma run_created_ids calls : forall e,
  0 <= e.(next_session_id) ->
  e.(next_session_id) + Z.of_nat (length calls) < 2^64 ->
  exists m,
    created_ids e calls
    = (fun i => e.(next_session_id) + Z.of_nat i) <$> seq 0 m /\
    (dpi_run e calls).(next_session_id) = e.(next_session_id) + Z.of_nat m /\
    (m <= length calls)%nat.
Proof.
  induction calls as [|c calls IH]; intros e Hlo Hhi.
  - exists 0%nat. cbn. repeat split; lia.
  - cbn [length] in Hhi. rewrite Nat2Z.inj_succ in Hhi.
    change (dpi_run e (c :: calls)) with (dpi_run (dpi_step e c) calls).
    pose proof (step_created e c Hlo ltac:(lia)) as Hstep.
    cbn [created_ids length].
    destruct (created_session e c) as [s|].
    + destruct Hstep as [Hid Hnext].
      destruct (IH (dpi_step e c)) as (m & Hids & Hrun & Hm);
        [lia | lia |].
      exists (S m). rewrite Hids, Hrun, Hnext, Hid.
      split; [|split; lia].
      cbn [seq fmap list_fmap]. rewrite Z.add_0_r. f_equal.
      rewrite <- fmap_S_seq, <- list_fmap_compose.
      apply list_fmap_ext. intros _ i _. cbn. lia.
    + destruct (IH (dpi_step e c)) as (m & Hids & Hrun & Hm);
        [lia | lia |].
      exists m. rewrite Hids, Hrun, Hstep. repeat split; lia.
Qed.

(** X2. Along a run of fewer than 2^64 - 1 calls on an engine that
    [dpi_init] returned for a nonzero [max_concurrent_sessions], the
    session ids in the array increase strictly with the index, start at 1
    and stay below [next_session_id]; and the ids handed out to the
    sessions created along the run, those since terminated included, are
    1, 2, 3, ... in the order of creation, up to [next_session_id - 1]: no
    id is handed out twice, and every session of the array carries one of
    them. *)
Theorem session_ids_increasing (h : heap) (cfg : dpi_config_t)
    (e : dpi_engine_t) (calls : list dpi_call) :
  dpi_init h cfg = Some e ->
  0 < cfg.(max_concurrent_sessions) ->
  Z.of_nat (length calls) < 2^64 - 1 ->
  let e' := dpi_run e calls in
  let ss := e'.(eng_sessions).(sessions) in
  (forall i j si sj,
     (i < j)%nat -> ss !! i = Some si -> ss !! j = Some sj ->
     si.(session_id) < sj.(session_id)) /\
  (forall i s, ss !! i = Some s ->
     1 <= s.(session_id) < e'.(next_session_id)) /\
  e'.(next_session_id) <= 1 + Z.of_nat (length calls) /\
  created_ids e calls
  = Z.of_nat <$> seq 1 (Z.to_nat (e'.(next_session_id) - 1)) /\
  NoDup (created_ids e calls) /\
  (forall i s, ss !! i = Some s -> s.(session_id) ∈ created_ids e calls).
Proof.
  intros Hinit _ Hlen.
  destruct (dpi_init_engine h cfg e Hinit) as (_ & Hss & _ & _ & _ & _ & Hn & _).
  assert (Hwf : session_ids_wf e).
  { unfold session_ids_wf. rewrite Hss, Hn. split; [lia|].
    split; intros; discriminate. }
  destruct (run_session_ids calls e Hwf) as [(_ & Hb & Hs) Hle];
    [rewrite Hn; lia|].
  destruct (run_created_ids calls e) as (m & Hids & Hrun & Hm);
    [rewrite Hn; lia | rewrite Hn; lia |].
  rewrite Hn in Hle, Hids, Hrun. cbv zeta.
  assert (Hseq : created_ids e calls
                 = Z.of_nat <$> seq 1 (Z.to_nat (next_session_id (dpi_run e calls) - 1))).
  { rewrite Hids, Hrun.
    replace (Z.to_nat (1 + Z.of_nat m - 1)) with m by lia.
    rewrite <- fmap_S_seq, <- list_fmap_compose.
    apply list_fmap_ext. intros _ i _. cbn. lia. }
  split; [exact Hs|]. split; [exact Hb|]. split; [exact Hle|].
  split; [exact Hseq|]. split.
  - rewrite Hseq. apply NoDup_fmap_2; [apply Nat2Z.inj'|apply NoDup_seq].
  - intros i s Hi. specialize (Hb i s Hi). rewrite Hseq.
    apply list_elem_of_fmap. exists (Z.to_nat (session_id s)).
    split; [lia|]. apply elem_of_seq. lia.
Qed.

Lemma session_ids_increasing_witness :
  NoDup (created_ids fresh_engine sample_run).
Proof.
  refine (proj1 (proj2 (proj2 (proj2 (proj2
            (session_ids_increasing [] default_config fresh_engine
               sample_run _ _ _))))));
    [reflexivity | cbn; lia | cbn; lia].
Defined.

(** On the sample run the tuple of session 1 is terminated and seen again:
    its new session gets the id 3, not 1 again. *)
Example created_ids_sample_run :
  created_ids fresh_engine sample_run = [1; 2; 3] /\
  session_id <$> (dpi_run fresh_engine sample_run).(eng_sessions).(sessions)
  = [2; 3].
Proof. vm_compute. split; reflexivity. Qed.

Lemma new_session_data_wf h id f ts :
  session_data_wf (fst (new_session h id f ts)).
Proof.
  destruct (new_session_fields h id f ts)
    as (_ & _ & _ & _ & Hh & Hd & Ht & Ha & Hc & _).
  unfold session_data_wf. rewrite Hh, Hd, Ht, Ha, Hc.
  repeat split; try congruence; cbn; lia.
Qed.

Lemma step_sessions_data_wf e c :
  sessions_data_wf e -> sessions_data_wf (dpi_step e c).
Proof.
  unfold sessions_data_wf. intros Hwf.
  destruct c as [p|rc r|id|dst mx cl|f m|f]; cbn [dpi_step].
  - destruct (Z.eq_dec (pk_len p) 0) as [Hz|Hnz];
      [now rewrite process_call_zero_len|].
    rewrite process_call_unfold.
    destruct (process_packet_cases (pk_heap p) e (pk_flow p) (pk_data p)
                (pk_len p) (pk_ts p) (pk_is_response p) None Hnz)
      as (e' & -> & _ & _ & _ & _ & _ & _ & Hss).
    cbn [fst default from_option id].
    destruct (find_session (sessions (eng_sessions e)) (pk_flow p)) as [i|].
    + destruct Hss as (s & Hsi & _ & -> & _).
      apply Forall_insert; [exact Hwf|].
      apply session_packet_data_wf.
      exact (proj1 (Forall_lookup _ _) Hwf i s Hsi).
    + destruct (_ && _).
      * cbv zeta in Hss. destruct Hss as [-> _].
        apply Forall_app. split; [exact Hwf|].
        apply Forall_singleton, session_packet_data_wf, new_session_data_wf.
      * now destruct Hss as [-> _].
  - destruct (add_rule_sessions rc e r) as (-> & _). exact Hwf.
  - destruct (remove_rule_sessions e id) as (-> & _). exact Hwf.
  - destruct (get_alerts_sessions e dst mx cl) as (-> & _). exact Hwf.
  - destruct (set_tls_mode_sessions e f m) as (-> & _). exact Hwf.
  - destruct (terminate_cases e f) as (_ & _ & _ & _ & _ & _ & _ & Hss).
    destruct (find_session (sessions (eng_sessions e)) f) as [i|].
    + destruct Hss as [_ ->]. now apply Forall_delete.
    + now destruct Hss as [_ ->].
Qed.

Lemma run_sessions_data_wf h cfg e calls :
  dpi_init h cfg = Some e -> sessions_data_wf (dpi_run e calls).
Proof.
  intros Hinit. apply run_invariant; [exact step_sessions_data_wf|].
  destruct (dpi_init_engine h cfg e Hinit) as (_ & Hss & _).
  unfold sessions_data_wf. rewrite Hss. constructor.
Qed.

(** X3. Along any run of API calls on an engine that [dpi_init] returned
    for a nonzero [max_concurrent_sessions], every session counts at most
    10 anomalies (the literal 10 of the guard of [detect_anomalies]) and
    stores no more anomaly records than it counts. *)
Theorem anomalies_capped (h : heap) (cfg : dpi_config_t)
    (e : dpi_engine_t) (calls : list dpi_call) :
  dpi_init h cfg = Some e ->
  0 < cfg.(max_concurrent_sessions) ->
  Forall (fun s => 0 <= s.(anomaly_count) <= 10 /\
                   (length s.(anomalies) <= 10)%nat)
         (dpi_run e calls).(eng_sessions).(sessions).
Proof.
  intros Hinit _.
  pose proof (run_sessions_data_wf h cfg e calls Hinit) as Hwf.
  eapply Forall_impl; [exact Hwf|].
  intros s (_ & _ & _ & Hc & Hl). split; [exact Hc|]. lia.
Qed.

Lemma anomalies_capped_witness :
  Forall (fun s => 0 <= s.(anomaly_count) <= 10 /\
                   (length s.(anomalies) <= 10)%nat)
         (dpi_run fresh_engine sample_run).(eng_sessions).(sessions).
Proof.
  refine (anomalies_capped [] default_config fresh_engine sample_run _ _);
    [reflexivity | cbn; lia].
Defined.

(** X4. Along any run of API calls on an engine that [dpi_init] returned
    for a nonzero [max_concurrent_sessions], [dpi_get_protocol_data] returns a record only in two cases: an HTTP
    record, asked for as HTTP or HTTPS, of a session classified HTTP; or a
    DNS record, asked for as DNS, of a session classified DNS.  The TLS
    record of a session classified HTTPS is never returned. *)
Theorem protocol_data_only_http_dns (h : heap) (cfg : dpi_config_t)
    (e : dpi_engine_t) (calls : list dpi_call) (f : dpi_flow_tuple_t)
    (p : dpi_protocol_t) (d : dpi_http_data_t + dpi_dns_data_t) :
  dpi_init h cfg = Some e ->
  0 < cfg.(max_concurrent_sessions) ->
  dpi_get_protocol_data (Some (dpi_run e calls)) (Some f) p = Some d ->
  exists s,
    dpi_get_session (Some (dpi_run e calls)) (Some f) = Some s /\
    ((exists hd, d = inl hd /\ s.(http_data) = Some hd /\
                 (p = DPI_PROTO_HTTP \/ p = DPI_PROTO_HTTPS) /\
                 s.(sess_protocol).(pr_protocol) = DPI_PROTO_HTTP) \/
     (exists dd, d = inr dd /\ s.(dns_data) = Some dd /\
                 p = DPI_PROTO_DNS /\
                 s.(sess_protocol).(pr_protocol) = DPI_PROTO_DNS)).
Proof.
  intros Hinit _ Hget.
  pose proof (run_sessions_data_wf h cfg e calls Hinit) as Hwf.
  unfold dpi_get_protocol_data in Hget.
  destruct (dpi_get_session (Some (dpi_run e calls)) (Some f)) as [s|] eqn:Hs;
    [|discriminate].
  exists s. split; [reflexivity|].
  rewrite get_session_lookup in Hs. unfold lookup_session in Hs.
  destruct (find_session _ f) as [i|]; [|discriminate].
  destruct (proj1 (Forall_lookup _ _) Hwf i s Hs) as (Hh & Hd & _).
  destruct p; try discriminate.
  - destruct (http_data s) as [hd|] eqn:E; [|discriminate].
    injection Hget as <-. left. exists hd. repeat split; auto; apply Hh; congruence.
  - destruct (http_data s) as [hd|] eqn:E; [|discriminate].
    injection Hget as <-. left. exists hd. repeat split; auto; apply Hh; congruence.
  - destruct (dns_data s) as [dd|] eqn:E; [|discriminate].
    injection Hget as <-. right. exists dd. repeat split; auto; apply Hd; congruence.
Qed.

Lemma protocol_data_only_http_dns_witness :
  exists s,
    dpi_get_session (Some (dpi_run fresh_engine sample_run)) (Some web_flow)
    = Some s /\
    ((exists hd, get_request_data = inl hd /\ s.(http_data) = Some hd /\
                 (DPI_PROTO_HTTPS = DPI_PROTO_HTTP \/
                  DPI_PROTO_HTTPS = DPI_PROTO_HTTPS) /\
                 s.(sess_protocol).(pr_protocol) = DPI_PROTO_HTTP) \/
     (exists dd, get_request_data = inr dd /\ s.(dns_data) = Some dd /\
                 DPI_PROTO_HTTPS = DPI_PROTO_DNS /\
                 s.(sess_protocol).(pr_protocol) = DPI_PROTO_DNS)).
Proof.
  refine (protocol_data_only_http_dns [] default_config fresh_engine
            sample_run web_flow DPI_PROTO_HTTPS get_request_data _ _ _).
  - reflexivity.
  - cbn. lia.
  - vm_compute. reflexivity.
Defined.

(** ** Alerts and statistics along a run *)

Lemma get_alerts_loop_empty q clear dst cnt n :
  q.(head) = q.(tail) -> get_alerts_loop q clear dst cnt n = (q, dst, cnt).
Proof.
  intros Hq. destruct n as [|n]; [reflexivity|].
  cbn [get_alerts_loop]. now rewrite Hq, Z.eqb_refl.
Qed.

Lemma get_alerts_empty e dst max clear :
  e.(alerts).(head) = e.(alerts).(tail) ->
  dpi_get_alerts (Some e) (Some dst) max clear = (Some e, Some dst, 0).
Proof.
  intros Hq. unfold dpi_get_alerts.
  destruct (max =? 0); [reflexivity|].
  rewrite get_alerts_loop_empty by exact Hq. now destruct e.
Qed.

Lemma step_alerts_empty e c :
  e.(alerts).(head) = e.(alerts).(tail) ->
  (dpi_step e c).(alerts) = e.(alerts) /\
  (dpi_step e c).(next_alert_id) = e.(next_alert_id).
Proof.
  intros Hq. destruct c as [p|rc r|id|dst mx cl|f m|f]; cbn [dpi_step].
  - destruct (Z.eq_dec (pk_len p) 0) as [Hz|Hnz];
      [now rewrite process_call_zero_len|].
    rewrite process_call_unfold.
    destruct (process_packet_cases (pk_heap p) e (pk_flow p) (pk_data p)
                (pk_len p) (pk_ts p) (pk_is_response p) None Hnz)
      as (e' & -> & _ & Ha & Hn & _).
    cbn [fst default from_option id]. now split.
  - destruct (add_rule_sessions rc e r) as (_ & _ & _ & Ha & Hn & _).
    now split.
  - destruct (remove_rule_sessions e id) as (_ & _ & _ & Ha & Hn & _).
    now split.
  - rewrite get_alerts_empty by exact Hq. now split.
  - destruct (set_tls_mode_sessions e f m) as (_ & _ & _ & _ & Ha & Hn).
    now split.
  - destruct (terminate_cases e f) as (_ & Ha & _ & _ & _ & Hn & _).
    now split.
Qed.

Lemma run_alerts_empty calls : forall e,
  e.(alerts).(head) = e.(alerts).(tail) ->
  (dpi_run e calls).(alerts) = e.(alerts) /\
  (dpi_run e calls).(next_alert_id) = e.(next_alert_id).
Proof.
  induction calls as [|c calls IH]; intros e Hq; [now split|].
  change (dpi_run e (c :: calls)) with (dpi_run (dpi_step e c) calls).
  destruct (step_alerts_empty e c Hq) as [Ha Hn].
  destruct (IH (dpi_step e c)) as [Ha' Hn']; [now rewrite Ha|].
  split; congruence.
Qed.

(** X5. No call of the API puts an alert in the queue: after any run of
    calls on an engine that [dpi_init] returned for a nonzero
    [max_concurrent_sessions], rules added and packets processed
    included, [dpi_get_alerts] returns 0, writes nothing to the
    caller's array and leaves the engine as it is, and [next_alert_id] is
    still 1. *)
Theorem no_alert_is_ever_queued (h : heap) (cfg : dpi_config_t)
    (e : dpi_engine_t) (calls : list dpi_call)
    (dst : list dpi_alert_t) (max_alerts clear_after_read : Z) :
  dpi_init h cfg = Some e ->
  0 < cfg.(max_concurrent_sessions) ->
  let e' := dpi_run e calls in
  dpi_get_alerts (Some e') (Some dst) max_alerts clear_after_read
  = (Some e', Some dst, 0) /\
  e'.(next_alert_id) = 1.
Proof.
  intros Hinit _.
  destruct (dpi_init_engine h cfg e Hinit)
    as (_ & _ & _ & Hh & Ht & _ & _ & Hn).
  destruct (run_alerts_empty calls e) as [Ha Hn']; [congruence|].
  cbv zeta. split; [|congruence].
  apply get_alerts_empty. rewrite Ha. congruence.
Qed.

Lemma no_alert_is_ever_queued_witness :
  (dpi_run fresh_engine sample_run).(next_alert_id) = 1.
Proof.
  refine (proj2 (no_alert_is_ever_queued [] default_config fresh_engine
                   sample_run [] 1 1 _ _)); [reflexivity | cbn; lia].
Defined.



(** Along a run on an engine that [dpi_init] returned for a nonzero
    [max_concurrent_sessions] no call of [dpi_process_packet] divides by
    zero. *)
Lemma run_never_faults h cfg e0 calls f data len :
  dpi_init h cfg = Some e0 ->
  0 < cfg.(max_concurrent_sessions) ->
  dpi_process_packet_faults (Some (dpi_run e0 calls)) (Some f) (Some data) len
  = false.
Proof.
  intros Hinit Hcap.
  destruct (dpi_init_engine h cfg e0 Hinit) as (_ & _ & Hc & _).
  cbn [dpi_process_packet_faults]. rewrite run_capacity, Hc.
  destruct (Z.eqb_spec (max_concurrent_sessions cfg) 0) as [|_]; [lia|].
  apply andb_false_r.
Qed.

(** With capacity 0 every call that passes the guard does. *)
Example zero_capacity_faults :
  dpi_process_packet_faults
    (Some {| config := fresh_engine.(config);
             eng_sessions := {| sessions := []; capacity := 0 |};
             eng_rules := fresh_engine.(eng_rules);
             alerts := fresh_engine.(alerts);
             stats := fresh_engine.(stats);
             next_session_id := 1; next_alert_id := 1 |})
    (Some web_flow) (Some tiny_payload) 2 = true.
Proof. reflexivity. Qed.

Lemma step_stats e c :
  (dpi_step e c).(stats)
  = match c with
    | CallProcess p =>
        if p.(pk_len) =? 0 then e.(stats)
        else stats_packet e.(stats) p.(pk_len)
               (count (dpi_step e c).(eng_sessions))
    | _ => e.(stats)
    end.
Proof.
  destruct c as [p|rc r|id|dst mx cl|f m|f]; cbn [dpi_step].
  - destruct (Z.eqb_spec (pk_len p) 0) as [Hz|Hnz];
      [now rewrite process_call_zero_len|].
    rewrite process_call_unfold.
    destruct (process_packet_cases (pk_heap p) e (pk_flow p) (pk_data p)
                (pk_len p) (pk_ts p) (pk_is_response p) None Hnz)
      as (e' & -> & _ & _ & _ & _ & _ & Hst & _).
    exact Hst.
  - now destruct (add_rule_sessions rc e r) as (_ & _ & Hst & _).
  - now destruct (remove_rule_sessions e id) as (_ & _ & Hst & _).
  - now destruct (get_alerts_sessions e dst mx cl) as (_ & _ & Hst & _).
  - now destruct (set_tls_mode_sessions e f m) as (_ & _ & Hst & _).
  - now destruct (terminate_cases e f) as (_ & _ & Hst & _).
Qed.

Lemma u64_idem x : u64 (u64 x) = u64 x.
Proof. unfold u64. apply Z.mod_mod. lia. Qed.

Lemma u64_add_l x y : u64 (u64 x + y) = u64 (x + y).
Proof. unfold u64. apply Z.add_mod_idemp_l. lia. Qed.

Lemma run_stats calls : forall e,
  let st := e.(stats) in
  let st' := (dpi_run e calls).(stats) in
  st.(packets_processed) = u64 st.(packets_processed) ->
  st.(bytes_processed) = u64 st.(bytes_processed) ->
  st'.(packets_processed)
  = u64 (st.(packets_processed) + Z.of_nat (length (accepted_lens calls))) /\
  st'.(bytes_processed)
  = u64 (st.(bytes_processed) + sum_lens (accepted_lens calls)) /\
  st'.(flows_created) = st.(flows_created) /\
  st'.(flows_terminated) = st.(flows_terminated) /\
  st'.(alerts_generated) = st.(alerts_generated) /\
  st'.(anomalies_detected) = st.(anomalies_detected) /\
  st'.(http_packets) = st.(http_packets) /\
  st'.(dns_packets) = st.(dns_packets) /\
  st'.(tls_packets) = st.(tls_packets) /\
  st'.(smtp_packets) = st.(smtp_packets) /\
  st'.(smb_packets) = st.(smb_packets).
Proof.
  induction calls as [|c calls IH]; intros e; cbv zeta; intros Hp Hb.
  - cbn. rewrite !Z.add_0_r. repeat split; assumption.
  - change (dpi_run e (c :: calls)) with (dpi_run (dpi_step e c) calls).
    specialize (IH (dpi_step e c)). cbv zeta in IH.
    pose proof (step_stats e c) as Hst.
    assert (Hcase :
      (accepted_lens (c :: calls) = accepted_lens calls /\
       stats (dpi_step e c) = stats e) \/
      (exists len a, accepted_lens (c :: calls) = len :: accepted_lens calls /\
         stats (dpi_step e c) = stats_packet (stats e) len a)).
    { destruct c as [p| | | | |]; try (left; split; [reflexivity|exact Hst]).
      unfold accepted_lens; cbn [flat_map].
      destruct (pk_len p =? 0); [left|right; eauto]. now split. }
    destruct Hcase as [[-> Hs]|(len & a & -> & Hs)]; rewrite Hs in IH.
    + apply IH; assumption.
    + cbn [stats_packet packets_processed bytes_processed flows_created
           flows_terminated alerts_generated anomalies_detected http_packets
           dns_packets tls_packets smtp_packets smb_packets] in IH.
      destruct IH as (H1 & H2 & H3); [now rewrite u64_idem..|].
      rewrite u64_add_l in H1, H2.
      split; [|split; [|exact H3]].
      * rewrite H1. f_equal. cbn [length]. lia.
      * rewrite H2. f_equal. cbn [sum_lens fold_right].
        unfold sum_lens. lia.
Qed.

(** X6. After any run of calls on an engine that [dpi_init] returned for
    a nonzero [max_concurrent_sessions], [packets_processed] is the number of packets with a nonzero length that
    were passed to [dpi_process_packet] and [bytes_processed] the sum of
    their lengths, both modulo 2^64; the other counters of the statistics
    besides [active_sessions] (flows created and terminated, alerts,
    anomalies, packets per protocol) are still 0, whatever was processed. *)
Theorem stats_count_packets_only (h : heap) (cfg : dpi_config_t)
    (e : dpi_engine_t) (calls : list dpi_call) :
  dpi_init h cfg = Some e ->
  0 < cfg.(max_concurrent_sessions) ->
  let st := dpi_get_stats (Some (dpi_run e calls)) in
  st.(packets_processed) = u64 (Z.of_nat (length (accepted_lens calls))) /\
  st.(bytes_processed) = u64 (sum_lens (accepted_lens calls)) /\
  st.(flows_created) = 0 /\ st.(flows_terminated) = 0 /\
  st.(alerts_generated) = 0 /\ st.(anomalies_detected) = 0 /\
  st.(http_packets) = 0 /\ st.(dns_packets) = 0 /\ st.(tls_packets) = 0 /\
  st.(smtp_packets) = 0 /\ st.(smb_packets) = 0.
Proof.
  intros Hinit _.
  destruct (dpi_init_engine h cfg e Hinit) as (_ & _ & _ & _ & _ & Hst & _).
  pose proof (run_stats calls e) as H. cbv zeta in H. rewrite Hst in H.
  cbv zeta. cbn [dpi_get_stats]. apply H; reflexivity.
Qed.

Lemma stats_count_packets_only_witness :
  (dpi_get_stats (Some (dpi_run fresh_engine sample_run))).(packets_processed)
  = u64 (Z.of_nat (length (accepted_lens sample_run))).
Proof.
  refine (proj1 (stats_count_packets_only [] default_config fresh_engine
                   sample_run _ _)); [reflexivity | cbn; lia].
Defined.

(** ** One call on an engine reached by a run *)

Lemma step_sessions_nodup e c :
  NoDup (flow <$> e.(eng_sessions).(sessions)) ->
  NoDup (flow <$> (dpi_step e c).(eng_sessions).(sessions)).
Proof.
  intros Hnd. destruct c as [p|rc r|id|dst mx cl|f m|f]; cbn [dpi_step].
  - destruct (Z.eq_dec (pk_len p) 0) as [Hz|Hnz];
      [now rewrite process_call_zero_len|].
    rewrite process_call_unfold.
    destruct (process_packet_cases (pk_heap p) e (pk_flow p) (pk_data p)
                (pk_len p) (pk_ts p) (pk_is_response p) None Hnz)
      as (e' & -> & _ & _ & _ & _ & _ & _ & Hss).
    cbn [fst default from_option id].
    destruct (find_session (sessions (eng_sessions e)) (pk_flow p)) as [i|]
      eqn:Hfind.
    + destruct Hss as (s & Hs & Hf & -> & _).
      rewrite list_fmap_insert.
      destruct (session_packet_frame (pk_heap p) (config e) s (pk_flow p)
                  (pk_data p) (pk_len p) (pk_ts p) (pk_is_response p))
        as (_ & Hfl & _).
      rewrite Hfl, list_insert_id; [assumption|].
      now rewrite list_lookup_fmap, Hs.
    + destruct (_ && _).
      * cbv zeta in Hss. destruct Hss as [-> _].
        rewrite fmap_app. cbn [fmap list_fmap].
        destruct (session_packet_frame
                    (snd (new_session (snd (alloc (pk_heap p)))
                            (next_session_id e) (pk_flow p) (pk_ts p)))
                    (config e)
                    (fst (new_session (snd (alloc (pk_heap p)))
                            (next_session_id e) (pk_flow p) (pk_ts p)))
                    (pk_flow p) (pk_data p) (pk_len p) (pk_ts p)
                    (pk_is_response p)) as (_ & Hfl & _).
        destruct (new_session_fields (snd (alloc (pk_heap p)))
                    (next_session_id e) (pk_flow p) (pk_ts p))
          as (_ & Hnf & _).
        rewrite Hfl, Hnf.
        apply NoDup_app. split; [exact Hnd|]. split; [|apply NoDup_singleton].
        intros x Hx Hin. apply list_elem_of_singleton in Hin. subst x.
        now apply find_session_None in Hfind.
      * now destruct Hss as [-> _].
  - destruct (add_rule_sessions rc e r) as (Hs & _). now rewrite Hs.
  - destruct (remove_rule_sessions e id) as (Hs & _). now rewrite Hs.
  - destruct (get_alerts_sessions e dst mx cl) as (Hs & _). now rewrite Hs.
  - destruct (set_tls_mode_sessions e f m) as (Hs & _). now rewrite Hs.
  - destruct (terminate_cases e f) as (_ & _ & _ & _ & _ & _ & _ & Hss).
    destruct (find_session (sessions (eng_sessions e)) f) as [i|] eqn:Hfind.
    + destruct Hss as [_ ->]. rewrite list_fmap_delete.
      exact (sublist_NoDup _ _ Hnd (sublist_delete _ i)).
    + now destruct Hss as [_ ->].
Qed.

Lemma run_sessions_nodup h cfg e calls :
  dpi_init h cfg = Some e ->
  NoDup (flow <$> (dpi_run e calls).(eng_sessions).(sessions)).
Proof.
  intros Hinit.
  apply (run_invariant
           (fun e => NoDup (flow <$> e.(eng_sessions).(sessions))));
    [exact step_sessions_nodup|].
  destruct (dpi_init_engine h cfg e Hinit) as (_ & -> & _). constructor.
Qed.

Lemma lookup_session_insert_other ss i s s' f2 :
  ss !! i = Some s -> flow s' = flow s -> flow s <> f2 ->
  lookup_session (<[i := s']> ss) f2 = lookup_session ss f2.
Proof.
  intros Hs Hfl Hne. unfold lookup_session.
  rewrite (find_session_insert ss i s s' f2 Hs Hfl).
  destruct (find_session ss f2) as [j|] eqn:Hfind; [|reflexivity].
  destruct (find_session_Some _ _ _ Hfind) as (sj & Hj & Hfj).
  apply list_lookup_insert_ne. intros ->. congruence.
Qed.

Lemma lookup_session_insert_self ss i s s' :
  find_session ss (flow s) = Some i -> ss !! i = Some s -> flow s' = flow s ->
  lookup_session (<[i := s']> ss) (flow s) = Some s'.
Proof.
  intros Hfind Hs Hfl. unfold lookup_session.
  rewrite (find_session_insert ss i s s' (flow s) Hs Hfl), Hfind.
  apply list_lookup_insert_eq. now apply lookup_lt_Some in Hs.
Qed.

Lemma lookup_session_app_other ss s f2 :
  flow s <> f2 -> lookup_session (ss ++ [s]) f2 = lookup_session ss f2.
Proof.
  intros Hne. unfold lookup_session.
  destruct (find_session ss f2) as [j|] eqn:Hfind.
  - rewrite (find_session_app_l ss [s] f2 j Hfind).
    apply lookup_app_l. exact (find_session_lt _ _ _ Hfind).
  - rewrite find_session_app_new by exact Hfind.
    now rewrite (proj2 (flow_tuple_equal_neq (flow s) f2) Hne).
Qed.

Lemma lookup_session_app_self ss s :
  find_session ss (flow s) = None ->
  lookup_session (ss ++ [s]) (flow s) = Some s.
Proof.
  intros Hfind. unfold lookup_session.
  rewrite find_session_app_new by exact Hfind.
  rewrite (proj2 (flow_tuple_equal_eq (flow s) (flow s)) eq_refl).
  rewrite lookup_app_r by lia. now rewrite Nat.sub_diag.
Qed.

(** X7. A packet of nonzero length on a tuple that has no session, with
    room in the table and [calloc] succeeding, creates the session: it gets
    the id [next_session_id], which moves on by one; it is created and last
    seen at the packet's timestamp, holds one packet and the packet's
    bytes and is ESTABLISHED; the sessions of other tuples are untouched
    and [active_sessions] is the new count. *)
Theorem process_packet_creates_session (h : heap) (e : dpi_engine_t)
    (f : dpi_flow_tuple_t) (data : list Z) (len ts r : Z) :
  len <> 0 ->
  dpi_get_session (Some e) (Some f) = None ->
  count e.(eng_sessions) < e.(eng_sessions).(capacity) ->
  fst (alloc h) = true ->
  exists e' s',
    dpi_process_packet h (Some e) (Some f) (Some data) len ts r None
    = (Some e', 0, None) /\
    dpi_get_session (Some e') (Some f) = Some s' /\
    s'.(session_id) = e.(next_session_id) /\
    e'.(next_session_id) = u64 (e.(next_session_id) + 1) /\
    s'.(created_ns) = ts /\ s'.(last_seen_ns) = ts /\
    s'.(packets_seen) = 1 /\ s'.(total_bytes) = u64 len /\
    s'.(state) = DPI_STATE_ESTABLISHED /\
    count e'.(eng_sessions) = count e.(eng_sessions) + 1 /\
    e'.(stats).(active_sessions) = count e.(eng_sessions) + 1 /\
    (forall f2, f2 <> f ->
       dpi_get_session (Some e') (Some f2) = dpi_get_session (Some e) (Some f2)).
Proof.
  intros Hnz Hnone Hroom Halloc.
  rewrite get_session_lookup in Hnone. apply lookup_session_None in Hnone.
  destruct (process_packet_cases h e f data len ts r None Hnz)
    as (e' & Heq & _ & _ & _ & _ & _ & Hst & Hss).
  rewrite Hnone, Halloc, (proj2 (Z.ltb_lt _ _) Hroom) in Hss.
  cbn [andb] in Hss. cbv zeta in Hss. destruct Hss as [Hss Hnext].
  set (created := new_session (snd (alloc h)) (next_session_id e) f ts) in *.
  set (s' := fst (session_packet (snd created) (config e) (fst created)
                    f data len ts r)) in *.
  destruct (session_packet_frame (snd created) (config e) (fst created)
              f data len ts r)
    as (Hid & Hfl & Hcr & Hls & Hps & Htb & Hstate).
  fold s' in Hid, Hfl, Hcr, Hls, Hps, Htb, Hstate.
  destruct (new_session_fields (snd (alloc h)) (next_session_id e) f ts)
    as (Nid & Nfl & Nst & _ & _ & _ & _ & _ & _ & Ncr & Nps & Ntb).
  fold created in Nid, Nfl, Nst, Ncr, Nps, Ntb.
  assert (Hcount : count (eng_sessions e') = count (eng_sessions e) + 1).
  { unfold count. rewrite Hss, length_app. cbn [length]. lia. }
  exists e', s'. split; [exact Heq|].
  rewrite get_session_lookup, Hss.
  assert (Hfs : flow s' = f) by congruence.
  split.
  { pose proof (lookup_session_app_self (sessions (eng_sessions e)) s') as H.
    rewrite Hfs in H. exact (H Hnone). }
  repeat split; try congruence.
  - rewrite Hps, Nps. reflexivity.
  - rewrite Htb, Ntb. reflexivity.
  - rewrite Hstate, Nst. reflexivity.
  - rewrite Hst. cbn [stats_packet active_sessions]. exact Hcount.
  - intros f2 Hne. rewrite !get_session_lookup, Hss.
    apply lookup_session_app_other. congruence.
Qed.

Lemma process_packet_creates_session_witness :
  exists e' s',
    dpi_process_packet [] (Some fresh_engine) (Some web_flow)
      (Some get_index_payload) 32 1000 0 None = (Some e', 0, None) /\
    dpi_get_session (Some e') (Some web_flow) = Some s' /\
    s'.(session_id) = 1.
Proof.
  destruct (process_packet_creates_session [] fresh_engine web_flow
              get_index_payload 32 1000 0) as (e' & s' & H1 & H2 & H3 & _).
  - lia.
  - reflexivity.
  - vm_compute. reflexivity.
  - reflexivity.
  - exists e', s'. repeat split; assumption.
Defined.

(** X8. A packet of nonzero length on a tuple that has a session, in an
    engine of nonzero capacity, updates that session and no other: same id and creation time, one more packet
    (modulo 2^32), the packet's bytes added (modulo 2^64), last seen at the
    packet's timestamp; no session is created and no id used.  If the
    session was already classified, its protocol and its parsed records
    are left as they are, whatever the payload. *)
Theorem process_packet_updates_session (h : heap) (e : dpi_engine_t)
    (f : dpi_flow_tuple_t) (data : list Z) (len ts r : Z)
    (s : dpi_session_t) :
  len <> 0 ->
  e.(eng_sessions).(capacity) <> 0 ->
  dpi_get_session (Some e) (Some f) = Some s ->
  exists e' s',
    dpi_process_packet h (Some e) (Some f) (Some data) len ts r None
    = (Some e', 0, None) /\
    dpi_get_session (Some e') (Some f) = Some s' /\
    s'.(session_id) = s.(session_id) /\ s'.(created_ns) = s.(created_ns) /\
    s'.(last_seen_ns) = ts /\
    s'.(packets_seen) = u32 (s.(packets_seen) + 1) /\
    s'.(total_bytes) = u64 (s.(total_bytes) + len) /\
    (s.(sess_protocol).(pr_protocol) <> DPI_PROTO_UNKNOWN ->
     s'.(sess_protocol) = s.(sess_protocol) /\
     s'.(http_data) = s.(http_data) /\ s'.(dns_data) = s.(dns_data) /\
     s'.(tls_data) = s.(tls_data)) /\
    count e'.(eng_sessions) = count e.(eng_sessions) /\
    e'.(next_session_id) = e.(next_session_id) /\
    (forall f2, f2 <> f ->
       dpi_get_session (Some e') (Some f2) = dpi_get_session (Some e) (Some f2)).
Proof.
  intros Hnz _ Hsome.
  rewrite get_session_lookup in Hsome.
  pose proof (lookup_session_flow _ _ _ Hsome) as Hfl.
  unfold lookup_session in Hsome.
  destruct (process_packet_cases h e f data len ts r None Hnz)
    as (e' & Heq & _ & _ & _ & _ & _ & _ & Hss).
  destruct (find_session (sessions (eng_sessions e)) f) as [i|] eqn:Hfind;
    [|discriminate].
  destruct Hss as (s0 & Hs0 & _ & Hss & Hnext).
  assert (s0 = s) by congruence. subst s0.
  set (s' := fst (session_packet h (config e) s f data len ts r)) in *.
  destruct (session_packet_frame h (config e) s f data len ts r)
    as (Hid & Hfl' & Hcr & Hls & Hps & Htb & _).
  fold s' in Hid, Hfl', Hcr, Hls, Hps, Htb.
  exists e', s'. split; [exact Heq|].
  rewrite get_session_lookup, Hss.
  split.
  { pose proof (lookup_session_insert_self (sessions (eng_sessions e)) i s s')
      as H.
    rewrite Hfl in H. apply H; congruence. }
  repeat split; try assumption.
  - now apply session_packet_classified, is_unknown_false.
  - now apply session_packet_classified, is_unknown_false.
  - now apply session_packet_classified, is_unknown_false.
  - now apply session_packet_classified, is_unknown_false.
  - unfold count. now rewrite Hss, length_insert.
  - intros f2 Hne. rewrite !get_session_lookup, Hss.
    apply (lookup_session_insert_other _ i s); congruence.
Qed.

Lemma process_packet_updates_session_witness :
  exists e' s',
    dpi_process_packet [] (Some engine_one_packet) (Some web_flow)
      (Some tls_hello_payload) 5 2000 0 None = (Some e', 0, None) /\
    dpi_get_session (Some e') (Some web_flow) = Some s' /\
    s'.(packets_seen) = u32 (1 + 1) /\
    s'.(sess_protocol) = web_session_1.(sess_protocol).
Proof.
  destruct (process_packet_updates_session [] engine_one_packet web_flow
              tls_hello_payload 5 2000 0 web_session_1)
    as (e' & s' & H1 & H2 & _ & _ & _ & H3 & _ & H4 & _).
  - lia.
  - vm_compute. discriminate.
  - vm_compute. reflexivity.
  - exists e', s'. repeat split; try assumption.
    apply H4. discriminate.
Defined.


(** X9. A packet of nonzero length on a tuple that has no session, in an
    engine of nonzero capacity, is not tracked when the table is full or
    [calloc] fails: the sessions and
    [next_session_id] stay as they are and the call returns 0 like any
    other; the packet and its bytes are counted in the statistics all the
    same. *)
Theorem process_packet_untracked (h : heap) (e : dpi_engine_t)
    (f : dpi_flow_tuple_t) (data : list Z) (len ts r : Z) :
  len <> 0 ->
  e.(eng_sessions).(capacity) <> 0 ->
  dpi_get_session (Some e) (Some f) = None ->
  e.(eng_sessions).(capacity) <= count e.(eng_sessions)
  \/ fst (alloc h) = false ->
  exists e',
    dpi_process_packet h (Some e) (Some f) (Some data) len ts r None
    = (Some e', 0, None) /\
    e'.(eng_sessions) = e.(eng_sessions) /\
    e'.(next_session_id) = e.(next_session_id) /\
    dpi_get_session (Some e') (Some f) = None /\
    e'.(stats).(packets_processed) = u64 (e.(stats).(packets_processed) + 1) /\
    e'.(stats).(bytes_processed) = u64 (e.(stats).(bytes_processed) + len).
Proof.
  intros Hnz _ Hnone Hfull.
  pose proof Hnone as Hnone'.
  rewrite get_session_lookup in Hnone. apply lookup_session_None in Hnone.
  destruct (process_packet_cases h e f data len ts r None Hnz)
    as (e' & Heq & _ & _ & _ & _ & Hcap & Hst & Hss).
  rewrite Hnone in Hss.
  assert (Hcond : (count (eng_sessions e) <? capacity (eng_sessions e))
                  && fst (alloc h) = false).
  { destruct Hfull as [Hfull| ->]; [|apply andb_false_r].
    now rewrite (proj2 (Z.ltb_ge _ _) Hfull). }
  rewrite Hcond in Hss. destruct Hss as [Hss Hnext].
  assert (Htbl : eng_sessions e' = eng_sessions e).
  { destruct (eng_sessions e'), (eng_sessions e). cbn in *. congruence. }
  exists e'. split; [exact Heq|]. split; [exact Htbl|].
  split; [exact Hnext|]. split.
  { rewrite get_session_lookup, Htbl, <- get_session_lookup. exact Hnone'. }
  rewrite Hst. split; reflexivity.
Qed.

Lemma process_packet_untracked_witness :
  exists e',
    dpi_process_packet [false] (Some fresh_engine) (Some web_flow)
      (Some get_index_payload) 32 1000 0 None = (Some e', 0, None) /\
    e'.(eng_sessions) = fresh_engine.(eng_sessions) /\
    e'.(stats).(packets_processed) = u64 (0 + 1).
Proof.
  destruct (process_packet_untracked [false] fresh_engine web_flow
              get_index_payload 32 1000 0)
    as (e' & H1 & H2 & _ & _ & H3 & _).
  - lia.
  - vm_compute. discriminate.
  - reflexivity.
  - right. reflexivity.
  - exists e'. repeat split; assumption.
Defined.

(** X10. [dpi_terminate_session] on an engine reached by any run of calls
    from [dpi_init] with a nonzero [max_concurrent_sessions]: for a tuple without a session it returns -1 and
    changes nothing; for a tuple with a session it returns 0, the tuple has
    no session afterwards, the sessions of the other tuples are as before
    and the array is one shorter.  The statistics are not touched:
    [flows_terminated] is not incremented and [active_sessions] keeps the
    count of the last packet. *)
Theorem terminate_session_removes (h : heap) (cfg : dpi_config_t)
    (e0 : dpi_engine_t) (calls : list dpi_call) (f : dpi_flow_tuple_t) :
  dpi_init h cfg = Some e0 ->
  0 < cfg.(max_concurrent_sessions) ->
  let e := dpi_run e0 calls in
  match dpi_get_session (Some e) (Some f) with
  | None => dpi_terminate_session (Some e) (Some f) = (Some e, -1)
  | Some _ =>
      exists e',
        dpi_terminate_session (Some e) (Some f) = (Some e', 0) /\
        dpi_get_session (Some e') (Some f) = None /\
        (forall f2, f2 <> f ->
           dpi_get_session (Some e') (Some f2)
           = dpi_get_session (Some e) (Some f2)) /\
        count e'.(eng_sessions) = count e.(eng_sessions) - 1 /\
        e'.(stats) = e.(stats) /\
        e'.(next_session_id) = e.(next_session_id)
  end.
Proof.
  intros Hinit _ e.
  pose proof (run_sessions_nodup h cfg e0 calls Hinit) as Hnd. fold e in Hnd.
  destruct (terminate_cases e f) as (_ & _ & Hst & _ & Hnext & _ & _ & Hss).
  rewrite get_session_lookup. unfold lookup_session.
  destruct (find_session (sessions (eng_sessions e)) f) as [i|] eqn:Hfind.
  - destruct (find_session_Some _ _ _ Hfind) as (s & Hs & Hfl). rewrite Hs.
    destruct Hss as [Heq Hss]. eexists. split; [exact Heq|].
    rewrite get_session_lookup, Hss. split.
    { apply lookup_session_None. now apply find_session_delete. }
    split.
    { intros f2 Hne. rewrite !get_session_lookup, Hss.
      now apply (lookup_session_delete_other _ i f). }
    split; [|split; assumption].
    unfold count. rewrite Hss.
    rewrite length_delete by (now exists s).
    apply lookup_lt_Some in Hs. lia.
  - now destruct Hss as [Heq _].
Qed.

Lemma terminate_session_removes_witness :
  exists e',
    dpi_terminate_session (Some (dpi_run fresh_engine
                                   (firstn 6 sample_run))) (Some web_flow)
    = (Some e', 0) /\
    dpi_get_session (Some e') (Some web_flow) = None.
Proof.
  assert (Hmax : 0 < default_config.(max_concurrent_sessions))
    by (cbn; lia).
  pose proof (terminate_session_removes [] default_config fresh_engine
                (firstn 6 sample_run) web_flow eq_refl Hmax) as H.
  cbv zeta in H.
  destruct (dpi_get_session (Some (dpi_run fresh_engine (firstn 6 sample_run)))
              (Some web_flow)) eqn:E.
  - destruct H as (e' & H1 & H2 & _). exists e'. split; assumption.
  - vm_compute in E. discriminate E.
Defined.

Lemma step_classification e c f s :
  lookup_session e.(eng_sessions).(sessions) f = Some s ->
  s.(sess_protocol).(pr_protocol) <> DPI_PROTO_UNKNOWN ->
  c <> CallTerminate f ->
  exists s',
    lookup_session (dpi_step e c).(eng_sessions).(sessions) f = Some s' /\
    same_classification s s'.
Proof.
  intros Hs Hknown Hc.
  assert (Hrefl : same_classification s s) by (repeat split).
  destruct c as [p|rc r|id|dst mx cl|f2 m|f2]; cbn [dpi_step].
  - destruct (Z.eq_dec (pk_len p) 0) as [Hz|Hnz].
    { rewrite process_call_zero_len by exact Hz. eauto. }
    rewrite process_call_unfold.
    destruct (process_packet_cases (pk_heap p) e (pk_flow p) (pk_data p)
                (pk_len p) (pk_ts p) (pk_is_response p) None Hnz)
      as (e' & -> & _ & _ & _ & _ & _ & _ & Hss).
    cbn [fst default from_option id].
    destruct (find_session (sessions (eng_sessions e)) (pk_flow p)) as [i|]
      eqn:Hfind.
    + destruct Hss as (s0 & Hs0 & Hf0 & -> & _).
      destruct (session_packet_frame (pk_heap p) (config e) s0 (pk_flow p)
                  (pk_data p) (pk_len p) (pk_ts p) (pk_is_response p))
        as (Hid & Hfl & _).
      destruct (flow_tuple_equal (pk_flow p) f) eqn:Hcmp;
        [apply flow_tuple_equal_eq in Hcmp as Heq
        |apply flow_tuple_equal_neq in Hcmp as Hne].
      * assert (s0 = s).
        { unfold lookup_session in Hs. rewrite <- Heq, Hfind in Hs.
          congruence. }
        subst s0.
        set (s' := fst (session_packet _ _ _ _ _ _ _ _)) in *.
        exists s'. split.
        -- pose proof (lookup_session_insert_self
                         (sessions (eng_sessions e)) i s s') as H.
           rewrite Hf0, Heq in H. apply H; congruence.
        -- split; [exact Hid|]. subst s'.
           now apply session_packet_classified, is_unknown_false.
      * exists s. split; [|exact Hrefl]. rewrite <- Hs.
        apply (lookup_session_insert_other _ i s0); congruence.
    + destruct (_ && _).
      * cbv zeta in Hss. destruct Hss as [-> _].
        exists s. split; [|exact Hrefl]. rewrite <- Hs.
        apply lookup_session_app_other.
        destruct (session_packet_frame
                    (snd (new_session (snd (alloc (pk_heap p)))
                            (next_session_id e) (pk_flow p) (pk_ts p)))
                    (config e)
                    (fst (new_session (snd (alloc (pk_heap p)))
                            (next_session_id e) (pk_flow p) (pk_ts p)))
                    (pk_flow p) (pk_data p) (pk_len p) (pk_ts p)
                    (pk_is_response p)) as (_ & -> & _).
        destruct (new_session_fields (snd (alloc (pk_heap p)))
                    (next_session_id e) (pk_flow p) (pk_ts p))
          as (_ & -> & _).
        intros <-. apply lookup_session_None in Hfind. congruence.
      * destruct Hss as [-> _]. eauto.
  - destruct (add_rule_sessions rc e r) as (-> & _). eauto.
  - destruct (remove_rule_sessions e id) as (-> & _). eauto.
  - destruct (get_alerts_sessions e dst mx cl) as (-> & _). eauto.
  - destruct (set_tls_mode_sessions e f2 m) as (-> & _). eauto.
  - destruct (terminate_cases e f2) as (_ & _ & _ & _ & _ & _ & _ & Hss).
    destruct (find_session (sessions (eng_sessions e)) f2) as [i|] eqn:Hfind.
    + destruct Hss as [_ ->]. exists s. split; [|exact Hrefl]. rewrite <- Hs.
      apply (lookup_session_delete_other _ i f2); congruence.
    + destruct Hss as [_ ->]. eauto.
Qed.

(** X11. The classification of a session is final: once a tuple has a
    session with a protocol other than UNKNOWN, in an engine of nonzero
    capacity, any run of calls that does
    not terminate that tuple's session leaves it with the same id, the same
    protocol result and the same parsed records, whatever payloads the
    later packets carry. *)
Theorem classification_is_final (e : dpi_engine_t) (f : dpi_flow_tuple_t)
    (s : dpi_session_t) (calls : list dpi_call) :
  e.(eng_sessions).(capacity) <> 0 ->
  dpi_get_session (Some e) (Some f) = Some s ->
  s.(sess_protocol).(pr_protocol) <> DPI_PROTO_UNKNOWN ->
  Forall (fun c => c <> CallTerminate f) calls ->
  exists s',
    dpi_get_session (Some (dpi_run e calls)) (Some f) = Some s' /\
    s'.(session_id) = s.(session_id) /\
    s'.(sess_protocol) = s.(sess_protocol) /\
    s'.(http_data) = s.(http_data) /\ s'.(dns_data) = s.(dns_data) /\
    s'.(tls_data) = s.(tls_data).
Proof.
  intros _ Hs Hknown Hcalls. rewrite get_session_lookup in Hs.
  revert e s Hs Hknown.
  induction Hcalls as [|c calls Hc _ IH]; intros e s Hs Hknown.
  - exists s. rewrite get_session_lookup. repeat split. exact Hs.
  - destruct (step_classification e c f s Hs Hknown Hc)
      as (s1 & Hs1 & Hid & Hp & Hh & Hd & Ht).
    destruct (IH (dpi_step e c) s1 Hs1) as (s' & Hs' & Hsame);
      [congruence|].
    exists s'. split; [exact Hs'|].
    destruct Hsame as (-> & -> & -> & -> & ->). repeat split; assumption.
Qed.

Lemma classification_is_final_witness :
  exists s',
    dpi_get_session
      (Some (dpi_run engine_one_packet
               [CallProcess (mkPacket [] web_flow tls_hello_payload 5 2000 0);
                CallTerminate tls_flow;
                CallProcess (mkPacket [] web_flow dns_query_payload 12 3000 1)]))
      (Some web_flow) = Some s' /\
    s'.(sess_protocol) = web_session_1.(sess_protocol).
Proof.
  destruct (classification_is_final engine_one_packet web_flow web_session_1
              [CallProcess (mkPacket [] web_flow tls_hello_payload 5 2000 0);
               CallTerminate tls_flow;
               CallProcess (mkPacket [] web_flow dns_query_payload 12 3000 1)])
    as (s' & H1 & _ & H2 & _).
  - vm_compute. discriminate.
  - vm_compute. reflexivity.
  - discriminate.
  - repeat constructor; discriminate.
  - exists s'. split; assumption.
Defined.

(** ** Anomalies and classification of one packet *)

(** The C string at [data] is the payload of [n] bytes when the payload
    holds no NUL and a NUL follows it (or the bytes end there). *)
Lemma c_str_payload data : forall n,
  Forall (fun b => b <> 0) (take n data) ->
  (length data <= n)%nat \/ data !! n = Some 0 ->
  c_str data = take n data.
Proof.
  induction data as [|b d IH]; intros n Hnz Hend; [now destruct n|].
  destruct n as [|m].
  - destruct Hend as [Hlen|Hz]; [cbn in Hlen; lia|].
    injection Hz as ->. reflexivity.
  - cbn [take] in Hnz. apply Forall_cons in Hnz as [Hb Hnz].
    cbn [c_str take]. destruct (Z.eqb_spec b 0) as [|_]; [contradiction|].
    f_equal. apply IH; [exact Hnz|].
    destruct Hend as [Hlen|Hz]; [left; cbn in Hlen; lia|right; exact Hz].
Qed.

(** X12. [detect_anomalies] records at most one anomaly per packet, and
    only on a session classified HTTP.  The three checks override each
    other in the order of the code: a destination port other than 80 and
    8080 gives type 3 (severity 4) whatever else holds; otherwise type 2
    (severity 3) when "User-Agent: " occurs in the C string at [data];
    otherwise a packet longer than 8192 bytes gives type 1 (severity 5);
    otherwise, and on every session that is not HTTP, the session is left
    as it is.  The search for "User-Agent: " is [strstr] on [data], which
    does not take [len]: it reads the bytes before the first NUL, so a
    marker after a NUL inside the payload is not seen and one in the bytes
    that follow the payload is.  That string is the payload itself when
    the [len] bytes hold no NUL and a NUL follows them. *)
Theorem detect_anomalies_priority (h : heap) (s : dpi_session_t)
    (data : list Z) (len r : Z) :
  0 <= s.(anomaly_count) < 10 ->
  fst (alloc h) = true ->
  let s' := fst (detect_anomalies h s data len r) in
  let port := s.(flow).(dst_port) in
  (if negb (proto_eqb s.(sess_protocol).(pr_protocol) DPI_PROTO_HTTP)
   then s' = s
   else if negb (port =? 80) && negb (port =? 8080)
   then records_anomaly s s' 3 4
   else if strstr_found (c_str data) (lit "User-Agent: ")
   then records_anomaly s s' 2 3
   else if 8192 <? len
   then records_anomaly s s' 1 5
   else s' = s) /\
  (Forall (fun b => b <> 0) (take (Z.to_nat len) data) ->
   (length data <= Z.to_nat len)%nat \/ data !! Z.to_nat len = Some 0 ->
   c_str data = take (Z.to_nat len) data).
Proof.
  intros Hc Halloc. cbv zeta. split; [|apply c_str_payload].
  unfold detect_anomalies.
  destruct (Z.leb_spec 10 (anomaly_count s)) as [|_]; [lia|].
  assert (Hu : u32 (anomaly_count s + 1) = anomaly_count s + 1)
    by (apply u32_small; lia).
  destruct (alloc h) as [ok h'] eqn:Ha. cbn [fst] in Halloc. subst ok.
  destruct (proto_eqb (pr_protocol (sess_protocol s)) DPI_PROTO_HTTP);
    cbn [negb andb]; [|reflexivity].
  destruct (negb (dst_port (flow s) =? 80) && negb (dst_port (flow s) =? 8080)).
  { cbn [anomaly_type Z.eqb negb fst]. eexists.
    cbn [session_set_anomalies anomalies anomaly_count].
    rewrite Hu. repeat split; reflexivity. }
  destruct (strstr_found (c_str data) (lit "User-Agent: ")).
  { cbn [anomaly_type Z.eqb negb fst]. eexists.
    cbn [session_set_anomalies anomalies anomaly_count].
    rewrite Hu. repeat split; reflexivity. }
  destruct (8192 <? len).
  { cbn [anomaly_type Z.eqb negb fst]. eexists.
    cbn [session_set_anomalies anomalies anomaly_count].
    rewrite Hu. repeat split; reflexivity. }
  reflexivity.
Qed.

Lemma detect_anomalies_priority_witness :
  records_anomaly web_session_1
    (fst (detect_anomalies [] web_session_1 get_agent_payload 40 0)) 2 3 /\
  c_str get_agent_payload = take 40 get_agent_payload.
Proof.
  destruct (detect_anomalies_priority [] web_session_1 get_agent_payload 40 0)
    as [H1 H2].
  - cbn. lia.
  - reflexivity.
  - split; [exact H1|]. apply H2.
    + vm_compute. repeat (constructor; [discriminate|]). constructor.
    + right. reflexivity.
Defined.

(** The two ways the C string at [data] differs from the payload, on
    [web_session_1], an HTTP session to port 80.  A NUL inside the payload
    hides the marker behind it: no anomaly is recorded.  A marker in the
    bytes after a payload of 4 bytes that no NUL closes is found: a type 2
    anomaly is recorded. *)
Example detect_anomalies_reads_c_string :
  let hidden := lit "GET /" ++ [0] ++ lit "User-Agent: x" in
  let beyond := lit "GET " ++ lit "User-Agent: x" in
  fst (detect_anomalies [] web_session_1 hidden 19 0) = web_session_1 /\
  strstr_found (take 19 hidden) (lit "User-Agent: ") = true /\
  strstr_found (take 4 beyond) (lit "User-Agent: ") = false /\
  (fst (detect_anomalies [] web_session_1 beyond 4 0)).(anomaly_count) = 1 /\
  anomaly_type <$> (fst (detect_anomalies [] web_session_1 beyond 4 0)).(anomalies)
  = [2].
Proof. vm_compute. repeat split. Qed.

Lemma alloc_heap_ok h :
  heap_ok h -> fst (alloc h) = true /\ heap_ok (snd (alloc h)).
Proof.
  intros Hh. destruct h as [|ok h]; [split; [reflexivity|constructor]|].
  apply Forall_cons in Hh as [-> Hh]. split; [reflexivity|exact Hh].
Qed.

Lemma new_session_heap_ok h id f ts :
  heap_ok h -> heap_ok (snd (new_session h id f ts)).
Proof.
  intros Hh. unfold new_session.
  destruct (alloc_heap_ok h Hh) as [_ Hh1].
  destruct (alloc h) as [fwd h1]. cbn [snd] in Hh1.
  destruct (alloc_heap_ok h1 Hh1) as [_ Hh2].
  destruct (alloc h1) as [rev h2]. exact Hh2.
Qed.

(** A session of unknown protocol is classified by the packet: the
    protocol and the records are those the cascade leaves. *)
Lemma session_packet_unknown h cfg s f data len ts r :
  is_unknown s.(sess_protocol).(pr_protocol) = true -> 0 < len ->
  let c := fst (classify h (session_touch s ts len) f data len) in
  let s' := fst (session_packet h cfg s f data len ts r) in
  s'.(sess_protocol) = c.(sess_protocol) /\
  s'.(http_data) = c.(http_data) /\ s'.(dns_data) = c.(dns_data) /\
  s'.(tls_data) = c.(tls_data).
Proof.
  intros Hu Hlen. unfold session_packet.
  set (s1 := session_touch s ts len).
  change (pr_protocol (sess_protocol s1)) with (pr_protocol (sess_protocol s)).
  rewrite Hu, (proj2 (Z.ltb_lt 0 len) Hlen). cbn [andb].
  destruct (classify h s1 f data len) as [s2 h2]. cbn [fst].
  pose proof (established_state_frame s2) as H3. cbv zeta in H3.
  set (s3 := match state s2 with
             | DPI_STATE_NEW => session_set_state s2 DPI_STATE_ESTABLISHED
             | _ => s2
             end) in *.
  destruct (negb (enable_anomaly_detection cfg =? 0)).
  - pose proof (detect_anomalies_frame h2 s3 data len r) as H4.
    cbv zeta in H4.
    destruct (detect_anomalies h2 s3 data len r) as [s4 h4]. cbn [fst] in *.
    intuition congruence.
  - cbn [fst]. intuition congruence.
Qed.

(** With 12 bytes or more and memory at hand the cascade stops at its
    first or at its second dissector. *)
Lemma classify_long h s f data len :
  12 <= len -> heap_ok h ->
  let s' := fst (classify h s f data len) in
  s'.(tls_data) = s.(tls_data) /\
  if http_method_prefix data || (strncmp data (lit "HTTP/") 5 =? 0)
  then s'.(sess_protocol).(pr_protocol) = DPI_PROTO_HTTP /\
       s'.(http_data) = snd (fst (dissect_http h data len)) /\
       s'.(http_data) <> None /\ s'.(dns_data) = s.(dns_data)
  else s'.(sess_protocol).(pr_protocol) = DPI_PROTO_DNS /\
       s'.(http_data) = s.(http_data) /\
       s'.(dns_data) = snd (fst (dissect_dns h data len)) /\
       s'.(dns_data) <> None.
Proof.
  intros Hlen Hh. destruct (alloc_heap_ok h Hh) as [Ha _].
  unfold classify, dissect_http, dissect_dns.
  destruct (Z.ltb_spec len 7) as [|_]; [lia|].
  destruct (Z.ltb_spec len 12) as [|_]; [lia|].
  destruct (alloc h) as [ok h1] eqn:Ealloc. cbn [fst] in Ha. subst ok.
  cbn [negb].
  destruct (http_method_prefix data); cbn [orb].
  { cbn. repeat split; (reflexivity || discriminate). }
  destruct (strncmp data (lit "HTTP/") 5 =? 0).
  { cbn. repeat split; (reflexivity || discriminate). }
  cbn. rewrite Ealloc. cbn. repeat split; (reflexivity || discriminate).
Qed.

(** X13. The first packet of a tuple, when it has 12 bytes or more and
    every allocation succeeds, is classified by the first two dissectors
    alone: HTTP when the payload starts with one of the seven method
    prefixes or with "HTTP/", DNS in every other case, whatever the
    payload and the ports are.  The TLS, SMTP and SMB dissectors and the
    port table are not reached, and the session holds no TLS record. *)
Theorem long_first_packet_http_or_dns (h : heap) (e : dpi_engine_t)
    (f : dpi_flow_tuple_t) (data : list Z) (len ts r : Z) :
  12 <= len ->
  heap_ok h ->
  dpi_get_session (Some e) (Some f) = None ->
  count e.(eng_sessions) < e.(eng_sessions).(capacity) ->
  exists e' s',
    dpi_process_packet h (Some e) (Some f) (Some data) len ts r None
    = (Some e', 0, None) /\
    dpi_get_session (Some e') (Some f) = Some s' /\
    s'.(tls_data) = None /\
    if http_method_prefix data || (strncmp data (lit "HTTP/") 5 =? 0)
    then s'.(sess_protocol).(pr_protocol) = DPI_PROTO_HTTP /\
         s'.(http_data) <> None /\ s'.(dns_data) = None
    else s'.(sess_protocol).(pr_protocol) = DPI_PROTO_DNS /\
         s'.(http_data) = None /\
         exists d, s'.(dns_data) = Some d /\
           d.(transaction_id)
           = u16 (Z.lor (Z.shiftl (byte_at data 0) 8) (byte_at data 1)) /\
           d.(is_query) = (if Z.land (byte_at data 2) 128 =? 0 then 1 else 0) /\
           d.(response_code) = Z.land (byte_at data 3) 15.
Proof.
  intros Hlen Hh Hnone Hroom.
  rewrite get_session_lookup in Hnone. apply lookup_session_None in Hnone.
  assert (Hnz : len <> 0) by lia.
  destruct (process_packet_cases h e f data len ts r None Hnz)
    as (e' & Heq & _ & _ & _ & _ & _ & _ & Hss).
  destruct (alloc_heap_ok h Hh) as [Ha Hh1].
  rewrite Hnone, Ha, (proj2 (Z.ltb_lt _ _) Hroom) in Hss.
  cbn [andb] in Hss. cbv zeta in Hss. destruct Hss as [Hss _].
  set (created := new_session (snd (alloc h)) (next_session_id e) f ts) in *.
  set (s' := fst (session_packet (snd created) (config e) (fst created)
                    f data len ts r)) in *.
  destruct (session_packet_frame (snd created) (config e) (fst created)
              f data len ts r) as (_ & Hfl & _).
  fold s' in Hfl.
  destruct (new_session_fields (snd (alloc h)) (next_session_id e) f ts)
    as (_ & Nfl & _ & Npr & Nh & Nd & Nt & _).
  fold created in Nfl, Npr, Nh, Nd, Nt.
  assert (Hh2 : heap_ok (snd created))
    by (apply new_session_heap_ok; exact Hh1).
  destruct (session_packet_unknown (snd created) (config e) (fst created)
              f data len ts r) as (Hp & Hhd & Hdd & Htd);
    [now rewrite Npr|lia|].
  fold s' in Hp, Hhd, Hdd, Htd.
  pose proof (classify_long (snd created)
                (session_touch (fst created) ts len) f data len Hlen Hh2)
    as Hcl.
  cbv zeta in Hcl. destruct Hcl as [Hct Hcl].
  exists e', s'. split; [exact Heq|].
  rewrite get_session_lookup, Hss.
  assert (Hfs : flow s' = f) by congruence.
  split.
  { pose proof (lookup_session_app_self (sessions (eng_sessions e)) s') as H.
    rewrite Hfs in H. exact (H Hnone). }
  split; [rewrite Htd, Hct; exact Nt|].
  destruct (http_method_prefix data || (strncmp data (lit "HTTP/") 5 =? 0)).
  - destruct Hcl as (C1 & C2 & C3 & C4).
    rewrite Hp, Hhd, Hdd. repeat split; try assumption.
    rewrite C4. exact Nd.
  - destruct Hcl as (C1 & C2 & C3 & C4).
    rewrite Hp, Hhd, Hdd. split; [exact C1|]. split; [rewrite C2; exact Nh|].
    rewrite C3. unfold dissect_dns.
    destruct (Z.ltb_spec len 12) as [|_]; [lia|].
    destruct (alloc_heap_ok _ Hh2) as [Ha2 _].
    destruct (alloc (snd created)) as [ok h3]. cbn [fst] in Ha2. subst ok.
    cbn. eexists. split; [reflexivity|]. repeat split.
Qed.

Lemma long_first_packet_http_or_dns_witness :
  exists e' s',
    dpi_process_packet [] (Some fresh_engine) (Some tls_flow)
      (Some tls_record_payload) 12 1000 0 None = (Some e', 0, None) /\
    dpi_get_session (Some e') (Some tls_flow) = Some s' /\
    s'.(sess_protocol).(pr_protocol) = DPI_PROTO_DNS.
Proof.
  destruct (long_first_packet_http_or_dns [] fresh_engine tls_flow
              tls_record_payload 12 1000 0) as (e' & s' & H1 & H2 & _ & H3).
  - lia.
  - constructor.
  - reflexivity.
  - vm_compute. reflexivity.
  - exists e', s'. split; [exact H1|]. split; [exact H2|].
    exact (proj1 H3).
Defined.

(** ** The rule table *)

Lemma find_rule_first rs id : forall n i,
  (i + n <= length rs)%nat ->
  find_rule rs id i n
  = option_map (Nat.add i) (first_with_id (take n (drop i rs)) id).
Proof.
  induction n as [|n IH]; intros i Hlen; [reflexivity|].
  destruct (lookup_lt_is_Some_2 rs i) as [x Hx]; [lia|].
  rewrite (drop_S rs x i Hx). cbn [take first_with_id find_rule].
  rewrite Hx. change (default zero_rule (Some x)) with x.
  destruct (rule_id x =? id).
  - cbn. f_equal. lia.
  - rewrite IH by lia.
    destruct (first_with_id (take n (drop (S i) rs)) id); cbn;
      [f_equal; lia|reflexivity].
Qed.

Lemma find_rule_live re id :
  rules_wf re ->
  find_rule re.(rules) id 0 (Z.to_nat re.(rule_count))
  = first_with_id (live_rules re) id.
Proof.
  intros (Hc & _ & Hl & _). rewrite find_rule_first by (cbn; lia).
  unfold live_rules. cbn [drop].
  now destruct (first_with_id _ id).
Qed.

Lemma first_with_id_lt rs id : forall i,
  first_with_id rs id = Some i -> (i < length rs)%nat.
Proof.
  induction rs as [|r rs IH]; intros i; cbn; [discriminate|].
  destruct (rule_id r =? id); [intros [= <-]; lia|].
  destruct (first_with_id rs id) as [j|]; [|discriminate].
  intros [= <-]. specialize (IH j eq_refl). lia.
Qed.

Lemma first_with_id_Some rs id : forall i,
  first_with_id rs id = Some i ->
  (exists r, rs !! i = Some r /\ r.(rule_id) = id) /\
  (forall j r, (j < i)%nat -> rs !! j = Some r -> r.(rule_id) <> id).
Proof.
  induction rs as [|r rs IH]; intros i; cbn [first_with_id]; [discriminate|].
  destruct (Z.eqb_spec (rule_id r) id) as [Heq|Hne].
  - intros [= <-]. split; [exists r; now split|]. intros j r' Hj. lia.
  - destruct (first_with_id rs id) as [k|]; [|discriminate].
    intros [= <-]. destruct (IH k eq_refl) as [Hk Hbefore]. split.
    + exact Hk.
    + intros [|j] r' Hj Hr'.
      * cbn in Hr'. congruence.
      * apply (Hbefore j r'); [lia|exact Hr'].
Qed.


Lemma live_rules_length re :
  rules_wf re -> length (live_rules re) = Z.to_nat re.(rule_count).
Proof.
  intros (Hc & _ & Hl & _). unfold live_rules.
  rewrite length_take. lia.
Qed.

(** The rule engine after a call of [dpi_add_rule]. *)
Lemma add_rule_cases regcomp_ok e r :
  rules_wf e.(eng_rules) ->
  let res := dpi_add_rule regcomp_ok (Some e) (Some r) in
  let re := e.(eng_rules) in
  exists e',
    fst res = Some e' /\ rules_wf e'.(eng_rules) /\
    e'.(eng_rules).(max_rules) = re.(max_rules) /\
    ((snd res = 0 /\ live_rules e'.(eng_rules) = live_rules re /\
      e'.(eng_rules).(rule_count) = re.(rule_count) /\
      (re.(rule_count) = re.(max_rules) \/
       exists p, r.(type) = DPI_RULE_REGEX /\ r.(pattern) = Some p /\
                 regcomp_ok p (Z.lor REG_EXTENDED REG_ICASE) = false)) \/
     (snd res = re.(rule_count) + 1 /\ re.(rule_count) < re.(max_rules) /\
      live_rules e'.(eng_rules)
      = live_rules re ++ [rule_with_id r (re.(rule_count) + 1)] /\
      e'.(eng_rules).(rule_count) = re.(rule_count) + 1)).
Proof.
  intros Hwf. pose proof Hwf as (Hc & Hm & Hl & Hl2). cbv zeta.
  unfold dpi_add_rule.
  destruct (Z.leb_spec (max_rules (eng_rules e)) (rule_count (eng_rules e)))
    as [Hfull|Hroom].
  { exists e. cbn [fst snd]. split; [reflexivity|]. split; [exact Hwf|].
    split; [reflexivity|]. left. repeat split. left. lia. }
  assert (Hu : u32 (rule_count (eng_rules e) + 1)
               = rule_count (eng_rules e) + 1) by (apply u32_small; lia).
  rewrite Hu.
  set (slot := Z.to_nat (rule_count (eng_rules e))).
  set (r' := rule_with_id r (rule_count (eng_rules e) + 1)).
  assert (Hslot : (slot < length (rules (eng_rules e)))%nat)
    by (subst slot; lia).
  assert (Hacc : forall compiled,
            length compiled = Z.to_nat (max_rules (eng_rules e)) ->
            let re' := {| rules := <[slot := r']> (rules (eng_rules e));
                          compiled_regex := compiled;
                          rule_count := rule_count (eng_rules e) + 1;
                          max_rules := max_rules (eng_rules e) |} in
            rules_wf re' /\
            live_rules re' = live_rules (eng_rules e) ++ [r']).
  { intros compiled Hcl re'. split.
    - unfold rules_wf. cbn. rewrite length_insert. repeat split; lia.
    - unfold live_rules. cbn [rule_count rules re'].
      replace (Z.to_nat (rule_count (eng_rules e) + 1)) with (S slot)
        by (subst slot; lia).
      rewrite (take_S_r _ slot r')
        by (now apply list_lookup_insert_eq).
      now rewrite take_insert_ge by lia. }
  assert (Hrej :
            let re' := {| rules := <[slot := r']> (rules (eng_rules e));
                          compiled_regex := compiled_regex (eng_rules e);
                          rule_count := rule_count (eng_rules e);
                          max_rules := max_rules (eng_rules e) |} in
            rules_wf re' /\ live_rules re' = live_rules (eng_rules e)).
  { intros re'. split.
    - unfold rules_wf. cbn. rewrite length_insert. repeat split; lia.
    - unfold live_rules. cbn [rule_count rules re'].
      fold slot. now rewrite take_insert_ge by lia. }
  destruct (type r) eqn:Ht, (pattern r) as [p|] eqn:Hp;
    try (eexists; cbn [fst snd engine_set_rules eng_rules];
         split; [reflexivity|];
         destruct (Hacc (compiled_regex (eng_rules e)) Hl2) as [W L];
         split; [exact W|]; split; [reflexivity|];
         right; repeat split; [lia|exact L]).
  destruct (regcomp_ok p (Z.lor REG_EXTENDED REG_ICASE)) eqn:Hrc.
  - eexists. cbn [fst snd engine_set_rules eng_rules].
    split; [reflexivity|].
    destruct (Hacc (<[slot := Some (mkRegex p (Z.lor REG_EXTENDED REG_ICASE))]>
                      (compiled_regex (eng_rules e)))) as [W L];
      [now rewrite length_insert|].
    split; [exact W|]. split; [reflexivity|].
    right. repeat split; [lia|exact L].
  - eexists. cbn [fst snd engine_set_rules eng_rules].
    split; [reflexivity|]. destruct Hrej as [W L].
    split; [exact W|]. split; [reflexivity|].
    left. repeat split; [exact L|]. right. exists p. now repeat split.
Qed.

Lemma memmove_down_length {A} (a : list A) i n :
  (i + n < length a)%nat -> length (memmove_down a i n) = length a.
Proof.
  intros Hlt. unfold memmove_down.
  rewrite !length_app, !length_take, !length_drop. lia.
Qed.

Lemma memmove_down_take {A} (a : list A) i n :
  (i + n < length a)%nat ->
  take (i + n) (memmove_down a i n) = delete i (take (S (i + n)) a).
Proof.
  intros Hlt. unfold memmove_down.
  rewrite take_app_add' by (rewrite length_take; lia).
  rewrite take_app_length' by (rewrite length_take, length_drop; lia).
  rewrite delete_take_drop, take_take.
  replace (i `min` S (i + n))%nat with i by lia.
  f_equal. change (S (i + n)) with (S i + n)%nat.
  now rewrite <- take_drop_commute.
Qed.

(** The rule engine after a call of [dpi_remove_rule]. *)
Lemma remove_rule_cases e id :
  rules_wf e.(eng_rules) ->
  let re := e.(eng_rules) in
  match (if id =? 0 then None else first_with_id (live_rules re) id) with
  | None => dpi_remove_rule (Some e) id = (Some e, -1)
  | Some i =>
      exists e',
        dpi_remove_rule (Some e) id = (Some e', 0) /\
        rules_wf e'.(eng_rules) /\
        e'.(eng_rules).(max_rules) = re.(max_rules) /\
        live_rules e'.(eng_rules) = delete i (live_rules re) /\
        e'.(eng_rules).(rule_count) = re.(rule_count) - 1
  end.
Proof.
  intros Hwf. pose proof Hwf as (Hc & Hm & Hl & Hl2). cbv zeta.
  unfold dpi_remove_rule. destruct (id =? 0); [reflexivity|].
  rewrite find_rule_live by exact Hwf.
  destruct (first_with_id (live_rules (eng_rules e)) id) as [i|] eqn:Hfirst;
    [|reflexivity].
  pose proof (first_with_id_lt _ _ _ Hfirst) as Hi.
  rewrite live_rules_length in Hi by exact Hwf.
  set (n := Z.to_nat (rule_count (eng_rules e) - Z.of_nat i - 1)).
  assert (Hu : u32 (rule_count (eng_rules e) - 1)
               = rule_count (eng_rules e) - 1) by (apply u32_small; lia).
  assert (Hn : (i + n)%nat = Z.to_nat (rule_count (eng_rules e) - 1))
    by (subst n; lia).
  assert (Hs : S (i + n) = Z.to_nat (rule_count (eng_rules e)))
    by (subst n; lia).
  eexists. split; [reflexivity|].
  cbn [engine_set_rules eng_rules]. rewrite Hu.
  split; [|split; [reflexivity|split; [|reflexivity]]].
  - unfold rules_wf. cbn [rule_count max_rules rules compiled_regex].
    rewrite !memmove_down_length.
    + destruct (type _); rewrite ?length_insert; repeat split; lia.
    + destruct (type _); rewrite ?length_insert; lia.
    + lia.
  - unfold live_rules. cbn [rule_count rules].
    rewrite <- Hn, memmove_down_take by lia. now rewrite Hs.
Qed.

Lemma step_rules e c :
  rules_wf e.(eng_rules) ->
  rules_wf (dpi_step e c).(eng_rules) /\
  (dpi_step e c).(eng_rules).(max_rules) = e.(eng_rules).(max_rules).
Proof.
  intros Hwf.
  assert (Hsame : forall e', eng_rules e' = eng_rules e ->
            rules_wf (eng_rules e') /\
            max_rules (eng_rules e') = max_rules (eng_rules e))
    by (intros e' ->; now split).
  destruct c as [p|rc r|id|dst mx cl|f m|f]; cbn [dpi_step].
  - destruct (Z.eq_dec (pk_len p) 0) as [Hz|Hnz];
      [rewrite process_call_zero_len by exact Hz; now split|].
    rewrite process_call_unfold.
    destruct (process_packet_cases (pk_heap p) e (pk_flow p) (pk_data p)
                (pk_len p) (pk_ts p) (pk_is_response p) None Hnz)
      as (e' & -> & Hr & _). now apply Hsame.
  - destruct (add_rule_cases rc e r Hwf) as (e' & -> & W & M & _).
    now split.
  - pose proof (remove_rule_cases e id Hwf) as H. cbv zeta in H.
    destruct (if id =? 0 then None else _) as [i|].
    + destruct H as (e' & -> & W & M & _). now split.
    + rewrite H. now split.
  - now destruct (get_alerts_sessions e dst mx cl) as (_ & _ & _ & -> & _).
  - now destruct (set_tls_mode_sessions e f m) as (_ & _ & _ & -> & _).
  - now destruct (terminate_cases e f) as (-> & _).
Qed.

Lemma dpi_init_rules_wf h cfg e :
  dpi_init h cfg = Some e ->
  rules_wf e.(eng_rules) /\ e.(eng_rules).(max_rules) = DPI_MAX_RULES /\
  live_rules e.(eng_rules) = [].
Proof.
  intros Hinit. rewrite (dpi_init_rules h cfg e Hinit).
  destruct max_rules_pos as [Hp _].
  assert (DPI_MAX_RULES < 2^32)
    by (now rewrite (eq_refl : DPI_MAX_RULES = 10000)).
  unfold rules_wf, live_rules. cbn. rewrite !length_replicate.
  repeat split; lia.
Qed.

Lemma run_rules h cfg e calls :
  dpi_init h cfg = Some e ->
  rules_wf (dpi_run e calls).(eng_rules) /\
  (dpi_run e calls).(eng_rules).(max_rules) = DPI_MAX_RULES.
Proof.
  intros Hinit.
  destruct (dpi_init_rules_wf h cfg e Hinit) as (W & M & _).
  apply (run_invariant
           (fun e => rules_wf e.(eng_rules) /\
                     e.(eng_rules).(max_rules) = DPI_MAX_RULES));
    [|now split].
  intros e1 c [W1 M1]. destruct (step_rules e1 c W1) as [W2 M2].
  split; [exact W2|congruence].
Qed.



(** The value [dpi_add_rule] returns. *)
Lemma add_rule_result regcomp_ok e r :
  rules_wf e.(eng_rules) ->
  snd (dpi_add_rule regcomp_ok (Some e) (Some r))
  = if (e.(eng_rules).(max_rules) <=? e.(eng_rules).(rule_count))
       || match r.(type), r.(pattern) with
          | DPI_RULE_REGEX, Some p =>
              negb (regcomp_ok p (Z.lor REG_EXTENDED REG_ICASE))
          | _, _ => false
          end
    then 0 else e.(eng_rules).(rule_count) + 1.
Proof.
  intros (Hc & Hm & _). unfold dpi_add_rule.
  destruct (Z.leb_spec (max_rules (eng_rules e)) (rule_count (eng_rules e)))
    as [Hfull|Hroom]; [reflexivity|].
  assert (Hu : u32 (rule_count (eng_rules e) + 1)
               = rule_count (eng_rules e) + 1) by (apply u32_small; lia).
  rewrite Hu. cbn [orb].
  destruct (type r), (pattern r) as [p|]; try reflexivity.
  destruct (regcomp_ok p _); reflexivity.
Qed.

(** X14. [dpi_add_rule] on an engine reached by any run of calls from
    [dpi_init] with a nonzero [max_concurrent_sessions]. When the table
    already holds DPI_MAX_RULES rules, or the rule is a regex rule with a
    pattern that [regcomp] rejects, the call returns 0 and leaves the live
    rules as they are; in every other case it returns [rule_count + 1],
    which is not 0, and appends a copy of the rule carrying that id after
    the live rules. *)
Theorem add_rule_appends_or_refuses (h : heap) (cfg : dpi_config_t)
    (e0 : dpi_engine_t) (calls : list dpi_call)
    (regcomp_ok : string -> Z -> bool) (r : dpi_rule_t) :
  dpi_init h cfg = Some e0 ->
  0 < cfg.(max_concurrent_sessions) ->
  let e := dpi_run e0 calls in
  let res := dpi_add_rule regcomp_ok (Some e) (Some r) in
  let n := e.(eng_rules).(rule_count) in
  let rejected :=
    match r.(type), r.(pattern) with
    | DPI_RULE_REGEX, Some p =>
        negb (regcomp_ok p (Z.lor REG_EXTENDED REG_ICASE))
    | _, _ => false
    end in
  exists e',
    fst res = Some e' /\ 0 <= n <= DPI_MAX_RULES /\
    if (n =? DPI_MAX_RULES) || rejected
    then snd res = 0 /\
         live_rules e'.(eng_rules) = live_rules e.(eng_rules)
    else snd res = n + 1 /\ snd res <> 0 /\
         live_rules e'.(eng_rules)
         = live_rules e.(eng_rules) ++ [rule_with_id r (n + 1)].
Proof.
  intros Hinit _. cbv zeta.
  destruct (run_rules h cfg e0 calls Hinit) as [W M].
  destruct (add_rule_cases regcomp_ok (dpi_run e0 calls) r W)
    as (e' & He' & _ & _ & Hcase).
  pose proof (add_rule_result regcomp_ok (dpi_run e0 calls) r W) as Hres.
  pose proof (proj1 W) as Hn. rewrite M in Hn, Hres.
  exists e'. split; [exact He'|]. split; [exact Hn|].
  assert (Hfull : (DPI_MAX_RULES <=? rule_count (eng_rules (dpi_run e0 calls)))
                  = (rule_count (eng_rules (dpi_run e0 calls))
                     =? DPI_MAX_RULES)).
  { destruct (Z.leb_spec DPI_MAX_RULES
                (rule_count (eng_rules (dpi_run e0 calls))));
      destruct (Z.eqb_spec (rule_count (eng_rules (dpi_run e0 calls)))
                  DPI_MAX_RULES); try reflexivity; lia. }
  rewrite Hfull in Hres.
  destruct ((rule_count (eng_rules (dpi_run e0 calls)) =? DPI_MAX_RULES)
            || _).
  - split; [exact Hres|].
    destruct Hcase as [(_ & H2 & _)|(H1 & _)]; [exact H2|].
    rewrite H1 in Hres. lia.
  - split; [exact Hres|]. split; [rewrite Hres; lia|].
    destruct Hcase as [(H1 & _)|(_ & _ & H3 & _)]; [|exact H3].
    rewrite H1 in Hres. lia.
Qed.

Lemma add_rule_appends_or_refuses_witness :
  let e := dpi_run fresh_engine sample_run in
  (exists e',
     fst (dpi_add_rule regcomp_none (Some e) (Some evil_regex_rule)) = Some e' /\
     snd (dpi_add_rule regcomp_none (Some e) (Some evil_regex_rule)) = 0 /\
     live_rules e'.(eng_rules) = live_rules e.(eng_rules)) /\
  (exists e',
     fst (dpi_add_rule regcomp_any (Some e) (Some evil_regex_rule)) = Some e' /\
     snd (dpi_add_rule regcomp_any (Some e) (Some evil_regex_rule))
     = e.(eng_rules).(rule_count) + 1 /\
     live_rules e'.(eng_rules)
     = live_rules e.(eng_rules)
       ++ [rule_with_id evil_regex_rule (e.(eng_rules).(rule_count) + 1)]).
Proof.
  cbv zeta. split.
  - destruct (add_rule_appends_or_refuses [] default_config fresh_engine
                sample_run regcomp_none evil_regex_rule)
      as (e' & H1 & _ & H3); [reflexivity | cbn; lia |].
    match type of H3 with
    | if ?b then _ else _ =>
        assert (E : b = true) by (vm_compute; reflexivity); rewrite E in H3
    end.
    destruct H3 as [H3 H4].
    exists e'. split; [exact H1|]. split; [exact H3|exact H4].
  - destruct (add_rule_appends_or_refuses [] default_config fresh_engine
                sample_run regcomp_any evil_regex_rule)
      as (e' & H1 & _ & H3); [reflexivity | cbn; lia |].
    match type of H3 with
    | if ?b then _ else _ =>
        assert (E : b = false) by (vm_compute; reflexivity); rewrite E in H3
    end.
    destruct H3 as (H3 & _ & H4).
    exists e'. split; [exact H1|]. split; [exact H3|exact H4].
Defined.



Lemma step_rule_ids_sequential e c :
  rules_wf e.(eng_rules) -> rule_ids_sequential e.(eng_rules) ->
  is_remove_call c = false ->
  rule_ids_sequential (dpi_step e c).(eng_rules).
Proof.
  intros Hwf Hseq Hc.
  assert (Hsame : forall e', eng_rules e' = eng_rules e ->
                             rule_ids_sequential (eng_rules e'))
    by (intros e' ->; exact Hseq).
  destruct c as [p|rc r|id|dst mx cl|f m|f]; cbn [dpi_step];
    try discriminate Hc.
  - destruct (Z.eq_dec (pk_len p) 0) as [Hz|Hnz];
      [now rewrite process_call_zero_len|].
    rewrite process_call_unfold.
    destruct (process_packet_cases (pk_heap p) e (pk_flow p) (pk_data p)
                (pk_len p) (pk_ts p) (pk_is_response p) None Hnz)
      as (e' & -> & Hr & _). now apply Hsame.
  - destruct (add_rule_cases rc e r Hwf) as (e' & -> & _ & _ & Hcase).
    cbn [default from_option Datatypes.id]. unfold rule_ids_sequential in *.
    destruct Hcase as [(_ & -> & _)|(_ & Hlt & -> & _)]; [exact Hseq|].
    intros k r' Hk. apply lookup_app_Some in Hk as [Hk|[Hge Hk]].
    + now apply Hseq.
    + apply list_lookup_singleton_Some in Hk as [Hk0 <-].
      rewrite live_rules_length in Hge, Hk0 by exact Hwf.
      cbn [rule_with_id rule_id]. destruct Hwf as (Hcnt & _). lia.
  - now destruct (get_alerts_sessions e dst mx cl) as (_ & _ & _ & -> & _).
  - now destruct (set_tls_mode_sessions e f m) as (_ & _ & _ & -> & _).
  - now destruct (terminate_cases e f) as (-> & _).
Qed.

(** X16. As long as no rule is removed, rule ids are the positions in the
    table: after any run of calls from [dpi_init] (with a nonzero
    [max_concurrent_sessions]) without a call of [dpi_remove_rule], the
    live rule in slot k carries the id k + 1, so
    no two live rules share an id. *)
Theorem rule_ids_sequential_without_removal (h : heap) (cfg : dpi_config_t)
    (e : dpi_engine_t) (calls : list dpi_call) :
  dpi_init h cfg = Some e ->
  0 < cfg.(max_concurrent_sessions) ->
  Forall (fun c => is_remove_call c = false) calls ->
  let live := live_rules (dpi_run e calls).(eng_rules) in
  (forall k r, live !! k = Some r -> r.(rule_id) = Z.of_nat k + 1) /\
  NoDup (rule_id <$> live).
Proof.
  intros Hinit _ Hcalls.
  destruct (dpi_init_rules_wf h cfg e Hinit) as (W & _ & L).
  assert (Hseq : rules_wf (dpi_run e calls).(eng_rules) /\
                 rule_ids_sequential (dpi_run e calls).(eng_rules)).
  { assert (S0 : rule_ids_sequential (eng_rules e)).
    { unfold rule_ids_sequential. rewrite L. intros k r Hk. discriminate. }
    clear Hinit L. revert e W S0.
    induction Hcalls as [|c calls Hc _ IH]; intros e W S0; [now split|].
    change (dpi_run e (c :: calls)) with (dpi_run (dpi_step e c) calls).
    apply IH; [now apply step_rules|now apply step_rule_ids_sequential]. }
  destruct Hseq as [_ Hseq]. cbv zeta. split; [exact Hseq|].
  apply NoDup_alt. intros i j x Hi Hj.
  rewrite list_lookup_fmap in Hi, Hj.
  destruct (live_rules _ !! i) as [ri|] eqn:Ei; [|discriminate].
  destruct (live_rules _ !! j) as [rj|] eqn:Ej; [|discriminate].
  cbn in Hi, Hj. apply Hseq in Ei, Ej. injection Hi as Hi.
  injection Hj as Hj. lia.
Qed.

Lemma rule_ids_sequential_without_removal_witness :
  NoDup (rule_id <$>
         live_rules (dpi_run fresh_engine (firstn 7 sample_run)).(eng_rules)).
Proof.
  refine (proj2 (rule_ids_sequential_without_removal [] default_config
                   fresh_engine (firstn 7 sample_run) eq_refl _ _)).
  - cbn. lia.
  - repeat constructor.
Defined.

(** ** Reading the alert queue *)

(** X17. On a queue whose cursors lie in the ring, [dpi_get_alerts] with
    [clear_after_read] = 1 and room for [max_alerts] entries returns the
    smaller of [max_alerts] and the number of alerts held, writes that many
    alerts in FIFO order from [head] to the start of the caller's array,
    and leaves the queue holding that many fewer; sessions, rules and
    statistics are not touched. *)
Theorem get_alerts_clear_is_fifo (e : dpi_engine_t) (dst : list dpi_alert_t)
    (max_alerts : Z) :
  queue_wf e.(alerts) ->
  0 < max_alerts ->
  length dst = Z.to_nat max_alerts ->
  let k := Z.min max_alerts (alerts_held e.(alerts)) in
  exists e' dst',
    dpi_get_alerts (Some e) (Some dst) max_alerts 1 = (Some e', Some dst', k) /\
    length dst' = length dst /\
    (forall j, (Z.of_nat j < k) ->
       dst' !! j = Some (queue_nth e.(alerts) j)) /\
    alerts_held e'.(alerts) = alerts_held e.(alerts) - k /\
    e'.(alerts).(tail) = e.(alerts).(tail) /\
    e'.(eng_sessions) = e.(eng_sessions) /\
    e'.(eng_rules) = e.(eng_rules) /\ e'.(stats) = e.(stats).
Proof.
  intros Hwf Hmax Hlen. cbv zeta.
  assert (Hheld : 0 <= alerts_held (alerts e)).
  { unfold alerts_held.
    apply (Z.mod_pos_bound _ (al_capacity (alerts e))). destruct Hwf; lia. }
  unfold dpi_get_alerts.
  destruct (Z.eqb_spec max_alerts 0) as [|_]; [lia|].
  pose proof (get_alerts_loop_drain (Z.to_nat max_alerts) e.(alerts) dst 0 Hwf)
    as H.
  cbv zeta in H.
  destruct (get_alerts_loop (alerts e) 1 dst 0 (Z.to_nat max_alerts))
    as [[q dst'] cnt] eqn:Hloop.
  cbn [fst snd] in H. destruct H as (Hcnt & Hhead & Hh & Hl & Hfifo & _).
  assert (Hk : Z.of_nat cnt = Z.min max_alerts (alerts_held (alerts e)))
    by lia.
  eexists. exists dst'. split; [rewrite Hk; reflexivity|].
  cbn [alerts eng_sessions eng_rules stats].
  split; [exact Hl|]. split.
  { intros j Hj. apply (Hfifo j); lia. }
  split; [lia|]. split; [|repeat split].
  clear - Hloop. revert Hloop.
  generalize (Z.to_nat max_alerts) as n, 0%nat as c, dst as d, (alerts e) as q0.
  induction n as [|n IH]; intros c d q0; cbn [get_alerts_loop].
  - now intros [= <- _ _].
  - destruct (head q0 =? tail q0); [now intros [= <- _ _]|].
    intros Hl. apply IH in Hl. exact Hl.
Qed.

Lemma get_alerts_clear_is_fifo_witness :
  exists e' dst',
    dpi_get_alerts (Some engine_two_alerts) (Some (replicate 3 zero_alert)) 3 1
    = (Some e', Some dst',
       Z.min 3 (alerts_held engine_two_alerts.(alerts))) /\
    alerts_held e'.(alerts)
    = alerts_held engine_two_alerts.(alerts)
      - Z.min 3 (alerts_held engine_two_alerts.(alerts)).
Proof.
  destruct (get_alerts_clear_is_fifo engine_two_alerts
              (replicate 3 zero_alert) 3)
    as (e' & dst' & H1 & _ & _ & H2 & _).
  - vm_compute. repeat split; discriminate.
  - lia.
  - reflexivity.
  - exists e', dst'. split; assumption.
Defined.

(** ** Start-up, ports and the DNS header *)

(** X18. [dpi_init] makes five allocations (engine, session array, rule
    array, regex array, alert queue) and returns NULL exactly when one of
    them fails; the engine it returns otherwise copies the configuration
    and is empty: no session, no live rule, no alert, statistics at zero,
    both id counters at 1. *)
Theorem dpi_init_all_or_nothing (h : heap) (cfg : dpi_config_t) :
  match dpi_init h cfg with
  | None => exists i, (i < 5)%nat /\ h !! i = Some false
  | Some e =>
      (forall i, (i < 5)%nat -> h !! i <> Some false) /\
      e.(config) = cfg /\
      e.(eng_sessions).(sessions) = [] /\
      e.(eng_sessions).(capacity) = cfg.(max_concurrent_sessions) /\
      live_rules e.(eng_rules) = [] /\
      e.(eng_rules).(max_rules) = DPI_MAX_RULES /\
      alerts_held e.(alerts) = 0 /\
      e.(stats) = zero_stats /\
      e.(next_session_id) = 1 /\ e.(next_alert_id) = 1
  end.
Proof.
  destruct (dpi_init h cfg) as [e|] eqn:Hinit.
  - destruct (dpi_init_engine h cfg e Hinit)
      as (Hc & Hs & Hcap & Hh & Ht & Hst & Hn & Ha).
    destruct (dpi_init_rules_wf h cfg e Hinit) as (_ & Hm & Hl).
    split.
    + intros i Hi Hfalse. revert Hinit. unfold dpi_init.
      destruct h as [|b0 [|b1 [|b2 [|b3 [|b4 h]]]]];
        destruct i as [|[|[|[|[|i]]]]]; try lia; try discriminate Hfalse;
        cbn in Hfalse; injection Hfalse as ->; cbn;
        repeat match goal with
               | |- context [negb ?b] => destruct b; cbn
               end; discriminate.
    + repeat split; try assumption.
      unfold alerts_held. rewrite Hh, Ht. reflexivity.
  - revert Hinit. unfold dpi_init.
    destruct h as [|b0 h]; cbn; [discriminate|].
    destruct b0; cbn; [|intros _; exists 0%nat; split; [lia|reflexivity]].
    destruct h as [|b1 h]; cbn; [discriminate|].
    destruct b1; cbn; [|intros _; exists 1%nat; split; [lia|reflexivity]].
    destruct h as [|b2 h]; cbn; [discriminate|].
    destruct h as [|b3 h]; cbn.
    { destruct b2; cbn; [discriminate|].
      intros _; exists 2%nat; split; [lia|reflexivity]. }
    destruct b2; cbn; [|intros _; exists 2%nat; split; [lia|reflexivity]].
    destruct b3; cbn; [|intros _; exists 3%nat; split; [lia|reflexivity]].
    destruct h as [|b4 h]; cbn; [discriminate|].
    destruct b4; cbn; [discriminate|].
    intros _; exists 4%nat; split; [lia|reflexivity].
Qed.

(** X19. The port table of [classify_by_port] does not depend on the
    direction: swapping source and destination port gives the same
    protocol, as long as neither port is 587, the one port the table
    tests on the destination side only. *)
Theorem classify_by_port_symmetric (a b : Z) :
  a <> 587 -> b <> 587 ->
  classify_by_port a b = classify_by_port b a.
Proof.
  intros Ha Hb. unfold classify_by_port.
  rewrite (proj2 (Z.eqb_neq a 587) Ha), (proj2 (Z.eqb_neq b 587) Hb).
  rewrite !orb_false_r.
  rewrite (orb_comm (b =? 80)), (orb_comm (b =? 443)), (orb_comm (b =? 53)),
    (orb_comm (b =? 25)), (orb_comm (b =? 465)), (orb_comm (b =? 21)),
    (orb_comm (b =? 990)), (orb_comm (b =? 445)), (orb_comm (b =? 22)),
    (orb_comm (b =? 23)), (orb_comm (b =? 161)).
  reflexivity.
Qed.

Lemma classify_by_port_symmetric_witness :
  classify_by_port 52344 443 = classify_by_port 443 52344.
Proof. apply classify_by_port_symmetric; lia. Defined.

Lemma byte_at_range data i :
  Forall (fun b => 0 <= b < 256) data -> 0 <= byte_at data i < 256.
Proof.
  intros Hd. unfold byte_at.
  destruct (data !! i) as [b|] eqn:Hb; cbn; [|lia].
  exact (proj1 (Forall_lookup _ _) Hd i b Hb).
Qed.

Lemma bytes_checked (P : Z -> bool) :
  forallb (fun n => P (Z.of_nat n)) (seq 0 256) = true ->
  forall b, 0 <= b < 256 -> P b = true.
Proof.
  intros Hall b Hb.
  rewrite List.forallb_forall in Hall.
  specialize (Hall (Z.to_nat b)). rewrite Z2Nat.id in Hall by lia.
  apply Hall, List.in_seq. lia.
Qed.

Lemma byte_pair_value a b :
  0 <= a < 256 -> 0 <= b < 256 ->
  u16 (Z.lor (Z.shiftl a 8) b) = 256 * a + b.
Proof.
  intros Ha Hb.
  apply Z.eqb_eq.
  revert b Hb. apply bytes_checked.
  revert a Ha.
  apply (bytes_checked
           (fun a => forallb
                       (fun n => u16 (Z.lor (Z.shiftl a 8) (Z.of_nat n))
                                 =? 256 * a + Z.of_nat n) (seq 0 256))).
  vm_compute. reflexivity.
Qed.

Lemma byte_top_bit b :
  0 <= b < 256 -> (Z.land b 128 =? 0) = (b <? 128).
Proof.
  intros Hb. apply Bool.eqb_prop. revert b Hb.
  apply (bytes_checked
           (fun b => Bool.eqb (Z.land b 128 =? 0) (b <? 128))).
  vm_compute. reflexivity.
Qed.

Lemma byte_low_nibble b : 0 <= b < 256 -> Z.land b 15 = b mod 16.
Proof.
  intros Hb. apply Z.eqb_eq. revert b Hb.
  apply (bytes_checked (fun b => Z.land b 15 =? b mod 16)).
  vm_compute. reflexivity.
Qed.

(** X20. [dissect_dns] looks at the length and at the first four bytes
    only.  With fewer than 12 bytes it answers UNKNOWN without allocating.
    With 12 bytes or more, every payload of bytes is taken for DNS when
    [malloc] succeeds: the transaction id is the big-endian value of bytes
    0 and 1, [is_query] is 1 exactly when the top bit of byte 2 is clear,
    the response code is the low four bits of byte 3, and no name or
    answer is extracted; when [malloc] fails the answer is UNKNOWN. *)
Theorem dissect_dns_header (h : heap) (data : list Z) (len : Z) :
  Forall (fun b => 0 <= b < 256) data ->
  if len <? 12 then dissect_dns h data len = (DPI_PROTO_UNKNOWN, None, h)
  else if fst (alloc h) then
    exists d,
      dissect_dns h data len = (DPI_PROTO_DNS, Some d, snd (alloc h)) /\
      d.(transaction_id) = 256 * byte_at data 0 + byte_at data 1 /\
      d.(is_query) = (if byte_at data 2 <? 128 then 1 else 0) /\
      d.(response_code) = byte_at data 3 mod 16 /\
      d.(query_name) = ""%string /\ d.(query_type) = 0 /\
      d.(answered_ips) = None /\ d.(answer_count) = 0
  else dissect_dns h data len = (DPI_PROTO_UNKNOWN, None, snd (alloc h)).
Proof.
  intros Hd. unfold dissect_dns.
  destruct (len <? 12); [reflexivity|].
  destruct (alloc h) as [[] h']; cbn [fst snd negb]; [|reflexivity].
  eexists. split; [reflexivity|].
  cbn [transaction_id is_query response_code query_name query_type
       answered_ips answer_count].
  rewrite byte_pair_value, byte_top_bit, byte_low_nibble
    by (apply byte_at_range; exact Hd).
  repeat split.
Qed.

Lemma dissect_dns_header_witness :
  exists d,
    dissect_dns [] dns_query_payload 12
    = (DPI_PROTO_DNS, Some d, snd (alloc [])) /\
    d.(transaction_id) = 256 * byte_at dns_query_payload 0
                         + byte_at dns_query_payload 1.
Proof.
  pose proof (dissect_dns_header [] dns_query_payload 12) as H.
  destruct H as (d & H1 & H2 & _).
  - repeat constructor; lia.
  - exists d. split; assumption.
Defined.
End DPIFacts.
